(** * datastructure.py: path access to nested lists and dicts

    A shallow embedding of [datastructure.Datastructure] and the proofs of
    the properties its specification states.

    Modelling conventions.
    - Python text is a [string] whose characters are the code points
      U+0000 to U+00FF.  Among these [str.isdigit] accepts the decimal
      digits 0..9 and the superscripts U+00B2, U+00B3 and U+00B9, while
      [int] reads decimal digits only and raises [ValueError] on a
      superscript.  Ints are unbounded; the interpreter's configurable
      limit on the number of digits that [int] and [str] convert
      ([sys.set_int_max_str_digits]) is taken as switched off.
    - Python values are the tree type [value]: [None], [bool], [int],
      [str], [list], [tuple] and [dict] (keys [None], [int] or [str]).  A
      dict is the list of its items in insertion order.
    - The wrapped structure is a tree (no object occurs twice in it), so an
      in-place mutation is the replacement of one subtree.  A reference to
      an object inside the structure is the list of [frame]s around it.
      A wrapper stored as a value inside the structure is not modelled.
    - A Python call either returns or raises: [outcome].  A mutating
      method returns its result together with the wrapper after the call.
    - A generator function returns a [generator] without running its body;
      a run of the body is the [trace] of what it yields and how it
      ends. *)

From Stdlib Require Import String Ascii List ZArith Lia Bool Decimal DecimalString DecimalZ.
Import ListNotations.

Open Scope Z_scope.

(** ** Python text *)

Module PyStr.

(** The decimal digits 0..9 *)
Definition is_decimal (c : ascii) : bool :=
  ((48 <=? nat_of_ascii c) && (nat_of_ascii c <=? 57))%nat.

(** The characters [str.isdigit] accepts: the decimal digits and the
    superscript digits U+00B2, U+00B3 and U+00B9. *)
Definition is_digit (c : ascii) : bool :=
  is_decimal c
  || (nat_of_ascii c =? 178)%nat || (nat_of_ascii c =? 179)%nat
  || (nat_of_ascii c =? 185)%nat.

Fixpoint all_digits (s : string) : bool :=
  match s with
  | EmptyString => true
  | String c s' => is_digit c && all_digits s'
  end.

(** [s.isdigit()] *)
Definition isdigit (s : string) : bool :=
  match s with
  | EmptyString => false
  | String _ _ => all_digits s
  end.

Fixpoint all_decimal (s : string) : bool :=
  match s with
  | EmptyString => true
  | String c s' => is_decimal c && all_decimal s'
  end.

(** [s.isdecimal()] *)
Definition isdecimal (s : string) : bool :=
  match s with
  | EmptyString => false
  | String _ _ => all_decimal s
  end.

(** [int(s)] for a text [s] with [s.isdigit()]: the decimal reading, and
    [None] for the [ValueError] that a character other than 0..9
    gives. *)
Definition int (s : string) : option Z :=
  match s with
  | EmptyString => None
  | String _ _ =>
      match NilEmpty.uint_of_string s with
      | Some d => Some (Z.of_uint d)
      | None => None
      end
  end.

(** [str(z)] for an int [z] *)
Definition str (z : Z) : string := NilZero.string_of_int (Z.to_int z).

(** [sep.join(parts)] *)
Definition join (sep : string) (parts : list string) : string :=
  String.concat sep parts.

Definition cons_head (c : ascii) (parts : list string) : list string :=
  match parts with
  | [] => [String c EmptyString]
  | h :: t => String c h :: t
  end.

(** [s.split(sep)] for a non-empty [sep], scanning left to right: [skip]
    counts the characters of a separator just matched that are still to be
    passed over. *)
Fixpoint split_go (sep : string) (skip : nat) (s : string) : list string :=
  match s with
  | EmptyString => [EmptyString]
  | String c s' =>
      match skip with
      | S n => split_go sep n s'
      | O =>
          if String.prefix sep s
          then EmptyString :: split_go sep (String.length sep - 1) s'
          else cons_head c (split_go sep 0 s')
      end
  end.

Definition split (sep s : string) : list string := split_go sep 0 s.

(** [s[n:]] *)
Fixpoint drop (n : nat) (s : string) : string :=
  match n, s with
  | O, _ => s
  | S _, EmptyString => EmptyString
  | S n', String _ s' => drop n' s'
  end.

(** [c in s] for a character [c] *)
Fixpoint has_char (c : ascii) (s : string) : bool :=
  match s with
  | EmptyString => false
  | String c' s' => Ascii.eqb c c' || has_char c s'
  end.

(** [sub in s] for texts *)
Fixpoint contains (sub s : string) : bool :=
  String.prefix sub s ||
  match s with
  | EmptyString => false
  | String _ s' => contains sub s'
  end.

End PyStr.

(** ** Python values *)

Set Warnings "-register-all".

Inductive key : Type :=
| KNone
| KInt (z : Z)
| KStr (s : string).

Inductive value : Type :=
| VNone
| VBool (b : bool)
| VInt (z : Z)
| VStr (s : string)
| VList (items : list value)
| VTuple (items : list value)
| VDict (items : list (key * value)).

Inductive exn : Type :=
| KeyError
| IndexError
| TypeError
| AttributeError
| ValueError.

Inductive outcome (A : Type) : Type :=
| Ok (a : A)
| Raise (e : exn).

Arguments Ok {A} a.
Arguments Raise {A} e.

Definition bind {A B : Type} (m : outcome A) (f : A -> outcome B) : outcome B :=
  match m with
  | Ok a => f a
  | Raise e => Raise e
  end.

(** [try: body except: handler] with a bare [except] *)
Definition try_except {A : Type} (body : outcome A) (handler : exn -> outcome A)
  : outcome A :=
  match body with
  | Ok a => Ok a
  | Raise e => handler e
  end.

Declare Scope py_scope.
Delimit Scope py_scope with py.
Notation "x <- m ;; f" := (bind m (fun x => f))
  (at level 61, m at next level, right associativity) : py_scope.
Notation "' p <- m ;; f" := (bind m (fun p => f))
  (at level 61, p pattern, m at next level, right associativity) : py_scope.
Open Scope py_scope.

Definition key_eqb (a b : key) : bool :=
  match a, b with
  | KNone, KNone => true
  | KInt x, KInt y => x =? y
  | KStr x, KStr y => String.eqb x y
  | _, _ => false
  end.

(** [str(k)] for a key *)
Definition str_of_key (k : key) : string :=
  match k with
  | KNone => "None"
  | KInt z => PyStr.str z
  | KStr s => s
  end.

(** [bool(v)] *)
Definition truthy (v : value) : bool :=
  match v with
  | VNone => false
  | VBool b => b
  | VInt z => negb (z =? 0)
  | VStr s => negb (String.eqb s "")
  | VList l | VTuple l => negb (Nat.eqb (List.length l) 0)
  | VDict m => negb (Nat.eqb (List.length m) 0)
  end.

(** [a or b] where [a] may be the argument default [None] *)
Definition py_or (a : option value) (b : value) : value :=
  match a with
  | Some v => if truthy v then v else b
  | None => b
  end.

(** [isinstance(v, (dict, list, tuple))] *)
Definition is_container (v : value) : bool :=
  match v with
  | VList _ | VTuple _ | VDict _ => true
  | _ => false
  end.

(** *** Built-in container operations *)

(** Python's reading of a list index: a negative index counts from the
    end; [None] stands for out of range. *)
Definition norm_index (len : nat) (z : Z) : option nat :=
  let i := if z <? 0 then z + Z.of_nat len else z in
  if (0 <=? i) && (i <? Z.of_nat len) then Some (Z.to_nat i) else None.

Definition seq_getitem (l : list value) (k : key) : outcome value :=
  match k with
  | KInt z =>
      match norm_index (List.length l) z with
      | Some i =>
          match nth_error l i with
          | Some v => Ok v
          | None => Raise IndexError
          end
      | None => Raise IndexError
      end
  | _ => Raise TypeError
  end.

Fixpoint dict_get (m : list (key * value)) (k : key) : option value :=
  match m with
  | [] => None
  | (k', v) :: m' => if key_eqb k k' then Some v else dict_get m' k
  end.

(** [k in m] for a dict [m] *)
Definition dict_has (m : list (key * value)) (k : key) : bool :=
  existsb (fun kv => key_eqb k (fst kv)) m.

(** [m[k] = v]: the item of key [k] gets the value [v] in place, a new
    key goes last. *)
Fixpoint dict_set (m : list (key * value)) (k : key) (v : value)
  : list (key * value) :=
  match m with
  | [] => [(k, v)]
  | (k', v') :: m' =>
      if key_eqb k k' then (k', v) :: m' else (k', v') :: dict_set m' k v
  end.

(** [del m[k]]: the keys of a dict are pairwise distinct, the item of key
    [k] goes. *)
Definition dict_del (m : list (key * value)) (k : key) : list (key * value) :=
  filter (fun kv => negb (key_eqb k (fst kv))) m.

Definition str_getitem (s : string) (k : key) : outcome value :=
  match k with
  | KInt z =>
      match norm_index (String.length s) z with
      | Some i =>
          match String.get i s with
          | Some c => Ok (VStr (String c EmptyString))
          | None => Raise IndexError
          end
      | None => Raise IndexError
      end
  | _ => Raise TypeError
  end.

(** [type(d).__getitem__(d, k)] *)
Definition py_getitem (d : value) (k : key) : outcome value :=
  match d with
  | VList l | VTuple l => seq_getitem l k
  | VDict m =>
      match dict_get m k with
      | Some v => Ok v
      | None => Raise KeyError
      end
  | VStr s => str_getitem s k
  | VNone | VBool _ | VInt _ => Raise AttributeError
  end.

Fixpoint replace_nth (i : nat) (l : list value) (v : value) : list value :=
  match l, i with
  | [], _ => []
  | _ :: l', O => v :: l'
  | x :: l', S i' => x :: replace_nth i' l' v
  end.

Fixpoint remove_nth (i : nat) (l : list value) : list value :=
  match l, i with
  | [], _ => []
  | _ :: l', O => l'
  | x :: l', S i' => x :: remove_nth i' l'
  end.

(** [type(d).__setitem__(d, k, v)]; the result is [d] after the call.
    Only [list] and [dict] have the method. *)
Definition py_setitem (d : value) (k : key) (v : value) : outcome value :=
  match d with
  | VList l =>
      match k with
      | KInt z =>
          match norm_index (List.length l) z with
          | Some i => Ok (VList (replace_nth i l v))
          | None => Raise IndexError
          end
      | _ => Raise TypeError
      end
  | VDict m => Ok (VDict (dict_set m k v))
  | _ => Raise AttributeError
  end.

(** [d.append(v)]; the result is [d] after the call. *)
Definition py_append (d : value) (v : value) : outcome value :=
  match d with
  | VList l => Ok (VList (l ++ [v]))
  | _ => Raise AttributeError
  end.

(** [x == k] for an element [x] of a sequence and a resolved key [k]; a
    [bool] is the int 0 or 1. *)
Definition elem_eqb (k : key) (x : value) : bool :=
  match k, x with
  | KNone, VNone => true
  | KInt z, VInt z' => z =? z'
  | KInt z, VBool b => z =? (if b then 1 else 0)
  | KStr s, VStr s' => String.eqb s s'
  | _, _ => false
  end.

(** [k in l] for a list or tuple [l]: membership among the elements *)
Definition seq_contains (l : list value) (k : key) : bool :=
  existsb (elem_eqb k) l.

(** [type(d).__contains__(d, k)] *)
Definition py_contains (d : value) (k : key) : outcome bool :=
  match d with
  | VList l | VTuple l => Ok (seq_contains l k)
  | VDict m => Ok (dict_has m k)
  | VStr s =>
      match k with
      | KStr sub => Ok (PyStr.contains sub s)
      | _ => Raise TypeError
      end
  | VNone | VBool _ | VInt _ => Raise AttributeError
  end.

(** [type(d).__delitem__(d, k)]; the result is [d] after the call (the
    call itself returns [None]). *)
Definition py_delitem (d : value) (k : key) : outcome value :=
  match d with
  | VList l =>
      match k with
      | KInt z =>
          match norm_index (List.length l) z with
          | Some i => Ok (VList (remove_nth i l))
          | None => Raise IndexError
          end
      | _ => Raise TypeError
      end
  | VDict m => if dict_has m k then Ok (VDict (dict_del m k)) else Raise KeyError
  | _ => Raise AttributeError
  end.

(** *** References into the structure *)

(** What surrounds an item of a container: the other items. *)
Inductive frame : Type :=
| FList (pre post : list value)
| FTuple (pre post : list value)
| FDict (pre : list (key * value)) (k : key) (post : list (key * value)).

Definition plug_frame (f : frame) (v : value) : value :=
  match f with
  | FList pre post => VList (pre ++ v :: post)
  | FTuple pre post => VTuple (pre ++ v :: post)
  | FDict pre k post => VDict (pre ++ (k, v) :: post)
  end.

(** The structure around an object, innermost container first; [plug]
    puts an object back at that place. *)
Definition plug (ctx : list frame) (v : value) : value :=
  fold_left (fun v f => plug_frame f v) ctx v.

Fixpoint dict_split (m : list (key * value)) (k : key)
  : list (key * value) * key * list (key * value) :=
  match m with
  | [] => ([], k, [])
  | (k', v) :: m' =>
      if key_eqb k k' then ([], k', m')
      else let '(pre, k0, post) := dict_split m' k in ((k', v) :: pre, k0, post)
  end.

(** The frame around [d[k]] in [d]. *)
Definition frame_of (d : value) (k : key) : frame :=
  match d, k with
  | VList l, KInt z =>
      match norm_index (List.length l) z with
      | Some i => FList (firstn i l) (skipn (S i) l)
      | None => FList [] []
      end
  | VTuple l, KInt z =>
      match norm_index (List.length l) z with
      | Some i => FTuple (firstn i l) (skipn (S i) l)
      | None => FTuple [] []
      end
  | VDict m, _ => let '(pre, k0, post) := dict_split m k in FDict pre k0 post
  | _, _ => FList [] []
  end.

(** ** The wrapper *)

(** The attributes [Datastructure.__init__] sets. *)
Record Datastructure : Type := mkDatastructure {
  data : value;
  silent_fail : bool;
  symbol_wildcard : string;
  symbol_separator : string;
  symbol_last_list_element : string
}.

Definition DEFAULT_WILDCARD : string := "*".
Definition DEFAULT_SEPARATOR : string := ".".
Definition DEFAULT_LAST_LIST_ELEMENT : string := "+".

(** [Datastructure(data, silent_fail, wildcard, separator, last_list_element)] *)
Definition __init__ (d : value) (silent : bool) (wildcard separator last : string)
  : outcome Datastructure :=
  if is_container d
  then Ok (mkDatastructure d silent wildcard separator last)
  else Raise ValueError.

(** The wrapper after a mutation of the structure it refers to. *)
Definition with_data (self : Datastructure) (d : value) : Datastructure :=
  mkDatastructure d (silent_fail self) (symbol_wildcard self)
    (symbol_separator self) (symbol_last_list_element self).

(** The same structure under the other failure mode. *)
Definition with_silent_fail (self : Datastructure) (b : bool) : Datastructure :=
  mkDatastructure (data self) b (symbol_wildcard self)
    (symbol_separator self) (symbol_last_list_element self).

(** [s.split(sep)]; an empty separator is a [ValueError]. *)
Definition py_split (sep s : string) : outcome (list string) :=
  if String.eqb sep "" then Raise ValueError else Ok (PyStr.split sep s).

(** [int(s)] *)
Definition py_int (s : string) : outcome Z :=
  match PyStr.int s with
  | Some z => Ok z
  | None => Raise ValueError
  end.

Definition is_nil {A : Type} (l : list A) : bool :=
  match l with
  | [] => true
  | _ :: _ => false
  end.

(** The [if isinstance(d, list) ... elif isinstance(d, dict) ...] of the
    loop of [_get_object_and_key]: the key that segment [s] becomes against
    the container [d]; [is_last] is [i == len(keyparts)-1]. *)
Definition coerce_key (self : Datastructure) (allow_last_element_for_lists : bool)
    (d : value) (s : string) (is_last : bool) : outcome key :=
  match d with
  | VList _ =>
      if PyStr.isdigit s then k <- py_int s ;; Ok (KInt k)
      else if String.eqb s (symbol_last_list_element self) && is_last
                && allow_last_element_for_lists
      then Ok (KStr s)
      else Raise KeyError
  | VDict m =>
      if PyStr.isdigit s then
        k_int <- py_int s ;;
        if dict_has m (KInt k_int) then Ok (KInt k_int) else Ok (KStr s)
      else Ok (KStr s)
  | _ => Ok (KStr s)
  end.

(** The [for i, k in enumerate(keyparts)] loop of [_get_object_and_key]
    from the state [(d, k)] over the segments still to come; [ctx] is where
    [d] lies in the structure.  "More iterations are needed" is "segments
    remain". *)
Fixpoint resolve_loop (self : Datastructure) (allow_last_element_for_lists : bool)
    (ctx : list frame) (d : value) (k : key) (keyparts : list string)
  : outcome (list frame * value * key) :=
  match keyparts with
  | [] => Ok (ctx, d, k)
  | s :: rest =>
      k' <- coerce_key self allow_last_element_for_lists d s (is_nil rest) ;;
      match rest with
      | [] => Ok (ctx, d, k')
      | _ :: _ =>
          d' <- py_getitem d k' ;;
          if is_container d'
          then resolve_loop self allow_last_element_for_lists
                 (frame_of d k' :: ctx) d' k' rest
          else Raise KeyError
      end
  end.

(** [self._get_object_and_key(full_key, allow_last_element_for_lists,
    keyparts, data_root)].  The result is the parent object, given with its
    place in the structure, and the key.  [keyparts], when given, is a list
    of [str]. *)
Definition _get_object_and_key (self : Datastructure) (full_key : key)
    (allow_last_element_for_lists : bool) (keyparts : option (list string))
    (data_root : option value) : outcome (list frame * value * key) :=
  keyparts <- match keyparts with
              | Some parts => Ok parts
              | None =>
                  match full_key with
                  | KNone => Raise ValueError
                  | _ => py_split (symbol_separator self) (str_of_key full_key)
                  end
              end ;;
  resolve_loop self allow_last_element_for_lists []
    (py_or data_root (data self)) KNone keyparts.

(** The four accessors are a [try] block under a bare [except]; the
    blocks come first. *)

Definition getitem_try (self : Datastructure) (key : key) : outcome value :=
  '(_, d, k) <- _get_object_and_key self key false None None ;;
  py_getitem d k.

Definition setitem_try (self : Datastructure) (key : key) (v : value)
  : outcome (value * Datastructure) :=
  '(ctx, d, k) <- _get_object_and_key self key true None None ;;
  if key_eqb k (KStr (symbol_last_list_element self))
  then d' <- py_append d v ;; Ok (VNone, with_data self (plug ctx d'))
  else d' <- py_setitem d k v ;; Ok (VNone, with_data self (plug ctx d')).

Definition contains_try (self : Datastructure) (key : key) : outcome value :=
  '(_, d, k) <- _get_object_and_key self key false None None ;;
  b <- py_contains d k ;; Ok (VBool b).

Definition delitem_try (self : Datastructure) (key : key)
  : outcome (value * Datastructure) :=
  '(ctx, d, k) <- _get_object_and_key self key false None None ;;
  d' <- py_delitem d k ;; Ok (VNone, with_data self (plug ctx d')).

(** [self[key]] *)
Definition __getitem__ (self : Datastructure) (key : key) : outcome value :=
  try_except (getitem_try self key)
    (fun e => if negb (silent_fail self) then Raise e else Ok VNone).

(** [self[key] = value]: what the call returns and the wrapper after it. *)
Definition __setitem__ (self : Datastructure) (key : key) (v : value)
  : outcome (value * Datastructure) :=
  try_except (setitem_try self key v)
    (fun e => if negb (silent_fail self) then Raise e else Ok (VNone, self)).

(** [key in self] *)
Definition __contains__ (self : Datastructure) (key : key) : outcome value :=
  try_except (contains_try self key) (fun _ => Ok (VBool false)).

(** [self.__delitem__(key)]: what the call returns and the wrapper after
    it. *)
Definition __delitem__ (self : Datastructure) (key : key)
  : outcome (value * Datastructure) :=
  try_except (delitem_try self key) (fun _ => Ok (VBool false, self)).

(** [self._getitem_extended(full_key, allow_last_plus_for_lists, keyparts,
    data_root)] *)
Definition _getitem_extended (self : Datastructure) (full_key : key)
    (allow_last_plus_for_lists : bool) (keyparts : option (list string))
    (data_root : option value) : outcome value :=
  try_except
    ('(_, d, k) <- _get_object_and_key self full_key allow_last_plus_for_lists
                     keyparts data_root ;;
     py_getitem d k)
    (fun e => if negb (silent_fail self) then Raise e else Ok VNone).

(** ** Generators *)

(** How the body of a generator ends. *)
Inductive status : Type :=
| Done
| Raised (e : exn).

(** A run of a generator body: the pairs it yields, in order, and how it
    ends. *)
Definition trace : Type := (list (string * value) * status)%type.

(** A generator object: calling a generator function runs none of its
    body, the body runs when the object is iterated. *)
Inductive generator : Type :=
| Generator (body : unit -> trace).

(** [list(g)], with the exception that ends the iteration, if any. *)
Definition consume (g : generator) : trace :=
  let 'Generator body := g in body tt.

(** What the first [next(g)] does. *)
Definition first_next (g : generator) : outcome (option (string * value)) :=
  match consume g with
  | (item :: _, _) => Ok (Some item)
  | ([], Done) => Ok None
  | ([], Raised e) => Raise e
  end.

(** [for x in xs: body(x)] inside a generator body. *)
Fixpoint for_each {A : Type} (xs : list A) (body : A -> trace) : trace :=
  match xs with
  | [] => ([], Done)
  | x :: xs' =>
      match body x with
      | (ys, Done) => let '(zs, st) := for_each xs' body in (ys ++ zs, st)
      | (ys, Raised e) => (ys, Raised e)
      end
  end.

(** [for k, v in sub: yield f(k, v)] *)
Definition yield_each (f : string * value -> string * value) (sub : trace) : trace :=
  (map f (fst sub), snd sub).

Fixpoint enumerate_from (i : nat) (l : list value) : list (key * value) :=
  match l with
  | [] => []
  | v :: l' => (KInt (Z.of_nat i), v) :: enumerate_from (S i) l'
  end.

(** [enumerate(l)] *)
Definition enumerate (l : list value) : list (key * value) := enumerate_from 0 l.

(** [keyparts.index(w)] when [w in keyparts] *)
Fixpoint index_of (w : string) (keyparts : list string) : nat :=
  match keyparts with
  | [] => O
  | s :: rest => if String.eqb s w then O else S (index_of w rest)
  end.

(** [w in keyparts] *)
Definition mem (w : string) (keyparts : list string) : bool :=
  existsb (fun s => String.eqb s w) keyparts.

(** The body of [iterpattern] from [data_root = data_root or self.data]
    on, for [keyparts] a list of [str].  The warning of the branch without
    wildcard raises nothing and is left out.  [fuel] bounds the depth of
    the recursion, which goes to the segments after the wildcard. *)
Fixpoint iterpattern_body (fuel : nat) (self : Datastructure)
    (keyparts : list string) (data_root : option value) : trace :=
  match fuel with
  | O => ([], Done)
  | S fuel' =>
      let data_root := py_or data_root (data self) in
      let sep := symbol_separator self in
      if mem (symbol_wildcard self) keyparts then
        let wildcard_index := index_of (symbol_wildcard self) keyparts in
        let keys_before := firstn wildcard_index keyparts in
        let keys_before_as_str_with_separator_suffix :=
          (PyStr.join sep keys_before
             ++ (if is_nil keys_before then "" else sep))%string in
        let keys_after := skipn (S wildcard_index) keyparts in
        match (if is_nil keys_before then Ok (data self)
               else _getitem_extended self KNone false (Some keys_before)
                      (Some data_root)) with
        | Raise e => ([], Raised e)
        | Ok value_containing_wildcard =>
            let wildcard_iterator :=
              match value_containing_wildcard with
              | VDict m => Some m
              | VList l | VTuple l => Some (enumerate l)
              | _ => None
              end in
            match wildcard_iterator with
            | Some entries =>
                for_each entries (fun '(wildcard_key, wildcard_value) =>
                  if is_nil keys_after then
                    ([((keys_before_as_str_with_separator_suffix
                          ++ str_of_key wildcard_key)%string, wildcard_value)],
                     Done)
                  else
                    yield_each
                      (fun '(k, v) =>
                         ((keys_before_as_str_with_separator_suffix
                             ++ str_of_key wildcard_key ++ sep ++ k)%string, v))
                      (iterpattern_body fuel' self keys_after (Some wildcard_value)))
            | None =>
                if silent_fail self then ([], Done) else ([], Raised ValueError)
            end
        end
      else
        match _getitem_extended self KNone false (Some keyparts) (Some data_root) with
        | Raise e => ([], Raised e)
        | Ok v => ([(PyStr.join sep keyparts, v)], Done)
        end
  end.

(** [self.iterpattern(pattern)]: the call returns a generator object. *)
Definition iterpattern (self : Datastructure) (pattern : string)
  : outcome generator :=
  Ok (Generator (fun _ =>
    match py_split (symbol_separator self) pattern with
    | Raise e => ([], Raised e)
    | Ok keyparts => iterpattern_body (S (List.length keyparts)) self keyparts None
    end)).

(** An argument passed as [filter_lambda]: a function of one value, or a
    value, which is not callable. *)
Inductive pyarg : Type :=
| ArgCallable (f : value -> bool)
| ArgValue (v : value).

(** [callable(a)] *)
Definition callable (a : pyarg) : bool :=
  match a with
  | ArgCallable _ => true
  | ArgValue _ => false
  end.

(** The [for key, value in self.iterpattern(pattern)] loop of
    [filterpattern] over what is left of the run [(items, st)] of the
    iterated generator. *)
Fixpoint filter_loop (f : value -> bool) (max_count : option Z)
    (filtered_count : Z) (items : list (string * value)) (st : status) : trace :=
  match items with
  | [] => ([], st)
  | (k, v) :: rest =>
      if f v then
        let filtered_count := filtered_count + 1 in
        let stop := match max_count with
                    | Some m => m <=? filtered_count
                    | None => false
                    end in
        if stop then ([(k, v)], Done)
        else let '(ys, st') := filter_loop f max_count filtered_count rest st in
             ((k, v) :: ys, st')
      else filter_loop f max_count filtered_count rest st
  end.

(** [self.filterpattern(pattern, filter_lambda, max_count)]: the function
    has a [yield] in its body, so the call returns a generator object and
    the body, from its first statement on, runs when that object is
    iterated. *)
Definition filterpattern (self : Datastructure) (pattern : string)
    (filter_lambda : pyarg) (max_count : option Z) : outcome generator :=
  Ok (Generator (fun _ =>
    if negb (callable filter_lambda) then ([], Raised ValueError)
    else
      match iterpattern self pattern with
      | Raise e => ([], Raised e)
      | Ok g =>
          let '(items, st) := consume g in
          match filter_lambda with
          | ArgCallable f => filter_loop f max_count 0 items st
          | ArgValue _ => ([], Raised TypeError)
          end
      end)).

(** ** The rest of the class *)

(** [a == b] on values: a [bool] is the int 0 or 1, sequences are equal
    item by item and only to their own kind, dicts are equal when they
    have the same keys with equal values, in whatever order. *)
Fixpoint py_eq (a b : value) : bool :=
  match a, b with
  | VNone, VNone => true
  | VBool x, VBool y => Bool.eqb x y
  | VBool x, VInt z | VInt z, VBool x => z =? (if x then 1 else 0)
  | VInt x, VInt y => x =? y
  | VStr x, VStr y => String.eqb x y
  | VList l, VList l' | VTuple l, VTuple l' =>
      (fix items_eq (l l' : list value) : bool :=
         match l, l' with
         | [], [] => true
         | x :: t, y :: t' => py_eq x y && items_eq t t'
         | _, _ => false
         end) l l'
  | VDict m, VDict m' =>
      Nat.eqb (List.length m) (List.length m')
      && (fix all_in (m : list (key * value)) : bool :=
            match m with
            | [] => true
            | (k, v) :: t =>
                match dict_get m' k with
                | Some v' => py_eq v v' && all_in t
                | None => false
                end
            end) m
  | _, _ => false
  end.

(** [len(v)] *)
Definition py_len (v : value) : outcome Z :=
  match v with
  | VList l | VTuple l => Ok (Z.of_nat (List.length l))
  | VDict m => Ok (Z.of_nat (List.length m))
  | VStr s => Ok (Z.of_nat (String.length s))
  | VNone | VBool _ | VInt _ => Raise TypeError
  end.

(** [len(self)] *)
Definition __len__ (self : Datastructure) : outcome Z := py_len (data self).

(** [bool(self)] *)
Definition __bool__ (self : Datastructure) : bool := truthy (data self).

(** [range(n)] as the keys it gives *)
Definition range_keys (n : nat) : list key :=
  map (fun i => KInt (Z.of_nat i)) (seq 0 n).

(** [self.keys()]: the keys of a dict, the indexes of anything else. *)
Definition keys (self : Datastructure) : outcome (list key) :=
  match data self with
  | VDict m => Ok (map fst m)
  | d => n <- py_len d ;; Ok (range_keys (Z.to_nat n))
  end.

(** [self.get(key, default)] *)
Definition get (self : Datastructure) (key : key) (default : value) : outcome value :=
  match data self with
  | VDict m =>
      match dict_get m key with
      | Some v => Ok v
      | None => Ok default
      end
  | _ => if silent_fail self then Ok default else Raise AttributeError
  end.

(** [list(self.iteritems())] *)
Definition iteritems (self : Datastructure) : list (key * value) :=
  match data self with
  | VDict m => m
  | _ => []
  end.

(** The [for key, value in self.iterpattern(pattern)] loop of
    [findpattern] over the run [(items, st)] of the iterated generator,
    and the [return None, None] after it. *)
Fixpoint find_loop (filter_lambda : value -> bool)
    (items : list (string * value)) (st : status) : outcome (value * value) :=
  match items with
  | [] =>
      match st with
      | Done => Ok (VNone, VNone)
      | Raised e => Raise e
      end
  | (k, v) :: rest =>
      if filter_lambda v then Ok (VStr k, v) else find_loop filter_lambda rest st
  end.

(** [self.findpattern(pattern, value_or_callable)]: the pair it returns. *)
Definition findpattern (self : Datastructure) (pattern : string)
    (value_or_callable : pyarg) : outcome (value * value) :=
  let filter_lambda :=
    match value_or_callable with
    | ArgCallable f => f
    | ArgValue v => fun x => py_eq x v
    end in
  g <- iterpattern self pattern ;;
  let '(items, st) := consume g in
  find_loop filter_lambda items st.

(** [l[:stop]] *)
Definition slice_to {A : Type} (l : list A) (stop : Z) : list A :=
  let n := Z.of_nat (List.length l) in
  let stop := if stop <? 0 then Z.max 0 (stop + n) else Z.min stop n in
  firstn (Z.to_nat stop) l.

(** [self.key_level_up(key, levels)] *)
Definition key_level_up (self : Datastructure) (key : string) (levels : Z)
  : outcome string :=
  parts <- py_split (symbol_separator self) key ;;
  Ok (PyStr.join (symbol_separator self) (slice_to parts (- levels))).

(** ** Structures of the examples *)

(** [Datastructure(d, silent_fail=silent)]'s attributes. *)
Definition wrap (d : value) (silent : bool) : Datastructure :=
  mkDatastructure d silent DEFAULT_WILDCARD DEFAULT_SEPARATOR
    DEFAULT_LAST_LIST_ELEMENT.

Module Examples.

(** The list of the module docstring: Peter, and John with his friends. *)
Definition peter : value :=
  VDict [(KStr "name", VStr "Peter"); (KStr "age", VInt 45)].

Definition lucy : value :=
  VDict [(KStr "name", VStr "Lucy"); (KStr "since", VStr "1999")].

Definition john : value :=
  VDict [(KStr "name", VStr "John"); (KStr "age", VInt 13);
         (KStr "friends", VList [VStr "Betty"; lucy])].

Definition people : value := VList [peter; john].

(** [[5, 0]] *)
Definition five_zero : value := VList [VInt 5; VInt 0].

(** [[1, 2, 3]] *)
Definition one_two_three : value := VList [VInt 1; VInt 2; VInt 3].

(** [{"*": [1, 2]}]: a dict with the wildcard symbol as a key *)
Definition star_key : value := VDict [(KStr "*", VList [VInt 1; VInt 2])].

(** [{"*": {"x": [1, 2]}, "b": {"x": [3]}}] *)
Definition star_and_b : value :=
  VDict [(KStr "*", VDict [(KStr "x", VList [VInt 1; VInt 2])]);
         (KStr "b", VDict [(KStr "x", VList [VInt 3])])].

(** [[[5], []]] *)
Definition nested_empty : value := VList [VList [VInt 5]; VList []].

(** [[[1, 2], [3, 4]]] *)
Definition two_rows : value :=
  VList [VList [VInt 1; VInt 2]; VList [VInt 3; VInt 4]].

(** [{"numbers": [1, 2, 3, 4]}] *)
Definition numbers : value :=
  VDict [(KStr "numbers", VList [VInt 1; VInt 2; VInt 3; VInt 4])].

(** [{"t": (1, 2)}] *)
Definition tuple_entry : value := VDict [(KStr "t", VTuple [VInt 1; VInt 2])].

(** [{5: "a", "5": "b"}] *)
Definition twin_keys : value := VDict [(KInt 5, VStr "a"); (KStr "5", VStr "b")].

(** [{"ids": {5: "a", "5": "b"}}] *)
Definition id_table : value := VDict [(KStr "ids", twin_keys)].

(** The list of the docstring after [l[1] = 3], [l['0.name'] = 'Peter Pan'],
    [l['+'] = 234] and [l['+'] = { 1:[11, 111, 1111] }]. *)
Definition edited : value :=
  VList [VDict [(KStr "name", VStr "Peter Pan"); (KStr "age", VInt 45)];
         VInt 3; VInt 234;
         VDict [(KInt 1, VList [VInt 11; VInt 111; VInt 1111])]].

(** The list of the docstring section on list index iteration. *)
Definition with_subs : value :=
  VList [VDict [(KStr "name", VStr "1");
                (KStr "sub", VList [VDict [(KStr "name", VStr "1.1")];
                                    VDict [(KStr "name", VStr "1.2")]])];
         VDict [(KStr "name", VStr "2");
                (KStr "sub", VList [VDict [(KStr "name", VStr "2.1")];
                                    VDict [(KStr "name", VStr "2.2")]])]].

End Examples.

(** ** Notions used in the statements *)

(** The segments of a path, and the last of them. *)
Definition segments (self : Datastructure) (path : key) : list string :=
  PyStr.split (symbol_separator self) (str_of_key path).

Definition final_segment (self : Datastructure) (path : key) : string :=
  List.last (segments self path) EmptyString.

(** What [P in self] returns once the item that [P] read is deleted from
    its parent [p], the final segment [s] having become the key [kf]: for
    a dict, whether the text [s] is a key besides the integer key just
    deleted; for a list, whether the integer [kf] is among the elements
    that remain in [p']. *)
Definition has_after_delete (p p' : value) (s : string) (kf : key) : bool :=
  match p, p' with
  | VDict m, _ =>
      match kf with
      | KInt _ => dict_has m (KStr s)
      | _ => false
      end
  | VList _, VList l' => seq_contains l' kf
  | _, _ => false
  end.

(** [reads self pre v]: the segments [pre] lead to the value [v], which
    is the root when there are none and what a path of these segments
    reads otherwise. *)
Definition reads (self : Datastructure) (pre : list string) (v : value) : Prop :=
  (pre = [] /\ data self = v)
  \/ (exists P, P <> KNone /\ segments self P = pre /\ getitem_try self P = Ok v).

(** The key of the dict [m] that the digit segment [s], of integer value
    [z], stands for. *)
Definition digit_key (m : list (key * value)) (s : string) (z : Z) : key :=
  if dict_has m (KInt z) then KInt z else KStr s.

(** A result of the resolver from an object that lies at [ctx] in the
    structure. *)
Definition lift_ctx (ctx : list frame) (r : outcome (list frame * value * key))
  : outcome (list frame * value * key) :=
  match r with
  | Ok (c, p, k) => Ok (c ++ ctx, p, k)
  | Raise e => Raise e
  end.

(** [fails_with self Q e]: the path [Q] does not resolve, the resolver
    raising [e]; so retrieval and assignment fail with [e] (raised in
    strict mode, swallowed in silent mode), membership is [False] and
    deletion returns [False] and changes nothing. *)
Definition fails_with (self : Datastructure) (Q : key) (e : exn) : Prop :=
  getitem_try self Q = Raise e
  /\ (forall V, setitem_try self Q V = Raise e)
  /\ __contains__ self Q = Ok (VBool false)
  /\ __delitem__ self Q = Ok (VBool false, self).

(** The superscript two, a character that [str.isdigit] accepts and [int]
    refuses. *)
Definition superscript_two : string := String "178"%char EmptyString.

(** A segment on which [int] fails although [isdigit] accepts it. *)
Definition int_refuses (s : string) : Prop :=
  PyStr.isdigit s = true /\ PyStr.int s = None.

(** What [findpattern] tests a value with: the callable itself, or
    equality with the value given. *)
Definition accepts (a : pyarg) (v : value) : bool :=
  match a with
  | ArgCallable f => f v
  | ArgValue x => py_eq v x
  end.

(** [hole f k]: the key [k] reads the item that the frame [f] leaves
    out. *)
Definition hole (f : frame) (k : key) : Prop :=
  match f with
  | FList pre post | FTuple pre post =>
      exists z, k = KInt z /\
        norm_index (List.length pre + S (List.length post)) z = Some (List.length pre)
  | FDict pre k0 post => k0 = k /\ dict_has pre k = false
  end.

(** * Properties *)

(** ** Text: splitting and joining, digits *)

Module PyStrFacts.
Import PyStr.

Lemma split_go_nonempty sep n s : split_go sep n s <> [].
Proof.
  revert n; induction s as [|c s IH]; intros n; cbn [split_go]; [discriminate|].
  destruct n as [|n]; [|apply IH].
  destruct (String.prefix sep (String c s)); [discriminate|].
  specialize (IH O). destruct (split_go sep 0 s); [congruence|discriminate].
Qed.

Lemma join_cons sep x l :
  l <> [] -> join sep (x :: l) = (x ++ sep ++ join sep l)%string.
Proof. destruct l; [congruence|reflexivity]. Qed.

Lemma join_cons_head sep c l :
  l <> [] -> join sep (cons_head c l) = String c (join sep l).
Proof.
  destruct l as [|h t]; [congruence|intros _].
  destruct t; reflexivity.
Qed.

Lemma prefix_drop a : forall b,
  String.prefix a b = true -> (a ++ drop (String.length a) b)%string = b.
Proof.
  induction a as [|c a IH]; intros b H; [reflexivity|].
  destruct b as [|c' b]; simpl in H; [discriminate|].
  destruct (ascii_dec c c'); [subst|discriminate].
  simpl. f_equal. auto.
Qed.

Lemma join_split_go sep : sep <> EmptyString ->
  forall s n, join sep (split_go sep n s) = drop n s.
Proof.
  intros Hsep s; induction s as [|c s IH]; intros n.
  - destruct n; reflexivity.
  - destruct n as [|n]; cbn [split_go drop]; [|apply IH].
    destruct (String.prefix sep (String c s)) eqn:Hp.
    + rewrite join_cons by apply split_go_nonempty.
      rewrite IH. destruct sep as [|c0 sep]; [congruence|].
      simpl in Hp. destruct (ascii_dec c0 c); [subst|discriminate].
      cbn [String.length Nat.sub]. rewrite Nat.sub_0_r.
      simpl. f_equal. apply prefix_drop; assumption.
    + rewrite join_cons_head by apply split_go_nonempty.
      rewrite IH. reflexivity.
Qed.

(** Joining the segments of a text gives the text back. *)
Lemma join_split sep s : sep <> EmptyString -> join sep (split sep s) = s.
Proof. intros H. unfold split. rewrite join_split_go by assumption. reflexivity. Qed.

Lemma split_nonempty sep s : split sep s <> [].
Proof. apply split_go_nonempty. Qed.

(** *** A separator of one character *)

Lemma split_char_cons c x s :
  split (String c EmptyString) (String x s) =
  if Ascii.eqb x c then EmptyString :: split (String c EmptyString) s
  else cons_head x (split (String c EmptyString) s).
Proof.
  unfold split. cbn [split_go String.prefix String.length Nat.sub].
  destruct (ascii_dec c x) as [->|Hne].
  - rewrite Ascii.eqb_refl. destruct s; reflexivity.
  - destruct (Ascii.eqb_spec x c); [congruence|reflexivity].
Qed.

Lemma cons_head_app c l l' :
  l <> [] -> cons_head c (l ++ l') = cons_head c l ++ l'.
Proof. destruct l; [congruence|reflexivity]. Qed.

Lemma split_char_app c a b :
  split (String c EmptyString) (a ++ String c b)%string =
  split (String c EmptyString) a ++ split (String c EmptyString) b.
Proof.
  induction a as [|x a IH].
  - cbn [String.append]. rewrite split_char_cons, Ascii.eqb_refl. reflexivity.
  - cbn [String.append]. rewrite !split_char_cons, IH.
    destruct (Ascii.eqb x c); [reflexivity|].
    apply cons_head_app, split_nonempty.
Qed.

Lemma split_char_whole c w :
  has_char c w = false -> split (String c EmptyString) w = [w].
Proof.
  induction w as [|x w IH]; [reflexivity|].
  cbn [has_char]. intros H. apply orb_false_iff in H as [Hx Hw].
  rewrite split_char_cons, (Ascii.eqb_sym x c), Hx, IH by assumption.
  reflexivity.
Qed.

(** With a separator of one character that does not occur in [w], the
    text [p + sep + w] has the segments of [p] and then [w]. *)
Lemma split_extend c p w :
  has_char c w = false ->
  split (String c EmptyString) (p ++ String c EmptyString ++ w)%string =
  split (String c EmptyString) p ++ [w].
Proof.
  intros H. cbn [String.append].
  rewrite split_char_app, (split_char_whole c w H). reflexivity.
Qed.

(** *** Digits *)

Lemma is_decimal_digit c : is_decimal c = true -> is_digit c = true.
Proof. unfold is_digit. intros ->. reflexivity. Qed.

Lemma all_decimal_digits s : all_decimal s = true -> all_digits s = true.
Proof.
  induction s as [|c s IH]; [reflexivity|].
  cbn [all_decimal all_digits]. intros H. apply andb_true_iff in H as [Hc Hs].
  rewrite (is_decimal_digit c Hc), (IH Hs). reflexivity.
Qed.

Lemma isdecimal_isdigit s : isdecimal s = true -> isdigit s = true.
Proof. destruct s; [discriminate|]. apply all_decimal_digits. Qed.

Lemma all_decimal_string_of_uint d :
  all_decimal (NilEmpty.string_of_uint d) = true.
Proof. induction d; simpl; auto. Qed.

Lemma all_digits_string_of_uint d :
  all_digits (NilEmpty.string_of_uint d) = true.
Proof. apply all_decimal_digits, all_decimal_string_of_uint. Qed.

Lemma str_nonneg z : 0 <= z ->
  exists d, d <> Nil /\ Z.to_int z = Pos d /\ str z = NilEmpty.string_of_uint d.
Proof.
  intros Hz. destruct z as [|p|p]; [| |lia].
  - exists (D0 Nil). repeat split. discriminate.
  - exists (Pos.to_uint p).
    pose proof (DecimalPos.Unsigned.to_uint_nonnil p) as Hn.
    repeat split; [assumption|].
    unfold str. cbn [Z.to_int NilZero.string_of_int NilZero.string_of_uint].
    destruct (Pos.to_uint p); [congruence|reflexivity..].
Qed.

Lemma isdecimal_str z : 0 <= z -> isdecimal (str z) = true.
Proof.
  intros Hz. destruct (str_nonneg z Hz) as (d & Hd & _ & ->).
  pose proof (all_decimal_string_of_uint d) as Ha.
  destruct d; [congruence|exact Ha..].
Qed.

Lemma isdigit_str z : 0 <= z -> isdigit (str z) = true.
Proof. intros Hz. apply isdecimal_isdigit, isdecimal_str, Hz. Qed.

Lemma int_str z : 0 <= z -> int (str z) = Some z.
Proof.
  intros Hz. pose proof (isdecimal_str z Hz) as Hdec.
  destruct (str_nonneg z Hz) as (d & Hd & Hi & E).
  unfold int. destruct (str z) eqn:Es; [discriminate|].
  rewrite E, NilEmpty.usu.
  rewrite <- (DecimalZ.of_to z), Hi. reflexivity.
Qed.

Lemma uint_of_char_decimal c d :
  DecimalString.uint_of_char c (Some d) <> None -> is_decimal c = true.
Proof.
  destruct c as [[] [] [] [] [] [] [] []]; vm_compute; intros H;
    first [reflexivity|congruence].
Qed.

Lemma uint_of_string_decimal s d :
  NilEmpty.uint_of_string s = Some d -> all_decimal s = true.
Proof.
  revert d; induction s as [|c s IH]; intros d; [reflexivity|].
  cbn [NilEmpty.uint_of_string all_decimal].
  destruct (NilEmpty.uint_of_string s) as [d'|] eqn:E.
  - intros H. rewrite (IH d' eq_refl), andb_true_r.
    apply (uint_of_char_decimal c d'). congruence.
  - cbn [DecimalString.uint_of_char]. discriminate.
Qed.

Lemma all_decimal_uint_of_string s :
  all_decimal s = true -> exists d, NilEmpty.uint_of_string s = Some d.
Proof.
  induction s as [|c s IH]; [exists Nil; reflexivity|].
  cbn [all_decimal NilEmpty.uint_of_string]. intros H.
  apply andb_true_iff in H as [Hc Hs]. destruct (IH Hs) as [d ->].
  destruct c as [[] [] [] [] [] [] [] []]; cbn in Hc; try discriminate;
    eexists; reflexivity.
Qed.

(** [int] reads exactly the texts of decimal digits, as a number that is
    not negative. *)
Lemma int_some s z : int s = Some z -> isdecimal s = true /\ 0 <= z.
Proof.
  unfold int, isdecimal. destruct s as [|c s]; [discriminate|].
  destruct (NilEmpty.uint_of_string (String c s)) as [d|] eqn:E; [|discriminate].
  intros H; inversion H; subst. split.
  - exact (uint_of_string_decimal _ _ E).
  - unfold Z.of_uint. lia.
Qed.

Lemma int_of_decimal s : isdecimal s = true -> exists z, int s = Some z.
Proof.
  unfold int, isdecimal. destruct s as [|c s]; [discriminate|]. intros H.
  destruct (all_decimal_uint_of_string _ H) as [d ->]. eexists; reflexivity.
Qed.

Lemma int_none s : isdecimal s = false -> int s = None.
Proof.
  intros H. destruct (int s) as [z|] eqn:E; [|reflexivity].
  apply int_some in E as [E _]. congruence.
Qed.

Lemma all_digits_has_char c s :
  is_digit c = false -> all_digits s = true -> has_char c s = false.
Proof.
  intros Hc. induction s as [|x s IH]; [reflexivity|].
  cbn [all_digits has_char]. intros H. apply andb_true_iff in H as [Hx Hs].
  rewrite (IH Hs), orb_false_r.
  destruct (Ascii.eqb_spec c x); [congruence|reflexivity].
Qed.

Lemma has_char_str c z : is_digit c = false -> 0 <= z -> has_char c (str z) = false.
Proof.
  intros Hc Hz. apply all_digits_has_char; [assumption|].
  destruct (str_nonneg z Hz) as (d & _ & _ & ->).
  apply all_digits_string_of_uint.
Qed.

End PyStrFacts.

(** ** The behaviour the module docstring shows *)

Module Doctests.
Import Examples.

Example retrieval :
  __getitem__ (wrap people false) (KInt 0) = Ok peter
  /\ __getitem__ (wrap people false) (KStr "1.name") = Ok (VStr "John")
  /\ __getitem__ (wrap people false) (KStr "1.friends.0") = Ok (VStr "Betty")
  /\ __getitem__ (wrap people false) (KStr "1.friends.1.name") = Ok (VStr "Lucy")
  /\ __getitem__ (wrap people false) (KStr "1.friends.0.name") = Raise KeyError.
Proof. repeat split. Qed.

Example assignment :
  __setitem__ (wrap people false) (KInt 1) (VInt 3)
  = Ok (VNone, wrap (VList [peter; VInt 3]) false)
  /\ __setitem__ (wrap (VList [peter; VInt 3]) false) (KStr "3") (VInt 234)
     = Raise IndexError
  /\ __setitem__ (wrap (VList [peter; VInt 3]) false) (KStr "+") (VInt 234)
     = Ok (VNone, wrap (VList [peter; VInt 3; VInt 234]) false)
  /\ (exists self',
        __setitem__ (wrap edited false) (KStr "3.1.+") (VInt 222) = Ok (VNone, self')
        /\ __getitem__ self' (KStr "3.1")
           = Ok (VList [VInt 11; VInt 111; VInt 1111; VInt 222])
        /\ exists self'',
             __delitem__ self' (KStr "3.1.2") = Ok (VNone, self'')
             /\ __getitem__ self'' (KStr "3.1")
                = Ok (VList [VInt 11; VInt 111; VInt 222])).
Proof.
  repeat (split; [reflexivity|]).
  eexists. split; [reflexivity|]. split; [reflexivity|].
  eexists. split; reflexivity.
Qed.

Example membership :
  __contains__ (wrap edited false) (KInt 234) = Ok (VBool true)
  /\ __contains__ (wrap john false) (KStr "friends") = Ok (VBool true)
  /\ __contains__ (wrap john false) (KStr "address") = Ok (VBool false).
Proof. repeat split. Qed.

Example silent_mode :
  __getitem__ (wrap people true) (KInt 10) = Ok VNone
  /\ __getitem__ (wrap people true) (KStr "0.address") = Ok VNone
  /\ __setitem__ (wrap people true) (KStr "0.name.first") (VStr "P")
     = Ok (VNone, wrap people true).
Proof. repeat split. Qed.

Example iteration :
  (exists g, iterpattern (wrap people true) "*.name" = Ok g
             /\ consume g = ([("0.name", VStr "Peter"); ("1.name", VStr "John")]%string,
                             Done))
  /\ (exists g, iterpattern (wrap people true) "1.friends.*.name" = Ok g
                /\ consume g = ([("1.friends.0.name", VNone);
                                 ("1.friends.1.name", VStr "Lucy")]%string, Done))
  /\ (exists g, iterpattern (wrap people true) "*.friends.*.name" = Ok g
                /\ consume g = ([("1.friends.0.name", VNone);
                                 ("1.friends.1.name", VStr "Lucy")]%string, Done))
  /\ (exists g, iterpattern (wrap with_subs true) "*.sub.*.name" = Ok g
                /\ consume g = ([("0.sub.0.name", VStr "1.1");
                                 ("0.sub.1.name", VStr "1.2");
                                 ("1.sub.0.name", VStr "2.1");
                                 ("1.sub.1.name", VStr "2.2")]%string, Done))
  /\ (exists g, iterpattern (wrap with_subs true) "1.sub.0.name" = Ok g
                /\ consume g = ([("1.sub.0.name", VStr "2.1")]%string, Done)).
Proof. repeat split; eexists; split; reflexivity. Qed.

Example custom_symbols :
  __getitem__ (mkDatastructure with_subs true "*" "/" "+") (KStr "0/sub/1/name")
  = Ok (VStr "1.2")
  /\ (exists g, iterpattern (mkDatastructure people true "?" "." "+") "?.name" = Ok g
                /\ consume g = ([("0.name", VStr "Peter"); ("1.name", VStr "John")]%string,
                                Done))
  /\ __setitem__ (mkDatastructure numbers true "*" "." "$") (KStr "numbers.$") (VInt 10)
     = Ok (VNone,
           mkDatastructure
             (VDict [(KStr "numbers", VList [VInt 1; VInt 2; VInt 3; VInt 4; VInt 10])])
             true "*" "." "$").
Proof.
  split; [reflexivity|]. split; [eexists; split; reflexivity|reflexivity].
Qed.

End Doctests.

(** ** Containers and frames *)

(** The wrappers of the examples are what the constructor builds. *)
Lemma init_wrap d silent :
  is_container d = true ->
  __init__ d silent DEFAULT_WILDCARD DEFAULT_SEPARATOR DEFAULT_LAST_LIST_ELEMENT
  = Ok (wrap d silent).
Proof. intros H. unfold __init__. rewrite H. reflexivity. Qed.

Lemma init_rejects_leaf d silent w sep last :
  is_container d = false -> __init__ d silent w sep last = Raise ValueError.
Proof. intros H. unfold __init__. rewrite H. reflexivity. Qed.

Lemma key_eqb_spec a b : reflect (a = b) (key_eqb a b).
Proof.
  destruct a as [|x|x], b as [|y|y]; simpl; try (constructor; congruence).
  - destruct (Z.eqb_spec x y); constructor; congruence.
  - destruct (String.eqb_spec x y); constructor; congruence.
Qed.

Lemma key_eqb_refl k : key_eqb k k = true.
Proof. destruct (key_eqb_spec k k); congruence. Qed.

Lemma norm_index_lt len z i : norm_index len z = Some i -> (i < len)%nat.
Proof.
  unfold norm_index. intros H.
  destruct (z <? 0) eqn:Hz;
    match type of H with (if ?c then _ else _) = _ => destruct c eqn:Hc end;
    inversion H; subst; lia.
Qed.

Lemma norm_index_nonneg len z :
  0 <= z -> z < Z.of_nat len -> norm_index len z = Some (Z.to_nat z).
Proof.
  intros H0 H1. unfold norm_index.
  destruct (z <? 0) eqn:Hz; [lia|].
  destruct ((0 <=? z) && (z <? Z.of_nat len)) eqn:Hc; [reflexivity|lia].
Qed.

Lemma nth_error_firstn_skipn (l : list value) : forall i v,
  nth_error l i = Some v -> firstn i l ++ v :: skipn (S i) l = l.
Proof.
  induction l as [|x l IH]; intros [|i] v H; simpl in *; try discriminate.
  - congruence.
  - f_equal. auto.
Qed.

Lemma nth_error_middle (pre post : list value) x :
  nth_error (pre ++ x :: post) (List.length pre) = Some x.
Proof. induction pre; simpl; auto. Qed.

Lemma firstn_middle (pre post : list value) x :
  firstn (List.length pre) (pre ++ x :: post) = pre.
Proof. induction pre; simpl; [reflexivity|f_equal; assumption]. Qed.

Lemma skipn_middle (pre post : list value) x :
  skipn (S (List.length pre)) (pre ++ x :: post) = post.
Proof. induction pre; simpl; auto. Qed.

Lemma dict_split_spec m k v :
  dict_get m k = Some v ->
  exists pre post,
    dict_split m k = (pre, k, post) /\ m = pre ++ (k, v) :: post /\
    dict_has pre k = false.
Proof.
  induction m as [|[k' v'] m IH]; simpl; [discriminate|].
  destruct (key_eqb_spec k k') as [<-|Hne]; intros H.
  - inversion H; subst. exists [], m. auto.
  - destruct (IH H) as (pre & post & -> & -> & Hpre).
    exists ((k', v') :: pre), post. repeat split. simpl.
    destruct (key_eqb_spec k k'); [congruence|assumption].
Qed.

Lemma dict_get_middle pre post k x :
  dict_has pre k = false -> dict_get (pre ++ (k, x) :: post) k = Some x.
Proof.
  induction pre as [|[k' v'] pre IH]; simpl.
  - rewrite key_eqb_refl. reflexivity.
  - destruct (key_eqb k k'); [discriminate|exact IH].
Qed.

Lemma dict_split_middle pre post k x :
  dict_has pre k = false -> dict_split (pre ++ (k, x) :: post) k = (pre, k, post).
Proof.
  induction pre as [|[k' v'] pre IH]; simpl.
  - rewrite key_eqb_refl. reflexivity.
  - destruct (key_eqb k k'); [discriminate|]. intros H. rewrite (IH H). reflexivity.
Qed.

Lemma dict_has_middle pre post k x y j :
  dict_has (pre ++ (k, x) :: post) j = dict_has (pre ++ (k, y) :: post) j.
Proof. unfold dict_has. rewrite !existsb_app. reflexivity. Qed.

Lemma is_container_plug_frame f x : is_container (plug_frame f x) = true.
Proof. destruct f; reflexivity. Qed.

Lemma getitem_container d k v :
  py_getitem d k = Ok v -> is_container v = true -> is_container d = true.
Proof.
  destruct d; simpl; try discriminate; auto.
  unfold str_getitem. destruct k; try discriminate.
  destruct (norm_index _ _); [|discriminate].
  destruct (String.get _ _); [|discriminate].
  intros H; inversion H; subst. discriminate.
Qed.

Lemma seq_getitem_inv l k v :
  seq_getitem l k = Ok v ->
  exists z i, k = KInt z /\ norm_index (List.length l) z = Some i /\
              nth_error l i = Some v.
Proof.
  unfold seq_getitem. destruct k as [|z|]; try discriminate.
  destruct (norm_index _ z) as [i|] eqn:Hi; [|discriminate].
  destruct (nth_error l i) eqn:Hn; [|discriminate].
  intros H; inversion H; subst. eauto.
Qed.

Lemma seq_frame_length (l : list value) i :
  (i < List.length l)%nat ->
  (List.length (firstn i l) + S (List.length (skipn (S i) l)))%nat = List.length l
  /\ List.length (firstn i l) = i.
Proof.
  intros H. rewrite length_firstn, length_skipn. lia.
Qed.

(** Reading [d[k]] leaves a frame whose hole [k] designates, and
    plugging the item read gives [d] back. *)
Lemma getitem_hole d k v :
  py_getitem d k = Ok v -> is_container d = true ->
  hole (frame_of d k) k /\ plug_frame (frame_of d k) v = d.
Proof.
  destruct d as [| | | |l|l|m]; cbn [is_container py_getitem frame_of];
    try discriminate; intros H _.
  - apply seq_getitem_inv in H as (z & i & -> & Hi & Hn).
    rewrite Hi. pose proof (norm_index_lt _ _ _ Hi) as Hlt.
    destruct (seq_frame_length l i Hlt) as [Hlen Hpre].
    cbn [hole plug_frame].
    split; [|f_equal; apply nth_error_firstn_skipn; assumption].
    exists z. rewrite Hlen, Hpre. auto.
  - apply seq_getitem_inv in H as (z & i & -> & Hi & Hn).
    rewrite Hi. pose proof (norm_index_lt _ _ _ Hi) as Hlt.
    destruct (seq_frame_length l i Hlt) as [Hlen Hpre].
    cbn [hole plug_frame].
    split; [|f_equal; apply nth_error_firstn_skipn; assumption].
    exists z. rewrite Hlen, Hpre. auto.
  - destruct (dict_get m k) eqn:Hg; [|discriminate]. inversion H; subst.
    destruct (dict_split_spec _ _ _ Hg) as (pre & post & -> & -> & Hpre).
    simpl. auto.
Qed.

Lemma length_middle (pre post : list value) x :
  List.length (pre ++ x :: post) = (List.length pre + S (List.length post))%nat.
Proof. rewrite length_app. reflexivity. Qed.

Lemma hole_getitem f k x : hole f k -> py_getitem (plug_frame f x) k = Ok x.
Proof.
  destruct f as [pre post|pre post|pre k0 post]; simpl.
  - intros (z & -> & Hi). unfold seq_getitem.
    rewrite length_middle, Hi, nth_error_middle. reflexivity.
  - intros (z & -> & Hi). unfold seq_getitem.
    rewrite length_middle, Hi, nth_error_middle. reflexivity.
  - intros [-> Hpre]. rewrite dict_get_middle by assumption. reflexivity.
Qed.

Lemma hole_frame_of f k x : hole f k -> frame_of (plug_frame f x) k = f.
Proof.
  destruct f as [pre post|pre post|pre k0 post]; cbn [hole plug_frame frame_of].
  - intros (z & -> & Hi).
    rewrite length_middle, Hi, firstn_middle, skipn_middle. reflexivity.
  - intros (z & -> & Hi).
    rewrite length_middle, Hi, firstn_middle, skipn_middle. reflexivity.
  - intros [-> Hpre]. rewrite dict_split_middle by assumption. reflexivity.
Qed.

(** What a segment becomes depends on the kind of the container and, for
    a dict, on its keys: not on the item in the hole. *)
Lemma coerce_plug_frame self a f x y s b :
  coerce_key self a (plug_frame f x) s b = coerce_key self a (plug_frame f y) s b.
Proof.
  destruct f as [pre post|pre post|pre k0 post]; cbn [plug_frame coerce_key];
    try reflexivity.
  destruct (PyStr.isdigit s); [|reflexivity].
  destruct (py_int s) as [z|]; [|reflexivity]. cbn [bind].
  rewrite (dict_has_middle pre post k0 x y). reflexivity.
Qed.

(** ** The resolver *)

Lemma bind_ok {A B : Type} (m : outcome A) (f : A -> outcome B) b :
  bind m f = Ok b -> exists a, m = Ok a /\ f a = Ok b.
Proof. destruct m; simpl; [eauto|discriminate]. Qed.

Lemma resolve_loop_last self a ctx d k s :
  resolve_loop self a ctx d k [s] =
  (k' <- coerce_key self a d s true ;; Ok (ctx, d, k')).
Proof. reflexivity. Qed.

Lemma resolve_loop_more self a ctx d k s rest :
  rest <> [] ->
  resolve_loop self a ctx d k (s :: rest) =
  (k' <- coerce_key self a d s false ;;
   d' <- py_getitem d k' ;;
   if is_container d'
   then resolve_loop self a (frame_of d k' :: ctx) d' k' rest
   else Raise KeyError).
Proof. destruct rest; [congruence|reflexivity]. Qed.

(** Where the append symbol is not admitted, the flag and the position do
    not matter. *)
Lemma coerce_key_no_append self a a' d s b b' :
  b && a = false -> b' && a' = false ->
  coerce_key self a d s b = coerce_key self a' d s b'.
Proof.
  intros H H'. destruct d; simpl; try reflexivity.
  rewrite <- !andb_assoc, H, H'. reflexivity.
Qed.

Lemma coerce_key_other_symbol self a a' d s b :
  s <> symbol_last_list_element self ->
  coerce_key self a d s b = coerce_key self a' d s b.
Proof.
  intros H. destruct d; simpl; try reflexivity.
  destruct (String.eqb_spec s (symbol_last_list_element self)); [congruence|].
  reflexivity.
Qed.

Lemma plug_snoc fs f v : plug (fs ++ [f]) v = plug_frame f (plug fs v).
Proof. unfold plug. rewrite fold_left_app. reflexivity. Qed.

Lemma is_container_plug fs p : is_container p = true -> is_container (plug fs p) = true.
Proof.
  destruct fs as [|f fs] using rev_ind; [auto|].
  intros _. rewrite plug_snoc. apply is_container_plug_frame.
Qed.

(** The resolver on a path of segments [ks ++ [s]]: the key is what [s]
    becomes against the parent, the parent lies in the structure where the
    frames say, and after any container [p'] has taken the parent's place
    the same segments lead to [p']. *)
Lemma resolve_replug self a ks : forall s ctx d k ctx' p kf,
  resolve_loop self a ctx d k (ks ++ [s]) = Ok (ctx', p, kf) ->
  coerce_key self a p s true = Ok kf /\
  exists fs, ctx' = fs ++ ctx /\ plug fs p = d /\
    forall a' ctx0 k0 p' s', is_container p' = true ->
      resolve_loop self a' ctx0 (plug fs p') k0 (ks ++ [s']) =
      (kf' <- coerce_key self a' p' s' true ;; Ok (fs ++ ctx0, p', kf')).
Proof.
  induction ks as [|s0 ks IH]; intros s ctx d k ctx' p kf H.
  - cbn [List.app] in H. rewrite resolve_loop_last in H.
    apply bind_ok in H as (k' & Hk & H). inversion H; subst.
    split; [assumption|]. exists []. repeat split.
  - cbn [List.app] in H. rewrite resolve_loop_more in H by (destruct ks; discriminate).
    apply bind_ok in H as (k1 & Hk1 & H).
    apply bind_ok in H as (d1 & Hd1 & H).
    destruct (is_container d1) eqn:Hc1; [|discriminate].
    pose proof (getitem_container _ _ _ Hd1 Hc1) as Hcd.
    destruct (getitem_hole _ _ _ Hd1 Hcd) as [Hhole Hplug].
    destruct (IH _ _ _ _ _ _ _ H) as (Hkf & fs & -> & Hp & Hre).
    split; [assumption|].
    exists (fs ++ [frame_of d k1]). rewrite <- app_assoc. split; [reflexivity|].
    rewrite plug_snoc, Hp. split; [assumption|].
    intros a' ctx0 k0 p' s' Hc'. cbn [List.app].
    rewrite resolve_loop_more by (destruct ks; discriminate).
    rewrite plug_snoc.
    rewrite (coerce_plug_frame self a' _ (plug fs p') d1), Hplug.
    rewrite (coerce_key_no_append self a' a d s0 false false) by reflexivity.
    rewrite Hk1. cbn [bind].
    rewrite (hole_getitem _ _ _ Hhole). cbn [bind].
    rewrite (is_container_plug fs p' Hc'), (hole_frame_of _ _ _ Hhole).
    rewrite (Hre a' (frame_of d k1 :: ctx0) k1 p' s' Hc').
    rewrite <- app_assoc. reflexivity.
Qed.

(** The last segment becomes a key against what the segments before it
    resolve to. *)
Lemma resolve_snoc self a ks : ks <> [] -> forall s ctx d k,
  resolve_loop self a ctx d k (ks ++ [s]) =
  ('(ctx1, p, k1) <- resolve_loop self false ctx d k ks ;;
   d' <- py_getitem p k1 ;;
   if is_container d'
   then k2 <- coerce_key self a d' s true ;; Ok (frame_of p k1 :: ctx1, d', k2)
   else Raise KeyError).
Proof.
  induction ks as [|s0 ks IH]; [congruence|intros _ s ctx d k].
  destruct ks as [|s1 ks].
  - cbn [List.app]. rewrite resolve_loop_more by discriminate.
    rewrite !resolve_loop_last.
    rewrite (coerce_key_no_append self a false d s0 false true) by reflexivity.
    destruct (coerce_key self false d s0 true); reflexivity.
  - cbn [List.app]. rewrite !resolve_loop_more by discriminate.
    rewrite (coerce_key_no_append self a false d s0 false false) by reflexivity.
    destruct (coerce_key self false d s0 false) as [k1|]; [|reflexivity].
    cbn [bind]. destruct (py_getitem d k1) as [d1|]; [|reflexivity].
    cbn [bind]. destruct (is_container d1); [|reflexivity].
    apply (IH ltac:(discriminate)).
Qed.

(** Unless the last segment is the append symbol, the flag does not
    matter. *)
Lemma resolve_loop_flag self ks : forall s ctx d k a a',
  s <> symbol_last_list_element self ->
  resolve_loop self a ctx d k (ks ++ [s]) = resolve_loop self a' ctx d k (ks ++ [s]).
Proof.
  induction ks as [|s0 ks IH]; intros s ctx d k a a' Hs.
  - cbn [List.app]. rewrite !resolve_loop_last.
    rewrite (coerce_key_other_symbol self a a' d s true Hs). reflexivity.
  - cbn [List.app]. rewrite !resolve_loop_more by (destruct ks; discriminate).
    rewrite (coerce_key_no_append self a a' d s0 false false) by reflexivity.
    destruct (coerce_key self a' d s0 false) as [k1|]; [|reflexivity].
    cbn [bind]. destruct (py_getitem d k1) as [d1|]; [|reflexivity].
    cbn [bind]. destruct (is_container d1); [|reflexivity].
    apply IH; assumption.
Qed.

Lemma coerce_key_with_data self x a d s b :
  coerce_key (with_data self x) a d s b = coerce_key self a d s b.
Proof. reflexivity. Qed.

Lemma resolve_loop_with_data self x a ks : forall ctx d k,
  resolve_loop (with_data self x) a ctx d k ks = resolve_loop self a ctx d k ks.
Proof.
  induction ks as [|s ks IH]; intros ctx d k; [reflexivity|].
  cbn [resolve_loop]. rewrite coerce_key_with_data.
  destruct (coerce_key self a d s (is_nil ks)) as [k1|]; [|reflexivity].
  cbn [bind]. destruct ks; [reflexivity|].
  destruct (py_getitem d k1) as [d1|]; [|reflexivity].
  cbn [bind]. destruct (is_container d1); [apply IH|reflexivity].
Qed.

Lemma py_int_ok s z : py_int s = Ok z <-> PyStr.int s = Some z.
Proof.
  unfold py_int. destruct (PyStr.int s); split; intros H; inversion H; reflexivity.
Qed.

Lemma coerce_key_result self a d s b kf :
  coerce_key self a d s b = Ok kf ->
  (exists z, PyStr.int s = Some z /\ kf = KInt z) \/ kf = KStr s.
Proof.
  unfold coerce_key, py_int. destruct (PyStr.int s) as [z|]; destruct d;
    cbn [bind]; intros H;
    repeat match type of H with
           | (if ?c then _ else _) = _ => destruct c
           end; inversion H; eauto.
Qed.

(** A key the resolver gives is never the append symbol as an [int]. *)
Lemma coerce_key_not_symbol self a d s b kf :
  coerce_key self a d s b = Ok kf -> s <> symbol_last_list_element self ->
  key_eqb kf (KStr (symbol_last_list_element self)) = false.
Proof.
  intros H Hs. destruct (coerce_key_result _ _ _ _ _ _ H) as [(z & _ & ->)| ->];
    [reflexivity|].
  simpl. destruct (String.eqb_spec s (symbol_last_list_element self)); congruence.
Qed.

(** A path is resolved from the root along its segments. *)
Lemma get_object_inv self path a r :
  _get_object_and_key self path a None None = Ok r ->
  path <> KNone /\ symbol_separator self <> EmptyString /\
  resolve_loop self a [] (data self) KNone (segments self path) = Ok r.
Proof.
  unfold _get_object_and_key, py_split, segments. intros H.
  apply bind_ok in H as (ks & Hks & H).
  destruct (String.eqb_spec (symbol_separator self) "") as [He|Hne].
  - destruct path; discriminate.
  - destruct path; try discriminate; inversion Hks; subst;
      (split; [discriminate|split; [assumption|exact H]]).
Qed.

Lemma get_object_eq self path a :
  path <> KNone -> symbol_separator self <> EmptyString ->
  _get_object_and_key self path a None None =
  resolve_loop self a [] (data self) KNone (segments self path).
Proof.
  unfold _get_object_and_key, py_split, segments. intros Hp Hs.
  destruct (String.eqb_spec (symbol_separator self) ""); [congruence|].
  destruct path; [congruence|reflexivity..].
Qed.

Lemma segments_snoc self path :
  exists ks, segments self path = ks ++ [final_segment self path].
Proof.
  unfold final_segment.
  destruct (exists_last (PyStrFacts.split_nonempty (symbol_separator self)
                           (str_of_key path))) as (ks & s & Hs).
  fold (segments self path) in Hs. rewrite Hs, last_last. eauto.
Qed.

(** ** Assignment, then retrieval *)

Lemma length_replace_nth l : forall i v,
  List.length (replace_nth i l v) = List.length l.
Proof. induction l; intros [|i] v; simpl; auto. Qed.

Lemma nth_error_replace_nth l : forall i v,
  (i < List.length l)%nat -> nth_error (replace_nth i l v) i = Some v.
Proof.
  induction l; intros [|i] v H; simpl in *; try lia; [reflexivity|].
  apply IHl. lia.
Qed.

Lemma dict_get_set m k v : dict_get (dict_set m k v) k = Some v.
Proof.
  induction m as [|[k' v'] m IH]; simpl.
  - rewrite key_eqb_refl. reflexivity.
  - destruct (key_eqb k k') eqn:E; simpl; rewrite E; [reflexivity|exact IH].
Qed.

Lemma dict_has_set m k v j :
  dict_has (dict_set m k v) j = dict_has m j || key_eqb j k.
Proof.
  unfold dict_has. induction m as [|[k' v'] m IH]; cbn [dict_set existsb fst].
  - rewrite orb_false_r. reflexivity.
  - destruct (key_eqb_spec k k') as [->|Hne]; cbn [existsb fst].
    + destruct (key_eqb j k'), (existsb (fun kv => key_eqb j (fst kv)) m); reflexivity.
    + rewrite IH, orb_assoc. reflexivity.
Qed.

Lemma dict_get_has m k v : dict_get m k = Some v -> dict_has m k = true.
Proof.
  induction m as [|[k' v'] m IH]; simpl; [discriminate|].
  destruct (key_eqb k k'); [reflexivity|exact IH].
Qed.

(** Assigning at a key that reads: the assignment succeeds, the segment
    still becomes the same key, and the key now reads the value. *)
Lemma final_set self p s kf v0 V :
  coerce_key self false p s true = Ok kf ->
  py_getitem p kf = Ok v0 ->
  exists p', py_setitem p kf V = Ok p' /\ is_container p' = true /\
             coerce_key self false p' s true = Ok kf /\
             py_getitem p' kf = Ok V.
Proof.
  intros Hk Hg. destruct p as [| | |t|l|l|m]; try discriminate.
  - simpl in Hk. inversion Hk; subst. discriminate.
  - cbn [py_getitem] in Hg.
    apply seq_getitem_inv in Hg as (z & i & -> & Hi & Hn).
    pose proof (norm_index_lt _ _ _ Hi) as Hlt.
    exists (VList (replace_nth i l V)). cbn [py_setitem]. rewrite Hi.
    repeat split; [exact Hk|].
    cbn [py_getitem seq_getitem].
    rewrite length_replace_nth, Hi, nth_error_replace_nth by assumption.
    reflexivity.
  - simpl in Hk. inversion Hk; subst. discriminate.
  - exists (VDict (dict_set m kf V)). repeat split.
    + cbn [coerce_key] in Hk |- *.
      destruct (PyStr.isdigit s); [|assumption].
      destruct (py_int s) as [z|]; [|discriminate]. cbn [bind] in Hk |- *.
      rewrite dict_has_set.
      destruct (dict_has m (KInt z)) eqn:Hh;
        inversion Hk; subst; [rewrite key_eqb_refl|]; reflexivity.
    + simpl. rewrite dict_get_set. reflexivity.
Qed.

(** C1 (round trip).  For every path [P] that resolves against the wrapped
    structure ([self[P]] reads a value) and that is valid for assignment,
    its final segment not being the append symbol, and for every value
    [V]: [self[P] = V] succeeds and [self[P]] on the same wrapper then
    returns [V].  This holds in both failure modes, and with or without
    wildcard segments in [P], which assignment and retrieval read as plain
    keys. *)
Theorem set_then_get (self : Datastructure) (P : key) (V v0 : value) :
  getitem_try self P = Ok v0 ->
  final_segment self P <> symbol_last_list_element self ->
  exists self', __setitem__ self P V = Ok (VNone, self')
                /\ __getitem__ self' P = Ok V.
Proof.
  intros Hget Hvalid. unfold getitem_try in Hget.
  apply bind_ok in Hget as ([[ctx p] kf] & Hres & Hread).
  apply get_object_inv in Hres as (HP & Hsep & Hres).
  destruct (segments_snoc self P) as (ks & Hks).
  set (s := final_segment self P) in *. rewrite Hks in Hres.
  destruct (resolve_replug _ _ _ _ _ _ _ _ _ _ Hres) as (Hkf & fs & -> & _ & Hre).
  destruct (final_set self p s kf v0 V Hkf Hread) as (p' & Hset & Hc' & Hkf' & Hread').
  assert (Hneq : key_eqb kf (KStr (symbol_last_list_element self)) = false).
  { destruct (coerce_key_result _ _ _ _ _ _ Hkf) as [(z & _ & ->)| ->]; [reflexivity|].
    simpl. destruct (String.eqb_spec s (symbol_last_list_element self)); congruence. }
  exists (with_data self (plug (fs ++ []) p')). split.
  - unfold __setitem__, setitem_try.
    rewrite (get_object_eq self P true HP Hsep), Hks.
    rewrite (resolve_loop_flag self ks s [] (data self) KNone true false Hvalid), Hres.
    cbn [bind]. rewrite Hneq, Hset. reflexivity.
  - unfold __getitem__, getitem_try.
    rewrite (get_object_eq (with_data self _) P false HP Hsep).
    change (segments (with_data self (plug (fs ++ []) p')) P) with (segments self P).
    rewrite Hks, resolve_loop_with_data. cbn [data with_data].
    rewrite app_nil_r, (Hre false [] KNone p' s Hc'), Hkf'. cbn [bind].
    rewrite Hread'. reflexivity.
Qed.

Lemma set_then_get_witness :
  getitem_try (wrap Examples.people true) (KStr "1.name") = Ok (VStr "John")
  /\ final_segment (wrap Examples.people true) (KStr "1.name")
     <> symbol_last_list_element (wrap Examples.people true)
  /\ exists self',
       __setitem__ (wrap Examples.people true) (KStr "1.name") (VStr "Hans")
       = Ok (VNone, self')
       /\ __getitem__ self' (KStr "1.name") = Ok (VStr "Hans").
Proof.
  assert (H1 : getitem_try (wrap Examples.people true) (KStr "1.name")
               = Ok (VStr "John")) by reflexivity.
  assert (H2 : final_segment (wrap Examples.people true) (KStr "1.name")
               <> symbol_last_list_element (wrap Examples.people true))
    by (vm_compute; discriminate).
  split; [exact H1|split; [exact H2|]].
  exact (set_then_get _ _ (VStr "Hans") _ H1 H2).
Defined.

(** ** Retrieval under the two failure modes *)

Lemma resolve_loop_with_silent self b a ks : forall ctx d k,
  resolve_loop (with_silent_fail self b) a ctx d k ks = resolve_loop self a ctx d k ks.
Proof.
  induction ks as [|s ks IH]; intros ctx d k; [reflexivity|].
  cbn [resolve_loop].
  change (coerce_key (with_silent_fail self b) a d s (is_nil ks))
    with (coerce_key self a d s (is_nil ks)).
  destruct (coerce_key self a d s (is_nil ks)) as [k1|]; [|reflexivity].
  cbn [bind]. destruct ks; [reflexivity|].
  destruct (py_getitem d k1) as [d1|]; [|reflexivity].
  cbn [bind]. destruct (is_container d1); [apply IH|reflexivity].
Qed.

(** Whether a path resolves does not depend on the failure mode. *)
Lemma getitem_try_with_silent self b P :
  getitem_try (with_silent_fail self b) P = getitem_try self P.
Proof.
  unfold getitem_try, _get_object_and_key.
  change (symbol_separator (with_silent_fail self b)) with (symbol_separator self).
  change (data (with_silent_fail self b)) with (data self).
  destruct (match P with
            | KNone => Raise ValueError
            | _ => py_split (symbol_separator self) (str_of_key P)
            end) as [ks|]; [|reflexivity].
  cbn [bind]. rewrite resolve_loop_with_silent. reflexivity.
Qed.

(** C2 (silent vs strict).  For every path that does not resolve, the
    resolution or the read raising [e]: on the wrapper in silent mode
    [self[P]] returns [None] and raises nothing, on the wrapper in strict
    mode it raises that same [e]. *)
Theorem get_silent_vs_strict (self : Datastructure) (P : key) (e : exn) :
  getitem_try self P = Raise e ->
  __getitem__ (with_silent_fail self true) P = Ok VNone
  /\ __getitem__ (with_silent_fail self false) P = Raise e.
Proof.
  intros H. unfold __getitem__.
  rewrite !getitem_try_with_silent, H. split; reflexivity.
Qed.

Lemma get_silent_vs_strict_witness :
  getitem_try (wrap Examples.people true) (KStr "1.friends.0.name") = Raise KeyError
  /\ __getitem__ (with_silent_fail (wrap Examples.people true) true)
       (KStr "1.friends.0.name") = Ok VNone
  /\ __getitem__ (with_silent_fail (wrap Examples.people true) false)
       (KStr "1.friends.0.name") = Raise KeyError.
Proof.
  assert (H : getitem_try (wrap Examples.people true) (KStr "1.friends.0.name")
              = Raise KeyError) by reflexivity.
  split; [exact H|].
  exact (get_silent_vs_strict _ _ _ H).
Defined.

(** The errors a path can raise on a container, given as text or int and
    split at a non-empty separator: the resolver's [KeyError], the
    [ValueError] of [int] on a segment that [isdigit] accepts and [int]
    does not, and the [KeyError], [IndexError] or [TypeError] of a
    read. *)
Lemma py_getitem_errors d k e :
  is_container d = true -> py_getitem d k = Raise e ->
  e = KeyError \/ e = IndexError \/ e = TypeError.
Proof.
  destruct d as [| | | |l|l|m]; try discriminate; intros _; cbn [py_getitem].
  - unfold seq_getitem. destruct k; intros H; try (inversion H; auto).
    destruct (norm_index _ _); [destruct (nth_error _ _)|]; inversion H; auto.
  - unfold seq_getitem. destruct k; intros H; try (inversion H; auto).
    destruct (norm_index _ _); [destruct (nth_error _ _)|]; inversion H; auto.
  - destruct (dict_get m k); intros H; inversion H; auto.
Qed.

Lemma coerce_key_errors self a d s b e :
  coerce_key self a d s b = Raise e ->
  e = KeyError \/ (e = ValueError /\ int_refuses s).
Proof.
  unfold coerce_key, py_int, int_refuses.
  destruct (PyStr.int s) as [z|]; destruct d; cbn [bind]; intros H;
    repeat match type of H with
           | (if ?c then _ else _) = _ => destruct c eqn:?
           end; inversion H; auto.
Qed.

Lemma resolve_loop_errors self a ks : forall ctx d k,
  is_container d = true ->
  match resolve_loop self a ctx d k ks with
  | Ok (_, p, _) => is_container p = true
  | Raise e => e = KeyError \/ e = IndexError \/ e = TypeError
               \/ (e = ValueError /\ exists s, In s ks /\ int_refuses s)
  end.
Proof.
  induction ks as [|s ks IH]; intros ctx d k Hd; [exact Hd|].
  cbn [resolve_loop].
  destruct (coerce_key self a d s (is_nil ks)) as [k1|e] eqn:Hk; cbn [bind].
  - destruct ks as [|s1 ks]; [exact Hd|].
    destruct (py_getitem d k1) as [d1|e] eqn:Hg; cbn [bind].
    + destruct (is_container d1) eqn:Hc; [|auto].
      specialize (IH (frame_of d k1 :: ctx) d1 k1 Hc).
      destruct (resolve_loop self a (frame_of d k1 :: ctx) d1 k1 (s1 :: ks))
        as [[[? ?] ?]|e]; [exact IH|].
      destruct IH as [?|[?|[?|(? & s' & Hin & Hs')]]]; auto.
      right; right; right. split; [assumption|]. exists s'. split; [right|]; assumption.
    + destruct (py_getitem_errors _ _ _ Hd Hg) as [?|[?|?]]; auto.
  - destruct (coerce_key_errors _ _ _ _ _ _ Hk) as [?|[? Hs]]; [auto|].
    right; right; right. split; [assumption|]. exists s. split; [left; reflexivity|exact Hs].
Qed.

Lemma getitem_try_errors self P e :
  is_container (data self) = true -> P <> KNone ->
  symbol_separator self <> EmptyString ->
  getitem_try self P = Raise e ->
  e = KeyError \/ e = IndexError \/ e = TypeError
  \/ (e = ValueError /\ exists s, In s (segments self P) /\ int_refuses s).
Proof.
  intros Hd HP Hs. unfold getitem_try. rewrite (get_object_eq self P false HP Hs).
  pose proof (resolve_loop_errors self false (segments self P) [] (data self) KNone Hd) as H.
  destruct (resolve_loop self false [] (data self) KNone (segments self P))
    as [[[ctx p] kf]|e']; cbn [bind].
  - intros Hg. destruct (py_getitem_errors _ _ _ H Hg) as [?|[?|?]]; auto.
  - intros E; inversion E; subst. assumption.
Qed.

(** ** Deletion *)

(** C3 as amended (deletion never raises).  For every path and whatever the
    failure mode, [self.__delitem__(P)] raises nothing: when the removal
    succeeds it returns [None] and the wrapper refers to the structure
    without the item, and on any error it returns [False] and the
    structure is as before. *)
Theorem delete_never_raises (self : Datastructure) (P : key) :
  (exists self', delitem_try self P = Ok (VNone, self')
                 /\ __delitem__ self P = Ok (VNone, self'))
  \/ (exists e, delitem_try self P = Raise e
                /\ __delitem__ self P = Ok (VBool false, self)).
Proof.
  unfold __delitem__. destruct (delitem_try self P) as [[r self']|e] eqn:H.
  - left. exists self'. unfold delitem_try in H.
    destruct (_get_object_and_key self P false None None) as [[[ctx d] k]|];
      [|discriminate].
    cbn [bind] in H. destruct (py_delitem d k); [|discriminate].
    inversion H; subst. split; reflexivity.
  - right. exists e. split; reflexivity.
Qed.

(** C3 as stated fails: on [[1, 2, 3]] the removal of item 0 succeeds and
    the call returns [None], not [True]. *)
Lemma delete_success_returns_none :
  delitem_try (wrap Examples.one_two_three false) (KStr "0")
  = Ok (VNone, wrap (VList [VInt 2; VInt 3]) false)
  /\ __delitem__ (wrap Examples.one_two_three false) (KStr "0")
     = Ok (VNone, wrap (VList [VInt 2; VInt 3]) false)
  /\ ~ (exists self', __delitem__ (wrap Examples.one_two_three false) (KStr "0")
                      = Ok (VBool true, self')).
Proof.
  split; [reflexivity|]. split; [reflexivity|].
  intros [self' H]. vm_compute in H. discriminate.
Qed.

Lemma dict_has_del m k j :
  dict_has (dict_del m k) j = dict_has m j && negb (key_eqb j k).
Proof.
  unfold dict_has, dict_del.
  induction m as [|[k' v'] m IH]; cbn [filter existsb fst]; [reflexivity|].
  destruct (key_eqb_spec k k') as [->|Hne]; cbn [negb existsb fst].
  - rewrite IH. destruct (key_eqb j k'); [|reflexivity].
    cbn [negb]. rewrite andb_false_r. reflexivity.
  - rewrite IH. destruct (key_eqb_spec j k') as [->|Hj]; [|reflexivity].
    destruct (key_eqb_spec k' k); [congruence|reflexivity].
Qed.

Lemma length_remove_nth l : forall i,
  (i < List.length l)%nat -> List.length l = S (List.length (remove_nth i l)).
Proof.
  induction l as [|x l IH]; intros [|i] H; simpl in *; try lia.
  destruct l; simpl in *; [lia|]. f_equal. apply (IH i). lia.
Qed.

Lemma final_del self p s kf v0 :
  coerce_key self false p s true = Ok kf ->
  py_getitem p kf = Ok v0 ->
  exists p', py_delitem p kf = Ok p' /\ is_container p' = true /\
    exists kf', coerce_key self false p' s true = Ok kf' /\
                py_contains p' kf' = Ok (has_after_delete p p' s kf).
Proof.
  intros Hk Hg. destruct p as [| | |t|l|l|m]; try discriminate.
  - simpl in Hk. inversion Hk; subst. discriminate.
  - cbn [py_getitem] in Hg.
    apply seq_getitem_inv in Hg as (z & i & -> & Hi & Hn).
    exists (VList (remove_nth i l)). cbn [py_delitem]. rewrite Hi.
    repeat split. exists (KInt z). split; [exact Hk|reflexivity].
  - simpl in Hk. inversion Hk; subst. discriminate.
  - cbn [py_getitem] in Hg. destruct (dict_get m kf) eqn:Hd; [|discriminate].
    exists (VDict (dict_del m kf)). cbn [py_delitem].
    rewrite (dict_get_has _ _ _ Hd). repeat split.
    exists (KStr s). cbn [coerce_key py_contains has_after_delete]. split.
    + cbn [coerce_key] in Hk.
      destruct (PyStr.isdigit s); [|reflexivity].
      destruct (py_int s) as [z|]; [|discriminate]. cbn [bind] in Hk |- *.
      rewrite dict_has_del.
      destruct (dict_has m (KInt z)) eqn:Hh;
        inversion Hk; subst; cbn [andb]; [|reflexivity].
      rewrite key_eqb_refl. reflexivity.
    + rewrite dict_has_del.
      destruct (coerce_key_result _ _ _ _ _ _ Hk) as [(z & _ & ->)| ->].
      * cbn [key_eqb negb]. rewrite andb_true_r. reflexivity.
      * rewrite key_eqb_refl. cbn [negb]. rewrite andb_false_r. reflexivity.
Qed.

(** C4 as amended (deletion, then membership).  For every path [P] that
    resolves, [self.__delitem__(P)] removes the item from its parent,
    raises nothing and returns [None]; [P in self] immediately afterwards
    returns, for a dict parent, [False] unless the final segment had become
    an integer key and the dict also holds the segment's text as a key,
    and for a list parent, whether the integer index occurs as a value
    among the elements that remain. *)
Theorem delete_then_has (self : Datastructure) (P : key) (v0 : value) :
  getitem_try self P = Ok v0 ->
  exists ctx p kf p',
    _get_object_and_key self P false None None = Ok (ctx, p, kf)
    /\ py_delitem p kf = Ok p'
    /\ __delitem__ self P = Ok (VNone, with_data self (plug ctx p'))
    /\ __contains__ (with_data self (plug ctx p')) P
       = Ok (VBool (has_after_delete p p' (final_segment self P) kf)).
Proof.
  intros Hget. unfold getitem_try in Hget.
  apply bind_ok in Hget as ([[ctx p] kf] & Hobj & Hread).
  destruct (get_object_inv _ _ _ _ Hobj) as (HP & Hsep & Hres).
  destruct (segments_snoc self P) as (ks & Hks).
  set (s := final_segment self P) in *. rewrite Hks in Hres.
  destruct (resolve_replug _ _ _ _ _ _ _ _ _ _ Hres) as (Hkf & fs & -> & _ & Hre).
  destruct (final_del self p s kf v0 Hkf Hread)
    as (p' & Hdel & Hc' & kf' & Hkf' & Hhas).
  exists (fs ++ []), p, kf, p'. repeat split; try assumption.
  - unfold __delitem__, delitem_try. rewrite Hobj. cbn [bind].
    rewrite Hdel. reflexivity.
  - unfold __contains__, contains_try.
    rewrite (get_object_eq (with_data self _) P false HP Hsep).
    change (segments (with_data self (plug (fs ++ []) p')) P) with (segments self P).
    rewrite Hks, resolve_loop_with_data. cbn [data with_data].
    rewrite app_nil_r, (Hre false [] KNone p' s Hc'), Hkf'. cbn [bind].
    rewrite Hhas. reflexivity.
Qed.

Lemma delete_then_has_witness :
  getitem_try (wrap Examples.people true) (KStr "1.age") = Ok (VInt 13)
  /\ exists ctx p kf p',
       _get_object_and_key (wrap Examples.people true) (KStr "1.age") false None None
       = Ok (ctx, p, kf)
       /\ py_delitem p kf = Ok p'
       /\ __delitem__ (wrap Examples.people true) (KStr "1.age")
          = Ok (VNone, with_data (wrap Examples.people true) (plug ctx p'))
       /\ __contains__ (with_data (wrap Examples.people true) (plug ctx p'))
            (KStr "1.age")
          = Ok (VBool (has_after_delete p p'
                         (final_segment (wrap Examples.people true) (KStr "1.age")) kf)).
Proof.
  assert (H : getitem_try (wrap Examples.people true) (KStr "1.age") = Ok (VInt 13))
    by reflexivity.
  split; [exact H|].
  exact (delete_then_has _ _ _ H).
Defined.

(** C4 as stated fails: in [[5, 0]] the path 0 resolves (to 5); its
    deletion returns [None], not [True], and leaves [[0]], in which the
    path 0 is still found, the integer 0 being an element. *)
Lemma delete_then_has_counterexample :
  getitem_try (wrap Examples.five_zero true) (KStr "0") = Ok (VInt 5)
  /\ __delitem__ (wrap Examples.five_zero true) (KStr "0")
     = Ok (VNone, wrap (VList [VInt 0]) true)
  /\ __contains__ (wrap (VList [VInt 0]) true) (KStr "0") = Ok (VBool true)
  /\ ~ (exists self',
          __delitem__ (wrap Examples.five_zero true) (KStr "0")
          = Ok (VBool true, self')
          /\ __contains__ self' (KStr "0") = Ok (VBool false)).
Proof.
  repeat (split; [reflexivity|]).
  intros (self' & H & _). vm_compute in H. discriminate.
Qed.

(** ** Appending *)

Lemma nth_error_snoc (l : list value) v : nth_error (l ++ [v]) (List.length l) = Some v.
Proof. induction l; simpl; auto. Qed.

Lemma getitem_snoc (l : list value) v :
  py_getitem (VList (l ++ [v])) (KInt (Z.of_nat (List.length l))) = Ok v.
Proof.
  cbn [py_getitem seq_getitem].
  rewrite norm_index_nonneg by (rewrite ?length_app; simpl; lia).
  rewrite Nat2Z.id, nth_error_snoc. reflexivity.
Qed.

Lemma segments_extend self c (P : key) w :
  symbol_separator self = String c EmptyString ->
  PyStr.has_char c w = false ->
  segments self (KStr (str_of_key P ++ symbol_separator self ++ w)) =
  segments self P ++ [w].
Proof.
  intros Hsep Hw. unfold segments. cbn [str_of_key]. rewrite Hsep.
  apply PyStrFacts.split_extend; assumption.
Qed.

(** C7 as amended (append growth).  Under an append symbol that is not a
    digit string: for every path [P] that resolves to a list [l], of
    length [L], assigning [V] at [P] extended with the append symbol as
    final segment succeeds, after which [P] reads the list [l] followed by
    [V], of length [L+1], and [P] extended with the segment [L] reads [V].
    The extended paths are any paths whose segments are those of [P]
    followed by the new segment, whatever the separator. *)
Theorem append_grows (self : Datastructure) (P Pappend Plast : key) (V : value)
    (l : list value) :
  PyStr.isdigit (symbol_last_list_element self) = false ->
  getitem_try self P = Ok (VList l) ->
  Pappend <> KNone -> Plast <> KNone ->
  segments self Pappend = segments self P ++ [symbol_last_list_element self] ->
  segments self Plast = segments self P ++ [PyStr.str (Z.of_nat (List.length l))] ->
  exists self',
    __setitem__ self Pappend V = Ok (VNone, self')
    /\ __getitem__ self' P = Ok (VList (l ++ [V]))
    /\ List.length (l ++ [V]) = S (List.length l)
    /\ __getitem__ self' Plast = Ok V.
Proof.
  intros Hnd Hget HPa HPl Hsa Hsl.
  set (w := symbol_last_list_element self) in *.
  set (L := Z.of_nat (List.length l)) in *.
  unfold getitem_try in Hget.
  apply bind_ok in Hget as ([[ctx1 p1] k1] & Hobj & Hread).
  destruct (get_object_inv _ _ _ _ Hobj) as (HP & HsepNE & Hres).
  assert (Hks : segments self P <> []) by apply PyStrFacts.split_nonempty.
  (* the assignment *)
  assert (Hw : coerce_key self true (VList l) w true = Ok (KStr w)).
  { cbn [coerce_key]. rewrite Hnd. fold w. rewrite String.eqb_refl. reflexivity. }
  assert (HresA : resolve_loop self true [] (data self) KNone (segments self P ++ [w])
                  = Ok (frame_of p1 k1 :: ctx1, VList l, KStr w)).
  { rewrite (resolve_snoc self true _ Hks), Hres. cbn [bind].
    rewrite Hread. cbn [bind is_container]. rewrite Hw. reflexivity. }
  destruct (resolve_replug _ _ _ _ _ _ _ _ _ _ HresA) as (_ & fs & Hfs & _ & Hre).
  rewrite app_nil_r in Hfs. subst fs.
  set (p' := VList (l ++ [V])).
  set (self' := with_data self (plug (frame_of p1 k1 :: ctx1) p')).
  (* the two reads go through [P] *)
  assert (HL : coerce_key self false p' (PyStr.str L) true = Ok (KInt L)).
  { cbn [coerce_key p']. unfold L, py_int.
    rewrite PyStrFacts.isdigit_str, PyStrFacts.int_str by lia. reflexivity. }
  assert (HresL : resolve_loop self false [] (data self') KNone
                    (segments self P ++ [PyStr.str L])
                  = Ok (frame_of p1 k1 :: ctx1, p', KInt L)).
  { cbn [data self' with_data].
    rewrite (Hre false [] KNone p' (PyStr.str L) eq_refl), HL.
    cbn [bind]. rewrite app_nil_r. reflexivity. }
  exists self'. repeat split.
  - unfold __setitem__, setitem_try.
    rewrite (get_object_eq self _ true HPa HsepNE), Hsa, HresA. cbn [bind].
    fold w. rewrite key_eqb_refl. reflexivity.
  - unfold __getitem__, getitem_try.
    rewrite (get_object_eq self' P false HP HsepNE).
    change (segments self' P) with (segments self P).
    unfold self' at 1. rewrite resolve_loop_with_data.
    rewrite (resolve_snoc self false _ Hks) in HresL.
    destruct (resolve_loop self false [] (data self') KNone (segments self P))
      as [[[ctx2 p2] k2]|]; [|discriminate].
    cbn [bind] in HresL |- *.
    destruct (py_getitem p2 k2) as [d2|]; [|discriminate].
    cbn [bind] in HresL.
    destruct (is_container d2); [|discriminate].
    apply bind_ok in HresL as (k3 & _ & HresL). inversion HresL; subst.
    reflexivity.
  - rewrite length_app. simpl. lia.
  - unfold __getitem__, getitem_try.
    rewrite (get_object_eq self' _ false HPl HsepNE).
    change (segments self' Plast) with (segments self Plast). rewrite Hsl.
    unfold self' at 1. rewrite resolve_loop_with_data, HresL. cbn [bind].
    unfold p', L. rewrite getitem_snoc. reflexivity.
Qed.

Lemma append_grows_witness :
  PyStr.isdigit
    (symbol_last_list_element (mkDatastructure Examples.numbers true "*" "->" "+"))
  = false
  /\ getitem_try (mkDatastructure Examples.numbers true "*" "->" "+") (KStr "numbers")
     = Ok (VList [VInt 1; VInt 2; VInt 3; VInt 4])
  /\ segments (mkDatastructure Examples.numbers true "*" "->" "+") (KStr "numbers->+")
     = segments (mkDatastructure Examples.numbers true "*" "->" "+") (KStr "numbers")
       ++ ["+"%string]
  /\ segments (mkDatastructure Examples.numbers true "*" "->" "+") (KStr "numbers->4")
     = segments (mkDatastructure Examples.numbers true "*" "->" "+") (KStr "numbers")
       ++ [PyStr.str 4]
  /\ exists self',
       __setitem__ (mkDatastructure Examples.numbers true "*" "->" "+")
         (KStr "numbers->+") (VInt 10) = Ok (VNone, self')
       /\ __getitem__ self' (KStr "numbers")
          = Ok (VList [VInt 1; VInt 2; VInt 3; VInt 4; VInt 10])
       /\ List.length [VInt 1; VInt 2; VInt 3; VInt 4; VInt 10] = 5%nat
       /\ __getitem__ self' (KStr "numbers->4") = Ok (VInt 10).
Proof.
  repeat (split; [reflexivity|]).
  refine (append_grows (mkDatastructure Examples.numbers true "*" "->" "+")
            (KStr "numbers") (KStr "numbers->+") (KStr "numbers->4")
            (VInt 10) [VInt 1; VInt 2; VInt 3; VInt 4]
            eq_refl eq_refl _ _ eq_refl eq_refl); discriminate.
Defined.

(** C7 as stated fails for the other kind of sequence: in
    [{"t": (1, 2)}] the path [t] resolves to a tuple of length 2, which
    has no [append]; the assignment at [t.+] raises in strict mode and
    does nothing in silent mode, and [t.2] reads nothing. *)
Lemma append_to_tuple_counterexample :
  getitem_try (wrap Examples.tuple_entry false) (KStr "t")
  = Ok (VTuple [VInt 1; VInt 2])
  /\ __setitem__ (wrap Examples.tuple_entry false) (KStr "t.+") (VInt 3)
     = Raise AttributeError
  /\ __setitem__ (wrap Examples.tuple_entry true) (KStr "t.+") (VInt 3)
     = Ok (VNone, wrap Examples.tuple_entry true)
  /\ __getitem__ (wrap Examples.tuple_entry true) (KStr "t.2") = Ok VNone
  /\ ~ (exists self',
          __setitem__ (wrap Examples.tuple_entry true) (KStr "t.+") (VInt 3)
          = Ok (VNone, self')
          /\ __getitem__ self' (KStr "t.2") = Ok (VInt 3)).
Proof.
  repeat (split; [reflexivity|]).
  intros (self' & H & H'). vm_compute in H. inversion H; subst self'.
  vm_compute in H'. discriminate.
Qed.

(** The condition on the append symbol is needed: with [0] as append
    symbol the assignment at [numbers.0] replaces the item 0. *)
Example append_symbol_of_digits :
  __setitem__ (mkDatastructure Examples.numbers true "*" "." "0")
    (KStr "numbers.0") (VInt 10)
  = Ok (VNone,
        mkDatastructure
          (VDict [(KStr "numbers", VList [VInt 10; VInt 2; VInt 3; VInt 4])])
          true "*" "." "0").
Proof. reflexivity. Qed.

(** ** Pattern iteration *)

Lemma for_each_ext {A : Type} (xs : list A) (f g : A -> trace) :
  (forall x, f x = g x) -> for_each xs f = for_each xs g.
Proof.
  intros H. induction xs as [|x xs IH]; [reflexivity|].
  cbn [for_each]. rewrite H, IH. reflexivity.
Qed.

Lemma for_each_yield_one {A : Type} (xs : list A) (f : A -> string * value) :
  for_each xs (fun x => ([f x], Done)) = (map f xs, Done).
Proof.
  induction xs as [|x xs IH]; [reflexivity|].
  cbn [for_each]. rewrite IH. reflexivity.
Qed.

(** The recursion of [iterpattern] goes to a strictly shorter list of
    segments, so any fuel above the number of segments gives the same
    run. *)
Lemma iterpattern_body_fuel self : forall n m ks dr,
  (List.length ks < n)%nat -> (List.length ks < m)%nat ->
  iterpattern_body n self ks dr = iterpattern_body m self ks dr.
Proof.
  induction n as [|n IH]; intros m ks dr Hn Hm; [lia|].
  destruct m as [|m]; [lia|].
  cbn [iterpattern_body].
  destruct (mem (symbol_wildcard self) ks) eqn:Hmem; [|reflexivity].
  assert (Hlen : (List.length ks > 0)%nat) by (destruct ks; [discriminate|simpl; lia]).
  match goal with
  | |- match ?x with _ => _ end = _ => destruct x as [v|e]; [|reflexivity]
  end.
  match goal with
  | |- match ?x with _ => _ end = _ => destruct x as [entries|]; [|reflexivity]
  end.
  apply for_each_ext. intros [wk wv].
  destruct (is_nil (skipn (S (index_of (symbol_wildcard self) ks)) ks)); [reflexivity|].
  f_equal. apply IH; rewrite length_skipn; lia.
Qed.

Lemma py_or_same d : py_or (Some d) d = d.
Proof. unfold py_or. destruct (truthy d); reflexivity. Qed.

(** [_getitem_extended] on the segments of [P] from the root reads what
    [self[P]] reads. *)
Lemma getitem_extended_segments self P v :
  getitem_try self P = Ok v ->
  _getitem_extended self KNone false (Some (segments self P)) (Some (data self)) = Ok v.
Proof.
  intros H. unfold getitem_try in H.
  apply bind_ok in H as ([[ctx p] k] & Hobj & Hread).
  apply get_object_inv in Hobj as (_ & _ & Hres).
  unfold _getitem_extended, _get_object_and_key. cbn [bind].
  rewrite py_or_same, Hres. cbn [bind]. rewrite Hread. reflexivity.
Qed.

Lemma mem_snoc w ks : mem w (ks ++ [w]) = true.
Proof.
  unfold mem. rewrite existsb_app. simpl. rewrite String.eqb_refl.
  rewrite orb_true_r. reflexivity.
Qed.

Lemma index_of_snoc w ks : mem w ks = false -> index_of w (ks ++ [w]) = List.length ks.
Proof.
  unfold mem. induction ks as [|s ks IH]; simpl.
  - rewrite String.eqb_refl. reflexivity.
  - destruct (String.eqb s w); [discriminate|]. intros H. rewrite (IH H). reflexivity.
Qed.

Lemma firstn_snoc (ks : list string) w : firstn (List.length ks) (ks ++ [w]) = ks.
Proof. induction ks; simpl; [reflexivity|f_equal; assumption]. Qed.

Lemma skipn_snoc (ks : list string) w : skipn (S (List.length ks)) (ks ++ [w]) = [].
Proof. induction ks; simpl; auto. Qed.

Lemma string_app_assoc (a b c : string) : ((a ++ b) ++ c = a ++ b ++ c)%string.
Proof. induction a; simpl; [reflexivity|f_equal; assumption]. Qed.

Lemma nth_error_enumerate_from (l : list value) : forall j i v,
  nth_error l i = Some v ->
  nth_error (enumerate_from j l) i = Some (KInt (Z.of_nat (j + i)), v).
Proof.
  induction l as [|x l IH]; intros j [|i] v H; simpl in *; try discriminate.
  - inversion H; subst. rewrite Nat.add_0_r. reflexivity.
  - rewrite (IH (S j) i v H). replace (S j + i)%nat with (j + S i)%nat by lia. reflexivity.
Qed.

Lemma length_enumerate_from (l : list value) : forall j,
  List.length (enumerate_from j l) = List.length l.
Proof. induction l; intros j; simpl; auto. Qed.

(** C5 as amended (wildcard completeness).  For every path [P] none of
    whose segments is the wildcard symbol and which resolves to a list or
    tuple of length [N], iterating a pattern whose segments are those of
    [P] followed by the wildcard (the text [P], separator, wildcard,
    whenever it splits so) ends normally after yielding exactly [N] pairs,
    the pair of rank [i] being the key [P], separator, [i] with the
    element of index [i].  This holds for every separator. *)
Theorem wildcard_over_sequence (self : Datastructure) (P : key) (pattern : string)
    (seq : value) (l : list value) :
  mem (symbol_wildcard self) (segments self P) = false ->
  getitem_try self P = Ok seq ->
  seq = VList l \/ seq = VTuple l ->
  segments self (KStr pattern) = segments self P ++ [symbol_wildcard self] ->
  exists g items,
    iterpattern self pattern = Ok g
    /\ consume g = (items, Done)
    /\ List.length items = List.length l
    /\ forall i v, nth_error l i = Some v ->
         nth_error items i =
         Some ((str_of_key P ++ symbol_separator self
                  ++ PyStr.str (Z.of_nat i))%string, v).
Proof.
  intros Hnw Hget Hseq Hpat.
  assert (HsepNE : symbol_separator self <> EmptyString).
  { unfold getitem_try in Hget. apply bind_ok in Hget as (r & Hobj & _).
    apply get_object_inv in Hobj as (_ & H & _). exact H. }
  set (f := fun kv : key * value =>
              (((str_of_key P ++ symbol_separator self)
                  ++ str_of_key (fst kv))%string, snd kv)).
  eexists. exists (map f (enumerate l)).
  split; [reflexivity|]. split; [|split].
  - cbn [consume]. unfold py_split.
    destruct (String.eqb_spec (symbol_separator self) ""); [congruence|].
    change (PyStr.split (symbol_separator self) pattern)
      with (segments self (KStr pattern)).
    rewrite Hpat.
    pose proof (PyStrFacts.split_nonempty (symbol_separator self) (str_of_key P))
      as Hne.
    fold (segments self P) in Hne.
    cbn [iterpattern_body py_or].
    rewrite mem_snoc, (index_of_snoc _ _ Hnw), firstn_snoc, skipn_snoc.
    destruct (segments self P) as [|s0 ks] eqn:Hks; [congruence|].
    cbn [is_nil]. rewrite <- Hks.
    rewrite (getitem_extended_segments self P seq Hget).
    unfold segments. rewrite PyStrFacts.join_split by assumption.
    rewrite <- (for_each_yield_one (enumerate l) f).
    destruct Hseq as [-> | ->]; apply for_each_ext; intros [k v]; reflexivity.
  - rewrite length_map. apply length_enumerate_from.
  - intros i v Hi. unfold enumerate.
    rewrite nth_error_map, (nth_error_enumerate_from l 0 i v Hi).
    unfold f. cbn [option_map fst snd str_of_key Nat.add].
    rewrite string_app_assoc. reflexivity.
Qed.

Lemma wildcard_over_sequence_witness :
  mem (symbol_wildcard (mkDatastructure Examples.people true "*" "::" "+"))
    (segments (mkDatastructure Examples.people true "*" "::" "+")
       (KStr "1::friends")) = false
  /\ getitem_try (mkDatastructure Examples.people true "*" "::" "+")
       (KStr "1::friends")
     = Ok (VList [VStr "Betty"; Examples.lucy])
  /\ segments (mkDatastructure Examples.people true "*" "::" "+")
       (KStr "1::friends::*")
     = segments (mkDatastructure Examples.people true "*" "::" "+")
         (KStr "1::friends") ++ ["*"%string]
  /\ exists g items,
       iterpattern (mkDatastructure Examples.people true "*" "::" "+")
         "1::friends::*" = Ok g
       /\ consume g = (items, Done)
       /\ List.length items = 2%nat
       /\ forall i v, nth_error [VStr "Betty"; Examples.lucy] i = Some v ->
            nth_error items i =
            Some (("1::friends::" ++ PyStr.str (Z.of_nat i))%string, v).
Proof.
  repeat (split; [reflexivity|]).
  exact (wildcard_over_sequence (mkDatastructure Examples.people true "*" "::" "+")
           (KStr "1::friends") "1::friends::*" _ [VStr "Betty"; Examples.lucy]
           eq_refl eq_refl (or_introl eq_refl) eq_refl).
Defined.

(** C5 as stated fails where [P] has a wildcard segment: the pattern is
    then expanded at that segment over every entry of the container
    before it.  In [{"*": {"x": [1, 2]}, "b": {"x": [3]}}] the path [*.x]
    resolves to a list of length 2, and the pattern [*.x.*] yields three
    pairs, one of them under the key [b]. *)
Lemma wildcard_over_sequence_counterexample :
  getitem_try (wrap Examples.star_and_b true) (KStr "*.x")
  = Ok (VList [VInt 1; VInt 2])
  /\ (exists g,
        iterpattern (wrap Examples.star_and_b true) "*.x.*" = Ok g
        /\ consume g = ([("*.x.0"%string, VInt 1); ("*.x.1"%string, VInt 2);
                         ("b.x.0"%string, VInt 3)], Done))
  /\ ~ (exists g items,
          iterpattern (wrap Examples.star_and_b true) "*.x.*" = Ok g
          /\ consume g = (items, Done)
          /\ List.length items = 2%nat).
Proof.
  split; [reflexivity|]. split; [eexists; split; reflexivity|].
  intros (g & items & Hg & Hitems & Hlen).
  vm_compute in Hg. inversion Hg; subst g.
  vm_compute in Hitems. inversion Hitems; subst items. discriminate.
Qed.

(** With the separator [aa] the text [xa], [aa], [*] does not split into
    the segments of [xa] followed by the wildcard: in [{"xa": [1, 2]}]
    the path [xa] resolves to a list, and the pattern [xaaa*] has no
    wildcard segment and yields one pair. *)
Example separator_overlap :
  PyStr.split "aa" ("xa" ++ "aa" ++ "*") = ["x"%string; "a*"%string]
  /\ PyStr.split "aa" "xa" ++ ["*"%string] = ["xa"%string; "*"%string]
  /\ getitem_try
       (mkDatastructure (VDict [(KStr "xa", VList [VInt 1; VInt 2])]) true "*" "aa" "+")
       (KStr "xa") = Ok (VList [VInt 1; VInt 2])
  /\ exists g,
       iterpattern
         (mkDatastructure (VDict [(KStr "xa", VList [VInt 1; VInt 2])]) true "*" "aa" "+")
         ("xa" ++ "aa" ++ "*") = Ok g
       /\ consume g = ([("xaaa*"%string, VNone)], Done).
Proof. repeat (split; [reflexivity|]). eexists. split; reflexivity. Qed.

(** A falsy value passed as [data_root] is lost: the expansion runs as if
    none had been passed, from [self.data]. *)
Lemma iterpattern_body_falsy_root self n ks v :
  truthy v = false ->
  iterpattern_body n self ks (Some v) = iterpattern_body n self ks None.
Proof.
  intros H. destruct n as [|n]; [reflexivity|].
  cbn [iterpattern_body py_or]. rewrite H. reflexivity.
Qed.

(** C6 fails on the code: with [[[5], []]] as the structure, the pattern
    [*.0] yields under the key 1, whose value is the empty list, the item
    0 of the whole structure, [[5]]; read from the value [[]] itself the
    item 0 is absent, which in silent mode gives [None].  The empty list
    is falsy, and [data_root or self.data] then takes [self.data]. *)
Theorem iterpattern_falsy_entry :
  (exists g,
     iterpattern (wrap Examples.nested_empty true) "*.0" = Ok g
     /\ consume g = ([("0.0"%string, VInt 5); ("1.0"%string, VList [VInt 5])], Done))
  /\ _getitem_extended (wrap Examples.nested_empty true) KNone false (Some ["0"%string])
       (Some (VList [])) = Ok (VList [VInt 5])
  /\ __getitem__ (wrap (VList []) true) (KStr "0") = Ok VNone.
Proof.
  split; [eexists; split; reflexivity|]. split; reflexivity.
Qed.

(** A second way in which the entry's value is not the root of the
    expansion: when the segments after the wildcard begin with a wildcard
    again, the recursive call iterates [self.data].  On
    [[[1, 2], [3, 4]]] the pattern [*.*] yields the rows, twice, not the
    four numbers. *)
Lemma iterpattern_wildcard_after_wildcard :
  exists g,
    iterpattern (wrap Examples.two_rows true) "*.*" = Ok g
    /\ consume g =
       ([("0.0"%string, VList [VInt 1; VInt 2]); ("0.1"%string, VList [VInt 3; VInt 4]);
         ("1.0"%string, VList [VInt 1; VInt 2]); ("1.1"%string, VList [VInt 3; VInt 4])],
        Done).
Proof. eexists. split; reflexivity. Qed.

(** The same on [{"*": [1, 2]}]: under the key [*] the pattern [*.*]
    yields the root's entry again, not the items of the list. *)
Example iterpattern_star_key :
  exists g,
    iterpattern (wrap Examples.star_key true) "*.*" = Ok g
    /\ consume g = ([("*.*"%string, VList [VInt 1; VInt 2])], Done).
Proof. eexists. split; reflexivity. Qed.

(** C9 fails on the code: [filterpattern] is a generator function, so
    with a predicate that is not callable the call itself returns a
    generator object and raises nothing; the [ValueError] is raised by the
    first [next] on that object, before any pair is yielded, in both
    failure modes. *)
Theorem filterpattern_check_is_deferred (self : Datastructure) (pattern : string)
    (v : value) (max_count : option Z) :
  callable (ArgValue v) = false
  /\ exists g,
       filterpattern self pattern (ArgValue v) max_count = Ok g
       /\ consume g = ([], Raised ValueError)
       /\ first_next g = Raise ValueError.
Proof. split; [reflexivity|]. eexists. repeat split. Qed.

(** With a callable the run filters what [iterpattern] yields and stops at
    [max_count] accepted pairs. *)
Example filterpattern_filters :
  (exists g,
     filterpattern (wrap Examples.one_two_three true) "*"
       (ArgCallable (fun v => match v with VInt z => 2 <=? z | _ => false end)) None
     = Ok g
     /\ consume g = ([("1"%string, VInt 2); ("2"%string, VInt 3)], Done))
  /\ (exists g,
        filterpattern (wrap Examples.one_two_three true) "*"
          (ArgCallable (fun _ => true)) (Some 2)
        = Ok g
        /\ consume g = ([("0"%string, VInt 1); ("1"%string, VInt 2)], Done)).
Proof. split; eexists; split; reflexivity. Qed.

(** ** Paths that continue a path *)

Lemma key_eqb_neq a b : a <> b -> key_eqb a b = false.
Proof. intros H. destruct (key_eqb_spec a b); congruence. Qed.

Lemma lift_ctx_lift ctx c r : lift_ctx ctx (lift_ctx c r) = lift_ctx (c ++ ctx) r.
Proof. destruct r as [[[c0 p] k]|e]; cbn [lift_ctx]; [|reflexivity]. rewrite app_assoc. reflexivity. Qed.

(** The resolver does not look at where the object it starts from lies. *)
Lemma resolve_loop_from self a rest : rest <> [] -> forall ctx d k,
  resolve_loop self a ctx d k rest = lift_ctx ctx (resolve_loop self a [] d KNone rest).
Proof.
  induction rest as [|s rest IH]; [congruence|intros _ ctx d k].
  cbn [resolve_loop].
  destruct (coerce_key self a d s (is_nil rest)) as [k1|]; [|reflexivity].
  cbn [bind]. destruct rest as [|s1 rest]; [reflexivity|].
  destruct (py_getitem d k1) as [d1|]; [|reflexivity].
  cbn [bind]. destruct (is_container d1); [|reflexivity].
  rewrite (IH ltac:(discriminate) (frame_of d k1 :: ctx) d1 k1).
  rewrite (IH ltac:(discriminate) [frame_of d k1] d1 k1).
  rewrite lift_ctx_lift. reflexivity.
Qed.

(** A path of segments [pre ++ rest] is resolved along [pre], then from
    what [pre] reads along [rest]. *)
Lemma resolve_loop_app self a pre : pre <> [] -> forall rest ctx d k,
  rest <> [] ->
  resolve_loop self a ctx d k (pre ++ rest) =
  ('(ctx1, p, k1) <- resolve_loop self false ctx d k pre ;;
   d' <- py_getitem p k1 ;;
   if is_container d'
   then resolve_loop self a (frame_of p k1 :: ctx1) d' k1 rest
   else Raise KeyError).
Proof.
  induction pre as [|s0 pre IH]; [congruence|intros _ rest ctx d k Hrest].
  destruct pre as [|s1 pre].
  - cbn [List.app]. rewrite resolve_loop_more by assumption.
    rewrite resolve_loop_last.
    rewrite (coerce_key_no_append self a false d s0 false true) by reflexivity.
    destruct (coerce_key self false d s0 true); reflexivity.
  - cbn [List.app]. rewrite !resolve_loop_more by discriminate.
    rewrite (coerce_key_no_append self a false d s0 false false) by reflexivity.
    destruct (coerce_key self false d s0 false) as [k1|]; [|reflexivity].
    cbn [bind]. destruct (py_getitem d k1) as [d1|]; [|reflexivity].
    cbn [bind]. destruct (is_container d1); [|reflexivity].
    apply (IH ltac:(discriminate)). assumption.
Qed.

Lemma plug_cons f ctx v : plug (f :: ctx) v = plug ctx (plug_frame f v).
Proof. reflexivity. Qed.

Lemma plug_app c ctx v : plug (c ++ ctx) v = plug ctx (plug c v).
Proof. unfold plug. apply fold_left_app. Qed.

(** Where a value that a path reads lies: the resolver passes through it
    on every longer path, and a container put in its place is read
    there. *)
Lemma reads_context self pre v :
  reads self pre v -> is_container v = true ->
  exists C,
    plug C v = data self
    /\ (forall a rest, rest <> [] ->
          resolve_loop self a [] (data self) KNone (pre ++ rest)
          = lift_ctx C (resolve_loop self a [] v KNone rest))
    /\ (forall v', is_container v' = true ->
          reads (with_data self (plug C v')) pre v').
Proof.
  intros [[-> Hroot]|(P & HP & Hsegs & Hget)] Hc.
  - exists []. split; [symmetry; exact Hroot|]. split.
    + intros a rest Hrest. cbn [List.app]. rewrite Hroot.
      destruct (resolve_loop self a [] v KNone rest) as [[[c p] k]|]; cbn [lift_ctx];
        [rewrite app_nil_r|]; reflexivity.
    + intros v' _. left. split; reflexivity.
  - unfold getitem_try in Hget.
    apply bind_ok in Hget as ([[ctx1 p] k1] & Hobj & Hread).
    destruct (get_object_inv _ _ _ _ Hobj) as (_ & Hsep & Hres).
    rewrite Hsegs in Hres.
    assert (Hpre : pre <> []).
    { rewrite <- Hsegs. apply PyStrFacts.split_nonempty. }
    pose proof (getitem_container _ _ _ Hread Hc) as Hcp.
    destruct (getitem_hole _ _ _ Hread Hcp) as [Hhole Hplug].
    destruct (exists_last Hpre) as (ks & sl & Hks).
    rewrite Hks in Hres.
    destruct (resolve_replug _ _ _ _ _ _ _ _ _ _ Hres) as (Hk1 & fs & Hfs & Hp & Hre).
    rewrite app_nil_r in Hfs. subst fs.
    exists (frame_of p k1 :: ctx1). split; [|split].
    + rewrite plug_cons, Hplug. exact Hp.
    + intros a rest Hrest.
      rewrite (resolve_loop_app self a pre Hpre rest [] (data self) KNone Hrest).
      rewrite Hks, Hres. cbn [bind]. rewrite Hread. cbn [bind]. rewrite Hc.
      apply resolve_loop_from. assumption.
    + intros v' Hc'. right. exists P. split; [exact HP|]. split; [exact Hsegs|].
      unfold getitem_try.
      rewrite (get_object_eq (with_data self _) P false HP Hsep).
      change (segments (with_data self (plug (frame_of p k1 :: ctx1) v')) P)
        with (segments self P).
      rewrite Hsegs, Hks, resolve_loop_with_data. cbn [data with_data].
      rewrite plug_cons.
      rewrite (Hre false [] KNone (plug_frame (frame_of p k1) v') sl
                 (is_container_plug_frame _ _)).
      rewrite (coerce_plug_frame self false (frame_of p k1) v' v sl true), Hplug.
      rewrite Hk1. cbn [bind]. apply hole_getitem. exact Hhole.
Qed.

Lemma dict_set_middle pre post k x y :
  dict_has pre k = false ->
  dict_set (pre ++ (k, x) :: post) k y = pre ++ (k, y) :: post.
Proof.
  induction pre as [|[k' v'] pre IH]; cbn [List.app dict_set].
  - rewrite key_eqb_refl. reflexivity.
  - unfold dict_has. cbn [existsb fst]. intros H.
    apply orb_false_iff in H as [Hk Hpre]. rewrite Hk, (IH Hpre). reflexivity.
Qed.

(** Putting [x] in the place of the item of key [k] of a dict is the
    assignment [m[k] = x]. *)
Lemma plug_frame_dict_set m k child x :
  dict_get m k = Some child ->
  plug_frame (frame_of (VDict m) k) x = VDict (dict_set m k x).
Proof.
  intros Hg. destruct (dict_split_spec _ _ _ Hg) as (pre & post & Hsplit & -> & Hpre).
  cbn [frame_of]. rewrite Hsplit. cbn [plug_frame].
  rewrite dict_set_middle by assumption. reflexivity.
Qed.

Lemma dict_set_same m k child : dict_get m k = Some child -> dict_set m k child = m.
Proof.
  intros Hg. destruct (dict_split_spec _ _ _ Hg) as (pre & post & _ & -> & Hpre).
  apply dict_set_middle. assumption.
Qed.

Lemma dict_del_absent m k : dict_has m k = false -> dict_del m k = m.
Proof.
  unfold dict_has, dict_del. induction m as [|[k' v'] m IH]; [reflexivity|].
  cbn [existsb filter fst]. intros H. apply orb_false_iff in H as [Hk Hm].
  rewrite Hk, (IH Hm). reflexivity.
Qed.

Lemma coerce_digit_dict self a m s b z :
  PyStr.int s = Some z ->
  coerce_key self a (VDict m) s b = Ok (digit_key m s z).
Proof.
  intros Hz. destruct (PyStrFacts.int_some s z Hz) as [Hdec _].
  cbn [coerce_key]. rewrite (PyStrFacts.isdecimal_isdigit s Hdec).
  unfold py_int. rewrite Hz. cbn [bind]. unfold digit_key.
  destruct (dict_has m (KInt z)); reflexivity.
Qed.

(** The accessors on a wrapper express the resolver's result. *)
Lemma getitem_try_eq self P :
  P <> KNone -> symbol_separator self <> EmptyString ->
  getitem_try self P =
  ('(_, d, k) <- resolve_loop self false [] (data self) KNone (segments self P) ;;
   py_getitem d k).
Proof. intros HP Hs. unfold getitem_try. rewrite get_object_eq by assumption. reflexivity. Qed.

Lemma contains_try_eq self P :
  P <> KNone -> symbol_separator self <> EmptyString ->
  contains_try self P =
  ('(_, d, k) <- resolve_loop self false [] (data self) KNone (segments self P) ;;
   b <- py_contains d k ;; Ok (VBool b)).
Proof. intros HP Hs. unfold contains_try. rewrite get_object_eq by assumption. reflexivity. Qed.

Lemma setitem_try_eq self P V :
  P <> KNone -> symbol_separator self <> EmptyString ->
  setitem_try self P V =
  ('(ctx, d, k) <- resolve_loop self true [] (data self) KNone (segments self P) ;;
   if key_eqb k (KStr (symbol_last_list_element self))
   then d' <- py_append d V ;; Ok (VNone, with_data self (plug ctx d'))
   else d' <- py_setitem d k V ;; Ok (VNone, with_data self (plug ctx d'))).
Proof. intros HP Hs. unfold setitem_try. rewrite get_object_eq by assumption. reflexivity. Qed.

Lemma delitem_try_eq self P :
  P <> KNone -> symbol_separator self <> EmptyString ->
  delitem_try self P =
  ('(ctx, d, k) <- resolve_loop self false [] (data self) KNone (segments self P) ;;
   d' <- py_delitem d k ;; Ok (VNone, with_data self (plug ctx d'))).
Proof. intros HP Hs. unfold delitem_try. rewrite get_object_eq by assumption. reflexivity. Qed.

(** A path that continues below a container acts on the wrapper around
    that container: when the resolver on [Q] is the resolver on [R] from
    [sub], which lies at [C], the four try blocks on [Q] are those on [R]
    over [sub], a changed [sub] being put back at [C]. *)
Lemma focus_try self C sub Q R :
  Q <> KNone -> R <> KNone -> symbol_separator self <> EmptyString ->
  (forall a, resolve_loop self a [] (data self) KNone (segments self Q)
             = lift_ctx C (resolve_loop self a [] sub KNone (segments self R))) ->
  getitem_try self Q = getitem_try (with_data self sub) R
  /\ contains_try self Q = contains_try (with_data self sub) R
  /\ (forall V,
        setitem_try self Q V =
        match setitem_try (with_data self sub) R V with
        | Ok (r, sub') => Ok (r, with_data self (plug C (data sub')))
        | Raise e => Raise e
        end)
  /\ delitem_try self Q =
     match delitem_try (with_data self sub) R with
     | Ok (r, sub') => Ok (r, with_data self (plug C (data sub')))
     | Raise e => Raise e
     end.
Proof.
  intros HQ HR Hsep Hres.
  assert (HsepW : symbol_separator (with_data self sub) <> EmptyString) by exact Hsep.
  repeat split; [| |intros V|].
  - rewrite (getitem_try_eq self Q HQ Hsep), (getitem_try_eq _ R HR HsepW).
    change (segments (with_data self sub) R) with (segments self R).
    rewrite resolve_loop_with_data, Hres. cbn [data with_data].
    destruct (resolve_loop self false [] sub KNone (segments self R))
      as [[[c p] k]|]; reflexivity.
  - rewrite (contains_try_eq self Q HQ Hsep), (contains_try_eq _ R HR HsepW).
    change (segments (with_data self sub) R) with (segments self R).
    rewrite resolve_loop_with_data, Hres. cbn [data with_data].
    destruct (resolve_loop self false [] sub KNone (segments self R))
      as [[[c p] k]|]; reflexivity.
  - rewrite (setitem_try_eq self Q V HQ Hsep), (setitem_try_eq _ R V HR HsepW).
    change (segments (with_data self sub) R) with (segments self R).
    rewrite resolve_loop_with_data, Hres. cbn [data with_data].
    change (symbol_last_list_element (with_data self sub))
      with (symbol_last_list_element self).
    destruct (resolve_loop self true [] sub KNone (segments self R))
      as [[[c p] k]|]; [|reflexivity].
    cbn [lift_ctx bind].
    destruct (key_eqb k (KStr (symbol_last_list_element self))).
    + destruct (py_append p V) as [d'|]; [|reflexivity].
      cbn [bind data with_data]. rewrite plug_app. reflexivity.
    + destruct (py_setitem p k V) as [d'|]; [|reflexivity].
      cbn [bind data with_data]. rewrite plug_app. reflexivity.
  - rewrite (delitem_try_eq self Q HQ Hsep), (delitem_try_eq _ R HR HsepW).
    change (segments (with_data self sub) R) with (segments self R).
    rewrite resolve_loop_with_data, Hres. cbn [data with_data].
    destruct (resolve_loop self false [] sub KNone (segments self R))
      as [[[c p] k]|]; [|reflexivity].
    cbn [lift_ctx bind].
    destruct (py_delitem p k) as [d'|]; [|reflexivity].
    cbn [bind data with_data]. rewrite plug_app. reflexivity.
Qed.

(** What the try blocks leave as a wrapper's data is a container, when
    the data was one. *)
Lemma setitem_try_container self P V r self' :
  setitem_try self P V = Ok (r, self') -> is_container (data self') = true.
Proof.
  unfold setitem_try. intros H.
  apply bind_ok in H as ([[ctx d] k] & _ & H).
  destruct (key_eqb k (KStr (symbol_last_list_element self))).
  - apply bind_ok in H as (d' & Hd & H). inversion H; subst. cbn [data with_data].
    apply is_container_plug. destruct d; try discriminate. inversion Hd. reflexivity.
  - apply bind_ok in H as (d' & Hd & H). inversion H; subst. cbn [data with_data].
    apply is_container_plug. destruct d; try discriminate.
    + cbn [py_setitem] in Hd. destruct k; try discriminate.
      destruct (norm_index _ _); inversion Hd. reflexivity.
    + inversion Hd. reflexivity.
Qed.

Lemma delitem_try_container self P r self' :
  delitem_try self P = Ok (r, self') -> is_container (data self') = true.
Proof.
  unfold delitem_try. intros H.
  apply bind_ok in H as ([[ctx d] k] & _ & H).
  apply bind_ok in H as (d' & Hd & H). inversion H; subst. cbn [data with_data].
  apply is_container_plug. destruct d; try discriminate.
  - cbn [py_delitem] in Hd. destruct k; try discriminate.
    destruct (norm_index _ _); inversion Hd. reflexivity.
  - cbn [py_delitem] in Hd. destruct (dict_has _ _); inversion Hd. reflexivity.
Qed.

Lemma fails_with_resolver self Q e :
  Q <> KNone -> symbol_separator self <> EmptyString ->
  (forall a, resolve_loop self a [] (data self) KNone (segments self Q) = Raise e) ->
  fails_with self Q e.
Proof.
  intros HQ Hsep H. unfold fails_with, __contains__, __delitem__.
  rewrite (getitem_try_eq self Q HQ Hsep), (contains_try_eq self Q HQ Hsep),
    (delitem_try_eq self Q HQ Hsep), !H.
  repeat split. intros V. rewrite (setitem_try_eq self Q V HQ Hsep), H. reflexivity.
Qed.

(** ** Key coercion *)

(** C8 (numeric-string key precedence).  Let the segments [pre] lead to a
    dict [m] (the root, or what a path reads) and let [s] be a segment of
    decimal digits, of integer value [z]; let [k] be the integer key [z]
    if [m] has it, the text [s] otherwise.  Then [k] is the key used for
    [s] by each of the four accessors, wherever [s] stands in the path.
    - As the final segment: retrieval reads [m[k]]; membership is whether
      [k] is a key of [m]; assignment makes [m[k]] the value (unless [k]
      is the text of the append symbol, which a dict cannot take);
      deletion removes [k] from [m], or returns [False] when [m] has no
      [k].
    - As a segment on the way: the rest of the path is resolved in
      [m[k]], each accessor doing what it does on a wrapper around
      [m[k]] with the rest of the path, a change being a change of
      [m[k]]; when [m] has no [k], or [m[k]] is no container, the path
      fails with [KeyError]. *)
Theorem digit_segment_on_mapping (self : Datastructure) (pre : list string)
    (m : list (key * value)) (s : string) :
  symbol_separator self <> EmptyString ->
  reads self pre (VDict m) ->
  PyStr.isdecimal s = true ->
  exists z, PyStr.int s = Some z /\
  let k := digit_key m s z in
  (forall P, P <> KNone -> segments self P = pre ++ [s] ->
     __getitem__ self P
     = match dict_get m k with
       | Some v => Ok v
       | None => if silent_fail self then Ok VNone else Raise KeyError
       end
     /\ __contains__ self P = Ok (VBool (dict_has m k))
     /\ (forall V, k <> KStr (symbol_last_list_element self) ->
           exists self', __setitem__ self P V = Ok (VNone, self')
                         /\ reads self' pre (VDict (dict_set m k V)))
     /\ (forall V, k = KStr (symbol_last_list_element self) ->
           setitem_try self P V = Raise AttributeError)
     /\ (exists self',
           __delitem__ self P
           = Ok (if dict_has m k then VNone else VBool false, self')
           /\ reads self' pre (VDict (dict_del m k))))
  /\ (forall Q R, Q <> KNone -> R <> KNone ->
        segments self Q = pre ++ s :: segments self R ->
        match dict_get m k with
        | Some child =>
            if is_container child then
              __getitem__ self Q = __getitem__ (with_data self child) R
              /\ __contains__ self Q = __contains__ (with_data self child) R
              /\ (forall V,
                    match __setitem__ (with_data self child) R V with
                    | Ok (r, sub') =>
                        exists self',
                          __setitem__ self Q V = Ok (r, self')
                          /\ reads self' pre (VDict (dict_set m k (data sub')))
                    | Raise e => __setitem__ self Q V = Raise e
                    end)
              /\ match __delitem__ (with_data self child) R with
                 | Ok (r, sub') =>
                     exists self',
                       __delitem__ self Q = Ok (r, self')
                       /\ reads self' pre (VDict (dict_set m k (data sub')))
                 | Raise e => __delitem__ self Q = Raise e
                 end
            else fails_with self Q KeyError
        | None => fails_with self Q KeyError
        end).
Proof.
  intros Hsep Hreads Hdec.
  destruct (PyStrFacts.int_of_decimal s Hdec) as [z Hz].
  exists z. split; [exact Hz|]. intros k.
  destruct (reads_context self pre (VDict m) Hreads eq_refl) as (C & HC & Hres & Hput).
  assert (Hck : forall a b, coerce_key self a (VDict m) s b = Ok k)
    by (intros a b; apply coerce_digit_dict; exact Hz).
  split.
  - (* [s] is the final segment *)
    intros P HP Hsegs.
    assert (HresP : forall a,
               resolve_loop self a [] (data self) KNone (segments self P)
               = Ok (C, VDict m, k)).
    { intros a. rewrite Hsegs, (Hres a [s]) by discriminate.
      rewrite resolve_loop_last, Hck. reflexivity. }
    split; [|split; [|split; [|split]]].
    + unfold __getitem__. rewrite (getitem_try_eq self P HP Hsep), HresP.
      cbn [bind py_getitem]. destruct (dict_get m k); [reflexivity|].
      cbn [try_except]. destruct (silent_fail self); reflexivity.
    + unfold __contains__. rewrite (contains_try_eq self P HP Hsep), HresP.
      reflexivity.
    + intros V Hk. exists (with_data self (plug C (VDict (dict_set m k V)))).
      split; [|apply Hput; reflexivity].
      unfold __setitem__. rewrite (setitem_try_eq self P V HP Hsep), HresP.
      cbn [bind]. rewrite (key_eqb_neq _ _ Hk). reflexivity.
    + intros V Hk. rewrite (setitem_try_eq self P V HP Hsep), HresP.
      cbn [bind]. rewrite Hk, key_eqb_refl. reflexivity.
    + unfold __delitem__. rewrite (delitem_try_eq self P HP Hsep), HresP.
      cbn [bind py_delitem]. destruct (dict_has m k) eqn:Hhas.
      * exists (with_data self (plug C (VDict (dict_del m k)))).
        split; [reflexivity|apply Hput; reflexivity].
      * exists self. split; [reflexivity|].
        rewrite (dict_del_absent m k Hhas). exact Hreads.
  - (* [s] is a segment on the way *)
    intros Q R HQ HR Hsegs.
    assert (Hrest : segments self R <> []) by apply PyStrFacts.split_nonempty.
    assert (HresQ : forall a,
               resolve_loop self a [] (data self) KNone (segments self Q)
               = lift_ctx C
                   (d' <- py_getitem (VDict m) k ;;
                    if is_container d'
                    then resolve_loop self a [frame_of (VDict m) k] d' k
                           (segments self R)
                    else Raise KeyError)).
    { intros a. rewrite Hsegs, (Hres a (s :: segments self R)) by discriminate.
      rewrite resolve_loop_more, Hck by assumption. reflexivity. }
    cbn [py_getitem] in HresQ.
    destruct (dict_get m k) as [child|] eqn:Hg;
      [destruct (is_container child) eqn:Hc|];
      try (apply fails_with_resolver; [assumption..|];
           intros a; rewrite HresQ; cbn [bind]; rewrite ?Hc; reflexivity).
    assert (HresQ' : forall a,
               resolve_loop self a [] (data self) KNone (segments self Q)
               = lift_ctx (frame_of (VDict m) k :: C)
                   (resolve_loop self a [] child KNone (segments self R))).
    { intros a. rewrite HresQ. cbn [bind]. rewrite Hc.
      rewrite (resolve_loop_from self a _ Hrest), lift_ctx_lift. reflexivity. }
    destruct (focus_try self _ child Q R HQ HR Hsep HresQ')
      as (Hget & Hhas & Hset & Hdel).
    assert (Hback : forall x, is_container x = true ->
               reads (with_data self (plug (frame_of (VDict m) k :: C) x)) pre
                 (VDict (dict_set m k x))).
    { intros x _. rewrite plug_cons, (plug_frame_dict_set m k child x Hg).
      apply Hput. reflexivity. }
    assert (Hsame : reads self pre (VDict (dict_set m k child)))
      by (rewrite (dict_set_same m k child Hg); exact Hreads).
    split; [|split; [|split]].
    + unfold __getitem__. rewrite Hget. reflexivity.
    + unfold __contains__. rewrite Hhas. reflexivity.
    + intros V. unfold __setitem__. rewrite (Hset V).
      change (silent_fail (with_data self child)) with (silent_fail self).
      destruct (setitem_try (with_data self child) R V) as [[r sub']|e] eqn:Htry;
        cbn [try_except].
      * eexists. split; [reflexivity|].
        apply Hback. eapply setitem_try_container; eassumption.
      * destruct (silent_fail self); cbn [negb]; [|reflexivity].
        exists self. split; [reflexivity|exact Hsame].
    + unfold __delitem__. rewrite Hdel.
      destruct (delitem_try (with_data self child) R) as [[r sub']|e] eqn:Htry;
        cbn [try_except].
      * eexists. split; [reflexivity|].
        apply Hback. eapply delitem_try_container; eassumption.
      * exists self. split; [reflexivity|exact Hsame].
Qed.

Lemma digit_segment_on_mapping_witness :
  symbol_separator (wrap Examples.id_table true) <> EmptyString
  /\ reads (wrap Examples.id_table true) ["ids"%string]
       (VDict [(KInt 5, VStr "a"); (KStr "5", VStr "b")])
  /\ PyStr.isdecimal "5" = true
  /\ exists z,
       PyStr.int "5" = Some z
       /\ __getitem__ (wrap Examples.id_table true) (KStr "ids.5")
          = match dict_get [(KInt 5, VStr "a"); (KStr "5", VStr "b")]
                    (digit_key [(KInt 5, VStr "a"); (KStr "5", VStr "b")] "5" z) with
            | Some v => Ok v
            | None => Ok VNone
            end.
Proof.
  assert (H1 : symbol_separator (wrap Examples.id_table true) <> EmptyString)
    by discriminate.
  assert (H2 : reads (wrap Examples.id_table true) ["ids"%string]
                 (VDict [(KInt 5, VStr "a"); (KStr "5", VStr "b")])).
  { right. exists (KStr "ids"). split; [discriminate|]. split; reflexivity. }
  assert (H3 : PyStr.isdecimal "5" = true) by reflexivity.
  split; [exact H1|]. split; [exact H2|]. split; [exact H3|].
  destruct (digit_segment_on_mapping _ _ _ _ H1 H2 H3) as (z & Hz & Hfinal & _).
  exists z. split; [exact Hz|].
  assert (HP : KStr "ids.5" <> KNone) by discriminate.
  exact (proj1 (Hfinal (KStr "ids.5") HP eq_refl)).
Defined.

(** The integer key wins over the text key, for each accessor and at each
    position of the segment. *)
Example digit_segment_accessors :
  __getitem__ (wrap Examples.id_table true) (KStr "ids.5") = Ok (VStr "a")
  /\ __getitem__ (wrap Examples.twin_keys true) (KStr "5") = Ok (VStr "a")
  /\ __contains__ (wrap Examples.id_table true) (KStr "ids.5") = Ok (VBool true)
  /\ __setitem__ (wrap Examples.twin_keys true) (KStr "5") (VStr "c")
     = Ok (VNone, wrap (VDict [(KInt 5, VStr "c"); (KStr "5", VStr "b")]) true)
  /\ __delitem__ (wrap Examples.twin_keys true) (KStr "5")
     = Ok (VNone, wrap (VDict [(KStr "5", VStr "b")]) true)
  /\ __getitem__ (wrap (VDict [(KInt 7, Examples.john); (KStr "7", Examples.peter)]) true)
       (KStr "7.name") = Ok (VStr "John")
  /\ __getitem__ (wrap (VDict [(KStr "7", Examples.peter)]) true) (KStr "7.name")
     = Ok (VStr "Peter").
Proof. repeat split. Qed.

(** ** Membership *)

Lemma seq_contains_iff l k :
  seq_contains l k = true <-> exists x, In x l /\ elem_eqb k x = true.
Proof. unfold seq_contains. apply existsb_exists. Qed.

(** X24.  Membership on a list is value membership.  For every path whose
    parent resolves to a list [l], the final segment is a digit string
    that [int] reads, as [z], and [P in self] returns whether the integer
    [z] is equal to one of the elements of [l] (by Python's [==], under
    which [True] is 1 and [False] is 0): the length of [l] plays no
    part. *)
Theorem has_on_list_is_value_membership (self : Datastructure) (P : key)
    (ctx : list frame) (l : list value) (kf : key) :
  _get_object_and_key self P false None None = Ok (ctx, VList l, kf) ->
  exists z,
    PyStr.isdigit (final_segment self P) = true
    /\ PyStr.int (final_segment self P) = Some z
    /\ kf = KInt z
    /\ __contains__ self P = Ok (VBool (seq_contains l (KInt z)))
    /\ (__contains__ self P = Ok (VBool true) <->
        exists x, In x l /\ elem_eqb (KInt z) x = true).
Proof.
  intros Hobj. pose proof Hobj as Hres.
  apply get_object_inv in Hres as (_ & _ & Hres).
  destruct (segments_snoc self P) as (ks & Hks). rewrite Hks in Hres.
  destruct (resolve_replug _ _ _ _ _ _ _ _ _ _ Hres) as (Hkf & _).
  cbn [coerce_key] in Hkf. rewrite andb_false_r in Hkf.
  destruct (PyStr.isdigit (final_segment self P)); [|discriminate].
  unfold py_int in Hkf.
  destruct (PyStr.int (final_segment self P)) as [z|]; [|discriminate].
  cbn [bind] in Hkf. inversion Hkf; subst kf. exists z.
  assert (Hhas : __contains__ self P = Ok (VBool (seq_contains l (KInt z)))).
  { unfold __contains__, contains_try. rewrite Hobj. reflexivity. }
  repeat split; try assumption.
  - rewrite Hhas. intros H. apply seq_contains_iff. congruence.
  - rewrite Hhas. intros H. apply seq_contains_iff in H. rewrite H. reflexivity.
Qed.

Lemma has_on_list_is_value_membership_witness :
  _get_object_and_key (wrap Examples.one_two_three true) (KStr "2") false None None
  = Ok ([], Examples.one_two_three, KInt 2)
  /\ exists z,
       PyStr.int (final_segment (wrap Examples.one_two_three true) (KStr "2")) = Some z
       /\ __contains__ (wrap Examples.one_two_three true) (KStr "2")
          = Ok (VBool (seq_contains [VInt 1; VInt 2; VInt 3] (KInt z))).
Proof.
  assert (H : _get_object_and_key (wrap Examples.one_two_three true) (KStr "2")
                false None None
              = Ok ([], Examples.one_two_three, KInt 2)) by reflexivity.
  split; [exact H|].
  destruct (has_on_list_is_value_membership _ _ _ _ _ H)
    as (z & _ & Hz & _ & Hhas & _).
  exists z. split; [exact Hz|exact Hhas].
Defined.

(** C10 fails on the code for the other kind of sequence.  For every path
    whose parent resolves to a tuple [t], the final segment is not
    converted: [P in self] returns whether the text of the segment is
    equal to one of the elements of [t].  So against a tuple of ints it
    returns [False] for every digit string, also for one whose integer
    value is an element.  The resolver converts a digit segment under
    [isinstance(d, list)] only, while the constructor and [iterpattern]
    take a tuple as a container too. *)
Theorem has_on_tuple_tests_text (self : Datastructure) (P : key)
    (ctx : list frame) (t : list value) (kf : key) :
  _get_object_and_key self P false None None = Ok (ctx, VTuple t, kf) ->
  kf = KStr (final_segment self P)
  /\ __contains__ self P
     = Ok (VBool (seq_contains t (KStr (final_segment self P))))
  /\ ((forall x, In x t -> exists z, x = VInt z) ->
      __contains__ self P = Ok (VBool false)).
Proof.
  intros Hobj. pose proof Hobj as Hres.
  apply get_object_inv in Hres as (_ & _ & Hres).
  destruct (segments_snoc self P) as (ks & Hks). rewrite Hks in Hres.
  destruct (resolve_replug _ _ _ _ _ _ _ _ _ _ Hres) as (Hkf & _).
  cbn [coerce_key] in Hkf. inversion Hkf; subst kf.
  assert (Hhas : __contains__ self P
                 = Ok (VBool (seq_contains t (KStr (final_segment self P))))).
  { unfold __contains__, contains_try. rewrite Hobj. reflexivity. }
  split; [reflexivity|]. split; [exact Hhas|].
  intros Hints. rewrite Hhas. do 2 f_equal.
  destruct (seq_contains t (KStr (final_segment self P))) eqn:E; [|reflexivity].
  apply seq_contains_iff in E as (x & Hin & Hx).
  destruct (Hints x Hin) as [z ->]. discriminate.
Qed.

Lemma has_on_tuple_tests_text_witness :
  _get_object_and_key (wrap (VTuple [VInt 1]) true) (KStr "1") false None None
  = Ok ([], VTuple [VInt 1], KStr "1")
  /\ PyStr.int (final_segment (wrap (VTuple [VInt 1]) true) (KStr "1")) = Some 1
  /\ In (VInt 1) [VInt 1]
  /\ __contains__ (wrap (VTuple [VInt 1]) true) (KStr "1") = Ok (VBool false).
Proof.
  assert (H : _get_object_and_key (wrap (VTuple [VInt 1]) true) (KStr "1")
                false None None
              = Ok ([], VTuple [VInt 1], KStr "1")) by reflexivity.
  split; [exact H|]. split; [reflexivity|]. split; [left; reflexivity|].
  apply (proj2 (proj2 (has_on_tuple_tests_text _ _ _ _ _ H))).
  intros x [<-|[]]. exists 1. reflexivity.
Defined.

(** On [[5]]: the index 0 is in range and is not found, the index 5 is out
    of range and is found. *)
Example has_is_not_an_index_check :
  __contains__ (wrap (VList [VInt 5]) true) (KStr "0") = Ok (VBool false)
  /\ __contains__ (wrap (VList [VInt 5]) true) (KStr "5") = Ok (VBool true).
Proof. split; reflexivity. Qed.

(** A tuple is no [list]: the resolver leaves the segment a text, which
    no tuple index is, so no path reads into a tuple, and membership in a
    tuple compares the elements with the text. *)
Example tuple_items_are_not_addressed :
  __getitem__ (wrap (VTuple [VInt 7]) false) (KStr "0") = Raise TypeError
  /\ __contains__ (wrap (VTuple [VStr "1"]) true) (KStr "1") = Ok (VBool true)
  /\ __contains__ (wrap (VTuple [VInt 1]) true) (KStr "1") = Ok (VBool false).
Proof. repeat split. Qed.

(** * More of the class *)

(** ** Errors of retrieval *)

(** X1.  What retrieval raises in strict mode: on a wrapper the
    constructor built in strict mode, with a non-empty separator, for
    every path given as text or int, what [self[P]] raises is [KeyError],
    [IndexError], [TypeError] or [ValueError], never [AttributeError];
    and it is [ValueError] only when a segment of [P] is a digit string
    for [str.isdigit] that [int] refuses, as the superscript two is. *)
Theorem strict_get_errors (self : Datastructure) (d : value)
    (wildcard separator last : string) (P : key) (e : exn) :
  __init__ d false wildcard separator last = Ok self ->
  separator <> EmptyString -> P <> KNone ->
  __getitem__ self P = Raise e ->
  e = KeyError \/ e = IndexError \/ e = TypeError
  \/ (e = ValueError /\ exists s, In s (segments self P) /\ int_refuses s).
Proof.
  unfold __init__. intros Hinit Hsep HP Hget.
  destruct (is_container d) eqn:Hd; [|discriminate].
  inversion Hinit; subst self.
  unfold __getitem__, try_except in Hget. cbn [silent_fail negb] in Hget.
  destruct (getitem_try (mkDatastructure d false wildcard separator last) P)
    as [v|e'] eqn:Htry; [discriminate|].
  inversion Hget; subst e'.
  exact (getitem_try_errors (mkDatastructure d false wildcard separator last)
           P e Hd HP Hsep Htry).
Qed.

Lemma strict_get_errors_witness :
  __init__ Examples.one_two_three false "*" "." "+"
  = Ok (wrap Examples.one_two_three false)
  /\ "."%string <> EmptyString
  /\ KStr superscript_two <> KNone
  /\ __getitem__ (wrap Examples.one_two_three false) (KStr superscript_two)
     = Raise ValueError
  /\ (ValueError = KeyError \/ ValueError = IndexError \/ ValueError = TypeError
      \/ (ValueError = ValueError
          /\ exists s,
               In s (segments (wrap Examples.one_two_three false)
                       (KStr superscript_two))
               /\ int_refuses s)).
Proof.
  assert (H1 : __init__ Examples.one_two_three false "*" "." "+"
               = Ok (wrap Examples.one_two_three false)) by reflexivity.
  assert (H2 : "."%string <> EmptyString) by discriminate.
  assert (H3 : KStr superscript_two <> KNone) by discriminate.
  assert (H4 : __getitem__ (wrap Examples.one_two_three false) (KStr superscript_two)
               = Raise ValueError) by reflexivity.
  repeat (split; [assumption|]).
  exact (strict_get_errors _ _ _ _ _ _ _ H1 H2 H3 H4).
Defined.

Lemma getitem_by_mode self P e b :
  getitem_try self P = Raise e ->
  __getitem__ (with_silent_fail self b) P = if b then Ok VNone else Raise e.
Proof.
  intros H. unfold __getitem__. rewrite getitem_try_with_silent, H.
  destruct b; reflexivity.
Qed.

(** Once the segments [ks] lead to a value that is no container, any
    further segment fails with the resolver's [KeyError]. *)
Lemma resolve_loop_past_leaf self a ks : ks <> [] ->
  forall rest ctx d k ctx1 p k1 v,
  rest <> [] ->
  resolve_loop self false ctx d k ks = Ok (ctx1, p, k1) ->
  py_getitem p k1 = Ok v -> is_container v = false ->
  resolve_loop self a ctx d k (ks ++ rest) = Raise KeyError.
Proof.
  induction ks as [|s0 ks IH]; [congruence|].
  intros _ rest ctx d k ctx1 p k1 v Hrest Hres Hread Hleaf.
  destruct ks as [|s1 ks].
  - cbn [List.app]. rewrite resolve_loop_more by assumption.
    rewrite resolve_loop_last in Hres.
    apply bind_ok in Hres as (k' & Hk & Hres). inversion Hres; subst.
    rewrite (coerce_key_no_append self a false p s0 false true) by reflexivity.
    rewrite Hk. cbn [bind]. rewrite Hread. cbn [bind]. rewrite Hleaf. reflexivity.
  - cbn [List.app]. rewrite resolve_loop_more by discriminate.
    rewrite resolve_loop_more in Hres by discriminate.
    rewrite (coerce_key_no_append self a false d s0 false false) by reflexivity.
    destruct (coerce_key self false d s0 false) as [k'|]; [|discriminate].
    cbn [bind] in Hres |- *.
    destruct (py_getitem d k') as [d'|]; [|discriminate].
    cbn [bind] in Hres |- *.
    destruct (is_container d'); [|discriminate].
    exact (IH ltac:(discriminate) rest _ _ _ _ _ _ _ Hrest Hres Hread Hleaf).
Qed.

(** X2.  A path that goes on below a leaf: when [P] reads a value that is no
    container, every path whose segments are those of [P] followed by more
    fails with [KeyError] ("cannot be traversed deeper"), so in strict
    mode retrieval raises [KeyError], in silent mode it returns [None],
    and membership is [False]. *)
Theorem get_below_leaf (self : Datastructure) (P P' : key) (v : value)
    (rest : list string) :
  getitem_try self P = Ok v -> is_container v = false ->
  P' <> KNone -> rest <> [] ->
  segments self P' = segments self P ++ rest ->
  getitem_try self P' = Raise KeyError
  /\ __getitem__ (with_silent_fail self false) P' = Raise KeyError
  /\ __getitem__ (with_silent_fail self true) P' = Ok VNone
  /\ __contains__ self P' = Ok (VBool false).
Proof.
  intros Hget Hleaf HP' Hrest Hsegs.
  unfold getitem_try in Hget.
  apply bind_ok in Hget as ([[ctx p] k] & Hobj & Hread).
  apply get_object_inv in Hobj as (_ & Hsep & Hres).
  assert (Hks : segments self P <> []) by apply PyStrFacts.split_nonempty.
  assert (Hobj' : _get_object_and_key self P' false None None = Raise KeyError).
  { rewrite (get_object_eq self P' false HP' Hsep), Hsegs.
    exact (resolve_loop_past_leaf self false _ Hks rest _ _ _ _ _ _ _
             Hrest Hres Hread Hleaf). }
  assert (Htry : getitem_try self P' = Raise KeyError).
  { unfold getitem_try. rewrite Hobj'. reflexivity. }
  split; [exact Htry|].
  split; [exact (getitem_by_mode self P' KeyError false Htry)|].
  split; [exact (getitem_by_mode self P' KeyError true Htry)|].
  unfold __contains__, contains_try. rewrite Hobj'. reflexivity.
Qed.

Lemma get_below_leaf_witness :
  getitem_try (wrap Examples.people true) (KStr "1.friends.0") = Ok (VStr "Betty")
  /\ is_container (VStr "Betty") = false
  /\ KStr "1.friends.0.name" <> KNone
  /\ ["name"%string] <> []
  /\ segments (wrap Examples.people true) (KStr "1.friends.0.name")
     = segments (wrap Examples.people true) (KStr "1.friends.0") ++ ["name"%string]
  /\ getitem_try (wrap Examples.people true) (KStr "1.friends.0.name")
     = Raise KeyError.
Proof.
  assert (H1 : getitem_try (wrap Examples.people true) (KStr "1.friends.0")
               = Ok (VStr "Betty")) by reflexivity.
  assert (H2 : is_container (VStr "Betty") = false) by reflexivity.
  assert (H3 : KStr "1.friends.0.name" <> KNone) by discriminate.
  assert (H4 : ["name"%string] <> []) by discriminate.
  assert (H5 : segments (wrap Examples.people true) (KStr "1.friends.0.name")
               = segments (wrap Examples.people true) (KStr "1.friends.0")
                 ++ ["name"%string]) by reflexivity.
  repeat (split; [assumption|]).
  exact (proj1 (get_below_leaf _ _ _ _ _ H1 H2 H3 H4 H5)).
Defined.

(** ** Assignment: what it creates, what it leaves alone *)

Lemma coerce_dict_int self a m s b z :
  coerce_key self a (VDict m) s b = Ok (KInt z) -> dict_has m (KInt z) = true.
Proof.
  cbn [coerce_key]. destruct (PyStr.isdigit s); [|discriminate].
  destruct (py_int s) as [z'|]; [|discriminate]. cbn [bind].
  destruct (dict_has m (KInt z')) eqn:H; intros E; inversion E; subst.
  exact H.
Qed.

(** Assigning at the key a segment became keeps the segment's key. *)
Lemma coerce_dict_after_set self a a' m s b b' kf V :
  coerce_key self a (VDict m) s b = Ok kf ->
  coerce_key self a' (VDict (dict_set m kf V)) s b' = Ok kf.
Proof.
  cbn [coerce_key]. destruct (PyStr.isdigit s); [|auto].
  destruct (py_int s) as [z|]; [|discriminate]. cbn [bind]. rewrite dict_has_set.
  destruct (dict_has m (KInt z)) eqn:Hh; intros E; inversion E; subst;
    [rewrite key_eqb_refl|]; reflexivity.
Qed.

Lemma dict_has_get m k : dict_has m k = true -> exists v, dict_get m k = Some v.
Proof.
  induction m as [|[k' v'] m IH]; simpl; [discriminate|].
  destruct (key_eqb k k'); [eauto|exact IH].
Qed.

Lemma dict_has_false_get m k : dict_has m k = false -> dict_get m k = None.
Proof.
  induction m as [|[k' v'] m IH]; simpl; [reflexivity|].
  destruct (key_eqb k k'); [discriminate|exact IH].
Qed.

(** X3.  Assignment under a dict creates the key when it is missing (the
    docstring's "assign a new key"): for every path whose parent resolves
    to a dict and whose final segment did not become the append symbol,
    [self[P] = V] succeeds whether or not [P] resolved before, after which
    [self[P]] is [V] and [P in self] is [True]. *)
Theorem set_on_mapping (self : Datastructure) (P : key) (V : value)
    (ctx : list frame) (m : list (key * value)) (kf : key) :
  _get_object_and_key self P true None None = Ok (ctx, VDict m, kf) ->
  kf <> KStr (symbol_last_list_element self) ->
  exists self',
    __setitem__ self P V = Ok (VNone, self')
    /\ __getitem__ self' P = Ok V
    /\ __contains__ self' P = Ok (VBool true).
Proof.
  intros Hobj Hkey. pose proof Hobj as Hres.
  apply get_object_inv in Hres as (HP & Hsep & Hres).
  destruct (segments_snoc self P) as (ks & Hks).
  set (s := final_segment self P) in *. rewrite Hks in Hres.
  destruct (resolve_replug _ _ _ _ _ _ _ _ _ _ Hres) as (Hkf & fs & -> & _ & Hre).
  set (p' := VDict (dict_set m kf V)).
  assert (Hres' : resolve_loop self false [] (plug (fs ++ []) p') KNone (ks ++ [s])
                  = Ok (fs ++ [], p', kf)).
  { rewrite app_nil_r, (Hre false [] KNone p' s eq_refl). unfold p'.
    rewrite (coerce_dict_after_set self true false m s true true kf V Hkf).
    cbn [bind]. rewrite app_nil_r. reflexivity. }
  exists (with_data self (plug (fs ++ []) p')). repeat split.
  - unfold __setitem__, setitem_try. rewrite Hobj. cbn [bind].
    rewrite (key_eqb_neq _ _ Hkey). reflexivity.
  - unfold __getitem__, getitem_try.
    rewrite (get_object_eq (with_data self _) P false HP Hsep).
    change (segments (with_data self (plug (fs ++ []) p')) P) with (segments self P).
    rewrite Hks, resolve_loop_with_data. cbn [data with_data].
    rewrite Hres'. cbn [bind py_getitem p']. rewrite dict_get_set. reflexivity.
  - unfold __contains__, contains_try.
    rewrite (get_object_eq (with_data self _) P false HP Hsep).
    change (segments (with_data self (plug (fs ++ []) p')) P) with (segments self P).
    rewrite Hks, resolve_loop_with_data. cbn [data with_data].
    rewrite Hres'. cbn [bind py_contains p'].
    rewrite dict_has_set, key_eqb_refl, orb_true_r. reflexivity.
Qed.

Lemma set_on_mapping_witness :
  _get_object_and_key (wrap Examples.people true) (KStr "0.address") true None None
  = Ok ([FList [] [Examples.john]], Examples.peter, KStr "address")
  /\ KStr "address" <> KStr (symbol_last_list_element (wrap Examples.people true))
  /\ exists self',
       __setitem__ (wrap Examples.people true) (KStr "0.address") (VStr "at home")
       = Ok (VNone, self')
       /\ __getitem__ self' (KStr "0.address") = Ok (VStr "at home")
       /\ __contains__ self' (KStr "0.address") = Ok (VBool true).
Proof.
  assert (H1 : _get_object_and_key (wrap Examples.people true) (KStr "0.address")
                 true None None
               = Ok ([FList [] [Examples.john]], Examples.peter, KStr "address"))
    by reflexivity.
  assert (H2 : KStr "address"
               <> KStr (symbol_last_list_element (wrap Examples.people true)))
    by discriminate.
  split; [exact H1|]. split; [exact H2|].
  exact (set_on_mapping _ _ (VStr "at home") _ _ _ H1 H2).
Defined.

(** X4.  Assignment never extends a list (only the append symbol appends): for
    every path whose parent resolves to a list and whose final segment is
    an index at or past the end, the assignment raises [IndexError] in
    strict mode and leaves the structure as it is in silent mode. *)
Theorem set_past_end (self : Datastructure) (P : key) (V : value)
    (ctx : list frame) (l : list value) (z : Z) :
  _get_object_and_key self P true None None = Ok (ctx, VList l, KInt z) ->
  Z.of_nat (List.length l) <= z ->
  setitem_try self P V = Raise IndexError
  /\ (silent_fail self = false -> __setitem__ self P V = Raise IndexError)
  /\ (silent_fail self = true -> __setitem__ self P V = Ok (VNone, self)).
Proof.
  intros Hobj Hz.
  assert (Htry : setitem_try self P V = Raise IndexError).
  { unfold setitem_try. rewrite Hobj. cbn [bind key_eqb py_setitem].
    unfold norm_index. destruct (z <? 0) eqn:H0; [lia|].
    destruct ((0 <=? z) && (z <? Z.of_nat (List.length l))) eqn:Hc; [lia|reflexivity]. }
  split; [exact Htry|]. unfold __setitem__. rewrite Htry.
  split; intros ->; reflexivity.
Qed.

Lemma set_past_end_witness :
  _get_object_and_key (wrap Examples.one_two_three false) (KStr "3") true None None
  = Ok ([], VList [VInt 1; VInt 2; VInt 3], KInt 3)
  /\ Z.of_nat (List.length [VInt 1; VInt 2; VInt 3]) <= 3
  /\ setitem_try (wrap Examples.one_two_three false) (KStr "3") (VInt 234)
     = Raise IndexError.
Proof.
  assert (H1 : _get_object_and_key (wrap Examples.one_two_three false) (KStr "3")
                 true None None
               = Ok ([], VList [VInt 1; VInt 2; VInt 3], KInt 3)) by reflexivity.
  assert (H2 : Z.of_nat (List.length [VInt 1; VInt 2; VInt 3]) <= 3)
    by (vm_compute; discriminate).
  split; [exact H1|]. split; [exact H2|].
  exact (proj1 (set_past_end _ _ (VInt 234) _ _ _ H1 H2)).
Defined.

(** ** Membership under a dict *)

(** X5.  Against a dict parent membership is key presence, so it agrees with
    retrieval: for every path whose parent resolves to a dict, [P in self]
    is [True] exactly when [self[P]] resolves. *)
Theorem has_on_mapping (self : Datastructure) (P : key) (ctx : list frame)
    (m : list (key * value)) (kf : key) :
  _get_object_and_key self P false None None = Ok (ctx, VDict m, kf) ->
  __contains__ self P = Ok (VBool (dict_has m kf))
  /\ (__contains__ self P = Ok (VBool true) <-> exists v, getitem_try self P = Ok v).
Proof.
  intros Hobj.
  assert (Hhas : __contains__ self P = Ok (VBool (dict_has m kf))).
  { unfold __contains__, contains_try. rewrite Hobj. reflexivity. }
  split; [exact Hhas|]. rewrite Hhas. unfold getitem_try. rewrite Hobj.
  cbn [bind py_getitem]. split.
  - intros H. assert (Hd : dict_has m kf = true) by congruence.
    destruct (dict_has_get _ _ Hd) as [v ->]. eauto.
  - intros [v H]. destruct (dict_get m kf) eqn:Hg; [|discriminate].
    rewrite (dict_get_has _ _ _ Hg). reflexivity.
Qed.

Lemma has_on_mapping_witness :
  _get_object_and_key (wrap Examples.people true) (KStr "1.age") false None None
  = Ok ([FList [Examples.peter] []], Examples.john, KStr "age")
  /\ __contains__ (wrap Examples.people true) (KStr "1.age") = Ok (VBool true).
Proof.
  assert (H : _get_object_and_key (wrap Examples.people true) (KStr "1.age")
                false None None
              = Ok ([FList [Examples.peter] []], Examples.john, KStr "age"))
    by reflexivity.
  split; [exact H|].
  exact (proj1 (has_on_mapping _ _ _ _ _ H)).
Defined.

(** An integer key the resolver gives is the integer that [int] reads
    in the segment, which is not negative. *)
Lemma coerce_key_int self a d s b z :
  coerce_key self a d s b = Ok (KInt z) -> PyStr.int s = Some z /\ 0 <= z.
Proof.
  intros H. destruct (coerce_key_result _ _ _ _ _ _ H) as [(z' & Hz & E)|E];
    inversion E; subst. split; [exact Hz|]. apply (PyStrFacts.int_some s z' Hz).
Qed.

(** Against a list, a segment that is not the append symbol of an
    assignment becomes an integer. *)
Lemma coerce_list_int self l s b k :
  coerce_key self false (VList l) s b = Ok k -> exists z, k = KInt z.
Proof.
  cbn [coerce_key]. rewrite andb_false_r.
  destruct (PyStr.isdigit s); [|discriminate].
  destruct (py_int s) as [z|]; [|discriminate]. cbn [bind].
  intros H; inversion H. eauto.
Qed.

Lemma nth_error_replace_nth_other l : forall i j v,
  i <> j -> nth_error (replace_nth i l v) j = nth_error l j.
Proof.
  induction l as [|x l IH]; intros [|i] [|j] v H; simpl; try reflexivity;
    try congruence.
  apply IH. congruence.
Qed.

Lemma nth_error_app_left (l : list value) v : forall i,
  (i < List.length l)%nat -> nth_error (l ++ [v]) i = nth_error l i.
Proof.
  induction l as [|x l IH]; intros [|i] H; simpl in *; try lia; [reflexivity|].
  apply IH. lia.
Qed.

Lemma dict_get_set_other m kf V k :
  k <> kf -> dict_get (dict_set m kf V) k = dict_get m k.
Proof.
  intros H. induction m as [|[k' v'] m IH]; simpl.
  - rewrite (key_eqb_neq _ _ H). reflexivity.
  - destruct (key_eqb_spec kf k') as [->|Hne]; simpl.
    + rewrite (key_eqb_neq _ _ H). reflexivity.
    + destruct (key_eqb k k'); [reflexivity|exact IH].
Qed.

Lemma norm_index_nonneg_inv len z i :
  0 <= z -> norm_index len z = Some i -> i = Z.to_nat z /\ (i < len)%nat.
Proof.
  intros Hz H. pose proof (norm_index_lt _ _ _ H) as Hlt. split; [|exact Hlt].
  unfold norm_index in H. destruct (z <? 0) eqn:H0; [lia|].
  destruct ((0 <=? z) && (z <? Z.of_nat len)); inversion H. reflexivity.
Qed.

(** The write of [__setitem__] at the key [kf], an append when [kf] is
    the append symbol. *)
Lemma write_other self p sp sq kf kq vq V p' :
  coerce_key self true p sp true = Ok kf ->
  coerce_key self false p sq true = Ok kq ->
  py_getitem p kq = Ok vq ->
  kq <> kf ->
  (if key_eqb kf (KStr (symbol_last_list_element self))
   then py_append p V else py_setitem p kf V) = Ok p' ->
  is_container p' = true /\ coerce_key self false p' sq true = Ok kq
  /\ py_getitem p' kq = Ok vq.
Proof.
  intros HkP HkQ Hread Hne Hw.
  destruct p as [| | |t|l|l|m];
    try (destruct (key_eqb kf (KStr (symbol_last_list_element self))); discriminate).
  - (* a list *)
    destruct (coerce_list_int _ _ _ _ _ HkQ) as [zq' ->].
    destruct (coerce_key_int _ _ _ _ _ _ HkQ) as [_ Hq0].
    cbn [py_getitem] in Hread.
    apply seq_getitem_inv in Hread as (zq & iq & Ez & Hiq & Hnq).
    inversion Ez; subst zq'.
    destruct (norm_index_nonneg_inv _ _ _ Hq0 Hiq) as [-> Hlt].
    destruct (key_eqb kf (KStr (symbol_last_list_element self))).
    + cbn [py_append] in Hw. inversion Hw; subst p'.
      repeat split; [exact HkQ|].
      cbn [py_getitem seq_getitem].
      rewrite norm_index_nonneg by (rewrite ?length_app; simpl; lia).
      rewrite nth_error_app_left, Hnq by assumption. reflexivity.
    + cbn [py_setitem] in Hw. destruct kf as [|z|]; try discriminate.
      destruct (norm_index (List.length l) z) as [i|] eqn:Hi; [|discriminate].
      inversion Hw; subst p'. repeat split; [exact HkQ|].
      destruct (coerce_key_int _ _ _ _ _ _ HkP) as [_ Hz0].
      destruct (norm_index_nonneg_inv _ _ _ Hz0 Hi) as [-> _].
      cbn [py_getitem seq_getitem]. rewrite length_replace_nth, Hiq.
      rewrite nth_error_replace_nth_other, Hnq; [reflexivity|].
      intros E. apply Hne. f_equal. apply Z2Nat.inj in E; congruence.
  - (* a dict *)
    destruct (key_eqb kf (KStr (symbol_last_list_element self))); [discriminate|].
    cbn [py_setitem] in Hw. inversion Hw; subst p'. repeat split.
    + cbn [coerce_key] in HkQ |- *.
      destruct (PyStr.isdigit sq); [|exact HkQ].
      destruct (py_int sq) as [zq|]; [|discriminate]. cbn [bind] in HkQ |- *.
      rewrite dict_has_set.
      destruct (key_eqb_spec (KInt zq) kf) as [E|E].
      * subst kf. rewrite (coerce_dict_int _ _ _ _ _ _ HkP) in HkQ |- *. exact HkQ.
      * rewrite orb_false_r. exact HkQ.
    + cbn [py_getitem] in Hread |- *.
      rewrite dict_get_set_other by assumption. exact Hread.
Qed.

(** X6.  Assignment leaves the siblings alone: when [self[P] = V] succeeds
    (as an assignment or as an append), every path [Q] that has the
    segments of [P] up to the last one and whose last segment resolves to
    another key of the same parent reads afterwards what it read before. *)
Theorem set_keeps_siblings (self self' : Datastructure) (P Q : key) (V r : value)
    (ks : list string) (sp sq : string) (ctx cq : list frame) (p pq : value)
    (kf kq : key) (vq : value) :
  segments self P = ks ++ [sp] -> segments self Q = ks ++ [sq] ->
  _get_object_and_key self P true None None = Ok (ctx, p, kf) ->
  _get_object_and_key self Q false None None = Ok (cq, pq, kq) ->
  py_getitem pq kq = Ok vq ->
  kq <> kf ->
  setitem_try self P V = Ok (r, self') ->
  pq = p /\ __getitem__ self' Q = Ok vq.
Proof.
  intros HsP HsQ HobjP HobjQ Hread Hne Hset.
  pose proof HobjP as HresP.
  apply get_object_inv in HresP as (_ & Hsep & HresP). rewrite HsP in HresP.
  pose proof HobjQ as HresQ.
  apply get_object_inv in HresQ as (HQ & _ & HresQ). rewrite HsQ in HresQ.
  destruct (resolve_replug _ _ _ _ _ _ _ _ _ _ HresP)
    as (HkP & fs & -> & Hplug & Hre).
  unfold setitem_try in Hset. rewrite HobjP in Hset. cbn [bind] in Hset.
  assert (Hw : exists p',
             (if key_eqb kf (KStr (symbol_last_list_element self))
              then py_append p V else py_setitem p kf V) = Ok p'
             /\ self' = with_data self (plug (fs ++ []) p')).
  { destruct (key_eqb kf (KStr (symbol_last_list_element self)));
      [destruct (py_append p V) as [p'|]|destruct (py_setitem p kf V) as [p'|]];
      try discriminate; inversion Hset; eauto. }
  destruct Hw as (p' & Hw & ->).
  assert (Hc : is_container p = true).
  { destruct p; try reflexivity;
      destruct (key_eqb kf (KStr (symbol_last_list_element self))); discriminate. }
  rewrite <- Hplug in HresQ at 1.
  rewrite (Hre false [] KNone p sq Hc) in HresQ.
  apply bind_ok in HresQ as (kq' & HkQ & E). inversion E; subst cq pq kq'.
  destruct (write_other self p sp sq kf kq vq V p' HkP HkQ Hread Hne Hw)
    as (Hc' & HkQ' & Hread').
  split; [reflexivity|].
  unfold __getitem__, getitem_try.
  rewrite (get_object_eq (with_data self _) Q false HQ Hsep).
  change (segments (with_data self (plug (fs ++ []) p')) Q) with (segments self Q).
  rewrite HsQ, resolve_loop_with_data. cbn [data with_data].
  rewrite app_nil_r, (Hre false [] KNone p' sq Hc'), HkQ'. cbn [bind].
  rewrite Hread'. reflexivity.
Qed.

Lemma set_keeps_siblings_witness :
  segments (wrap Examples.people true) (KStr "0.name") = ["0"; "name"]%string
  /\ segments (wrap Examples.people true) (KStr "0.age") = ["0"; "age"]%string
  /\ _get_object_and_key (wrap Examples.people true) (KStr "0.name") true None None
     = Ok ([FList [] [Examples.john]], Examples.peter, KStr "name")
  /\ _get_object_and_key (wrap Examples.people true) (KStr "0.age") false None None
     = Ok ([FList [] [Examples.john]], Examples.peter, KStr "age")
  /\ py_getitem Examples.peter (KStr "age") = Ok (VInt 45)
  /\ KStr "age" <> KStr "name"
  /\ exists self',
       setitem_try (wrap Examples.people true) (KStr "0.name") (VStr "Peter Pan")
       = Ok (VNone, self')
       /\ __getitem__ self' (KStr "0.age") = Ok (VInt 45).
Proof.
  assert (Hne : KStr "age" <> KStr "name") by discriminate.
  repeat (split; [first [reflexivity|exact Hne]|]).
  eexists. split; [reflexivity|].
  exact (proj2 (set_keeps_siblings (wrap Examples.people true) _
                  (KStr "0.name") (KStr "0.age") (VStr "Peter Pan") VNone
                  ["0"%string] "name" "age" _ _ _ _ _ _ (VInt 45)
                  eq_refl eq_refl eq_refl eq_refl eq_refl Hne eq_refl)).
Defined.

(** ** The root as a collection *)

Lemma segments_whole self c (w : string) :
  symbol_separator self = String c EmptyString ->
  PyStr.has_char c w = false ->
  segments self (KStr w) = [w].
Proof.
  intros Hsep Hw. unfold segments. cbn [str_of_key]. rewrite Hsep.
  apply PyStrFacts.split_char_whole; assumption.
Qed.

(** X7.  Appending at the root (the docstring's [l['+'] = 234]).  Under a
    separator of one character that is not a digit and does not occur in
    the append symbol, and an append symbol that is not a digit string:
    for a list root of length [L], assigning [V] at the append symbol
    alone makes the root the old list followed by [V], [len(self)] goes
    from [L] to [L+1], and the path [L] reads [V]. *)
Theorem append_at_root (self : Datastructure) (c : ascii) (V : value)
    (l : list value) :
  symbol_separator self = String c EmptyString ->
  PyStr.is_digit c = false ->
  PyStr.has_char c (symbol_last_list_element self) = false ->
  PyStr.isdigit (symbol_last_list_element self) = false ->
  data self = VList l ->
  exists self',
    __setitem__ self (KStr (symbol_last_list_element self)) V = Ok (VNone, self')
    /\ data self' = VList (l ++ [V])
    /\ __len__ self = Ok (Z.of_nat (List.length l))
    /\ __len__ self' = Ok (Z.of_nat (List.length l) + 1)
    /\ __getitem__ self' (KStr (PyStr.str (Z.of_nat (List.length l)))) = Ok V.
Proof.
  intros Hsep Hc Hlast Hnd Hdata.
  assert (HsepNE : symbol_separator self <> EmptyString) by (rewrite Hsep; discriminate).
  assert (HK : forall t, KStr t <> KNone) by discriminate.
  exists (with_data self (VList (l ++ [V]))). repeat split.
  - unfold __setitem__, setitem_try.
    rewrite (get_object_eq self _ true (HK _) HsepNE).
    rewrite (segments_whole self c _ Hsep Hlast), Hdata, resolve_loop_last.
    cbn [coerce_key]. rewrite Hnd, String.eqb_refl. cbn [andb bind].
    rewrite key_eqb_refl. reflexivity.
  - unfold __len__. rewrite Hdata. reflexivity.
  - unfold __len__. cbn [data with_data py_len]. rewrite length_app.
    cbn [List.length]. f_equal. lia.
  - unfold __getitem__, getitem_try.
    rewrite (get_object_eq (with_data self _) _ false (HK _) HsepNE).
    change (segments (with_data self ?d) ?k) with (segments self k).
    rewrite (segments_whole self c _ Hsep)
      by (apply PyStrFacts.has_char_str; [assumption|lia]).
    rewrite resolve_loop_with_data, resolve_loop_last. cbn [data with_data coerce_key].
    unfold py_int. rewrite PyStrFacts.isdigit_str, PyStrFacts.int_str by lia.
    cbn [bind]. rewrite getitem_snoc. reflexivity.
Qed.

Lemma append_at_root_witness :
  symbol_separator (wrap Examples.one_two_three true) = String "."%char EmptyString
  /\ PyStr.is_digit "."%char = false
  /\ PyStr.has_char "."%char
       (symbol_last_list_element (wrap Examples.one_two_three true)) = false
  /\ PyStr.isdigit (symbol_last_list_element (wrap Examples.one_two_three true))
     = false
  /\ data (wrap Examples.one_two_three true) = VList [VInt 1; VInt 2; VInt 3]
  /\ exists self',
       __setitem__ (wrap Examples.one_two_three true) (KStr "+") (VInt 234)
       = Ok (VNone, self')
       /\ data self' = VList [VInt 1; VInt 2; VInt 3; VInt 234]
       /\ __len__ (wrap Examples.one_two_three true) = Ok 3
       /\ __len__ self' = Ok 4
       /\ __getitem__ self' (KStr "3") = Ok (VInt 234).
Proof.
  repeat (split; [reflexivity|]).
  exact (append_at_root (wrap Examples.one_two_three true) "."%char (VInt 234)
           [VInt 1; VInt 2; VInt 3] eq_refl eq_refl eq_refl eq_refl eq_refl).
Defined.

(** X8.  [get] is the dict's own lookup, without path notation.  On a dict
    root, for a key of one segment: when the segment is no digit string,
    or is one whose integer value is not a key, [get] returns what
    [self[key]] reads when that resolves, and the default when
    [self[key]] fails, which can then only be with [KeyError].  When the
    segment is a digit string that [int] refuses, [self[key]] fails with
    [ValueError], while [get] still looks the text up.  [get] raises in
    neither case. *)
Theorem get_agrees_with_getitem (self : Datastructure) (m : list (key * value))
    (s : string) (default : value) :
  data self = VDict m ->
  symbol_separator self <> EmptyString ->
  segments self (KStr s) = [s] ->
  (PyStr.isdigit s = false
   \/ (exists z, PyStr.int s = Some z /\ dict_has m (KInt z) = false) ->
   (forall v, getitem_try self (KStr s) = Ok v -> get self (KStr s) default = Ok v)
   /\ (forall e, getitem_try self (KStr s) = Raise e ->
         e = KeyError /\ get self (KStr s) default = Ok default))
  /\ (int_refuses s ->
      getitem_try self (KStr s) = Raise ValueError
      /\ get self (KStr s) default
         = Ok (match dict_get m (KStr s) with Some v => v | None => default end)).
Proof.
  intros Hdata Hsep Hsegs.
  assert (HK : KStr s <> KNone) by discriminate.
  assert (Htry : getitem_try self (KStr s)
                 = (k <- coerce_key self false (VDict m) s true ;;
                    py_getitem (VDict m) k)).
  { unfold getitem_try.
    rewrite (get_object_eq self _ false HK Hsep), Hsegs, Hdata.
    rewrite resolve_loop_last.
    destruct (coerce_key self false (VDict m) s true); reflexivity. }
  split.
  - intros Hplain.
    assert (Hk : coerce_key self false (VDict m) s true = Ok (KStr s)).
    { cbn [coerce_key]. destruct Hplain as [-> | (z & Hz & Hno)]; [reflexivity|].
      destruct (PyStr.isdigit s); [|reflexivity].
      unfold py_int. rewrite Hz. cbn [bind]. rewrite Hno. reflexivity. }
    rewrite Htry, Hk. cbn [bind py_getitem]. unfold get. rewrite Hdata.
    destruct (dict_get m (KStr s)); split; intros x H; inversion H; auto.
  - intros [Hd Hi]. rewrite Htry. cbn [coerce_key]. unfold py_int.
    rewrite Hd, Hi. cbn [bind]. split; [reflexivity|].
    unfold get. rewrite Hdata. destruct (dict_get m (KStr s)); reflexivity.
Qed.

Lemma get_agrees_with_getitem_witness :
  data (wrap (VDict [(KStr superscript_two, VInt 1)]) false)
  = VDict [(KStr superscript_two, VInt 1)]
  /\ symbol_separator (wrap (VDict [(KStr superscript_two, VInt 1)]) false)
     <> EmptyString
  /\ segments (wrap (VDict [(KStr superscript_two, VInt 1)]) false)
       (KStr superscript_two) = [superscript_two]
  /\ int_refuses superscript_two
  /\ getitem_try (wrap (VDict [(KStr superscript_two, VInt 1)]) false)
       (KStr superscript_two) = Raise ValueError
  /\ get (wrap (VDict [(KStr superscript_two, VInt 1)]) false)
       (KStr superscript_two) VNone = Ok (VInt 1).
Proof.
  assert (H2 : symbol_separator (wrap (VDict [(KStr superscript_two, VInt 1)]) false)
               <> EmptyString) by discriminate.
  assert (H4 : int_refuses superscript_two) by (split; reflexivity).
  split; [reflexivity|]. split; [exact H2|]. split; [reflexivity|].
  split; [exact H4|].
  exact (proj2 (get_agrees_with_getitem
                  (wrap (VDict [(KStr superscript_two, VInt 1)]) false) _
                  superscript_two VNone eq_refl H2 eq_refl) H4).
Defined.

(** The two lookups on the dict of the docstring. *)
Example get_on_john :
  get (wrap Examples.john false) (KStr "name") VNone = Ok (VStr "John")
  /\ getitem_try (wrap Examples.john false) (KStr "name") = Ok (VStr "John")
  /\ get (wrap Examples.john false) (KStr "address") (VStr "?") = Ok (VStr "?")
  /\ getitem_try (wrap Examples.john false) (KStr "address") = Raise KeyError
  /\ get (wrap Examples.people false) (KStr "name") VNone = Raise AttributeError
  /\ get (wrap Examples.people true) (KStr "name") (VInt 0) = Ok (VInt 0).
Proof. repeat split. Qed.

(** ** Pattern iteration, case by case *)

(** Reading the segments of [P] from the root is [self[P]]. *)
Lemma getitem_extended_path self P :
  P <> KNone -> symbol_separator self <> EmptyString ->
  _getitem_extended self KNone false (Some (segments self P)) (Some (data self))
  = __getitem__ self P.
Proof.
  intros HP Hsep. unfold _getitem_extended, __getitem__, getitem_try.
  rewrite (get_object_eq self P false HP Hsep).
  unfold _get_object_and_key. cbn [bind]. rewrite py_or_same. reflexivity.
Qed.

Lemma mem_middle w ks after : mem w (ks ++ w :: after) = true.
Proof.
  unfold mem. rewrite existsb_app. cbn [existsb]. rewrite String.eqb_refl.
  cbn [orb]. apply orb_true_r.
Qed.

Lemma index_of_middle w ks after :
  mem w ks = false -> index_of w (ks ++ w :: after) = List.length ks.
Proof.
  unfold mem. induction ks as [|s ks IH]; simpl.
  - rewrite String.eqb_refl. reflexivity.
  - destruct (String.eqb s w); [discriminate|]. intros H. rewrite (IH H). reflexivity.
Qed.

Lemma firstn_left (ks rest : list string) : firstn (List.length ks) (ks ++ rest) = ks.
Proof. induction ks; simpl; [destruct rest; reflexivity|f_equal; assumption]. Qed.

Lemma skipn_right (ks : list string) w after :
  skipn (S (List.length ks)) (ks ++ w :: after) = after.
Proof. induction ks; simpl; auto. Qed.

Lemma py_split_ok sep s : sep <> EmptyString -> py_split sep s = Ok (PyStr.split sep s).
Proof.
  intros H. unfold py_split. destruct (String.eqb_spec sep ""); [congruence|reflexivity].
Qed.

(** X9.  A pattern without wildcard segment is a path: the run yields the one
    pair of the pattern and what [self[pattern]] returns (in silent mode
    [None] when the path does not resolve), and ends with the error
    [self[pattern]] raises when it raises. *)
Theorem iterpattern_plain (self : Datastructure) (pattern : string) :
  symbol_separator self <> EmptyString ->
  mem (symbol_wildcard self) (segments self (KStr pattern)) = false ->
  exists g,
    iterpattern self pattern = Ok g
    /\ consume g = match __getitem__ self (KStr pattern) with
                   | Ok v => ([(pattern, v)], Done)
                   | Raise e => ([], Raised e)
                   end.
Proof.
  intros Hsep Hmem. eexists. split; [reflexivity|].
  cbn [consume]. rewrite (py_split_ok _ _ Hsep).
  change (PyStr.split (symbol_separator self) pattern)
    with (segments self (KStr pattern)).
  cbn [iterpattern_body py_or]. rewrite Hmem.
  rewrite (getitem_extended_path self (KStr pattern) ltac:(discriminate) Hsep).
  unfold segments. cbn [str_of_key]. rewrite PyStrFacts.join_split by assumption.
  reflexivity.
Qed.

Lemma iterpattern_plain_witness :
  symbol_separator (wrap Examples.with_subs true) <> EmptyString
  /\ mem (symbol_wildcard (wrap Examples.with_subs true))
       (segments (wrap Examples.with_subs true) (KStr "1.sub.0.name")) = false
  /\ exists g,
       iterpattern (wrap Examples.with_subs true) "1.sub.0.name" = Ok g
       /\ consume g = ([("1.sub.0.name"%string, VStr "2.1")], Done).
Proof.
  assert (H1 : symbol_separator (wrap Examples.with_subs true) <> EmptyString)
    by discriminate.
  split; [exact H1|]. split; [reflexivity|].
  exact (iterpattern_plain (wrap Examples.with_subs true) "1.sub.0.name" H1 eq_refl).
Defined.

(** X10.  The wildcard against what is no container.  When [self[P]] returns a
    value that is no list, tuple or dict (in silent mode also the [None]
    of a path that does not resolve), a pattern made of the segments of
    [P], the wildcard and anything after it yields nothing: the run ends
    normally in silent mode and with [ValueError] in strict mode. *)
Theorem wildcard_on_leaf (self : Datastructure) (P : key) (pattern : string)
    (after : list string) (v : value) :
  P <> KNone -> symbol_separator self <> EmptyString ->
  mem (symbol_wildcard self) (segments self P) = false ->
  segments self (KStr pattern) = segments self P ++ symbol_wildcard self :: after ->
  __getitem__ self P = Ok v -> is_container v = false ->
  exists g,
    iterpattern self pattern = Ok g
    /\ consume g = if silent_fail self then ([], Done) else ([], Raised ValueError).
Proof.
  intros HP Hsep Hmem Hsegs Hget Hleaf. eexists. split; [reflexivity|].
  cbn [consume]. rewrite (py_split_ok _ _ Hsep).
  change (PyStr.split (symbol_separator self) pattern)
    with (segments self (KStr pattern)).
  rewrite Hsegs. cbn [iterpattern_body py_or].
  rewrite mem_middle, (index_of_middle _ _ _ Hmem), firstn_left, skipn_right.
  pose proof (PyStrFacts.split_nonempty (symbol_separator self) (str_of_key P)) as Hne.
  fold (segments self P) in Hne.
  destruct (segments self P) as [|s0 ks] eqn:Hks; [congruence|].
  cbn [is_nil]. rewrite <- Hks.
  rewrite (getitem_extended_path self P HP Hsep), Hget.
  destruct v; try discriminate; reflexivity.
Qed.

Lemma wildcard_on_leaf_witness :
  KStr "0.name" <> KNone
  /\ symbol_separator (wrap Examples.people false) <> EmptyString
  /\ mem (symbol_wildcard (wrap Examples.people false))
       (segments (wrap Examples.people false) (KStr "0.name")) = false
  /\ segments (wrap Examples.people false) (KStr "0.name.*.x")
     = segments (wrap Examples.people false) (KStr "0.name")
       ++ symbol_wildcard (wrap Examples.people false) :: ["x"%string]
  /\ __getitem__ (wrap Examples.people false) (KStr "0.name") = Ok (VStr "Peter")
  /\ is_container (VStr "Peter") = false
  /\ exists g,
       iterpattern (wrap Examples.people false) "0.name.*.x" = Ok g
       /\ consume g = ([], Raised ValueError).
Proof.
  assert (H1 : KStr "0.name" <> KNone) by discriminate.
  assert (H2 : symbol_separator (wrap Examples.people false) <> EmptyString)
    by discriminate.
  split; [exact H1|]. split; [exact H2|].
  repeat (split; [reflexivity|]).
  exact (wildcard_on_leaf (wrap Examples.people false) (KStr "0.name") "0.name.*.x"
           ["x"%string] (VStr "Peter") H1 H2 eq_refl eq_refl eq_refl eq_refl).
Defined.

Lemma getitem_extended_silent self k a kp dr :
  silent_fail self = true -> exists v, _getitem_extended self k a kp dr = Ok v.
Proof.
  intros H. unfold _getitem_extended, try_except. rewrite H.
  match goal with |- exists v, match ?b with _ => _ end = _ => destruct b end;
    cbn [negb]; eauto.
Qed.

Lemma for_each_done {A : Type} (xs : list A) (f : A -> trace) :
  (forall x, snd (f x) = Done) -> snd (for_each xs f) = Done.
Proof.
  intros H. induction xs as [|x xs IH]; [reflexivity|].
  cbn [for_each]. specialize (H x). destruct (f x) as [ys st]. cbn [snd] in H.
  subst st. destruct (for_each xs f) as [zs st']. exact IH.
Qed.

Lemma iterpattern_body_silent self :
  silent_fail self = true ->
  forall n ks dr, snd (iterpattern_body n self ks dr) = Done.
Proof.
  intros Hs. induction n as [|n IH]; intros ks dr; [reflexivity|].
  cbn [iterpattern_body].
  destruct (mem (symbol_wildcard self) ks).
  - match goal with
    | |- snd (match ?x with _ => _ end) = _ =>
        assert (Hx : exists v, x = Ok v)
    end.
    { destruct (is_nil _); [eauto|apply getitem_extended_silent; assumption]. }
    destruct Hx as [v ->].
    match goal with
    | |- snd (match ?x with _ => _ end) = _ => destruct x as [entries|]
    end; [|rewrite Hs; reflexivity].
    apply for_each_done. intros [wk wv].
    destruct (is_nil _); [reflexivity|]. unfold yield_each. cbn [snd]. apply IH.
  - destruct (getitem_extended_silent self KNone false (Some ks)
                (Some (py_or dr (data self))) Hs) as [v ->].
    reflexivity.
Qed.

(** X11.  In silent mode a pattern expansion never fails: with a non-empty
    separator every run of [iterpattern] ends normally, whatever the
    pattern and the structure.  (With an empty separator the split of the
    pattern raises [ValueError] at the first [next], in silent mode
    too.) *)
Theorem iterpattern_silent_never_raises (self : Datastructure) (pattern : string) :
  silent_fail self = true ->
  exists g,
    iterpattern self pattern = Ok g
    /\ (symbol_separator self <> EmptyString -> exists items, consume g = (items, Done))
    /\ (symbol_separator self = EmptyString -> consume g = ([], Raised ValueError)).
Proof.
  intros Hs. eexists. split; [reflexivity|]. cbn [consume]. split.
  - intros Hsep. rewrite (py_split_ok _ _ Hsep).
    pose proof (iterpattern_body_silent self Hs
                  (S (List.length (PyStr.split (symbol_separator self) pattern)))
                  (PyStr.split (symbol_separator self) pattern) None) as H.
    destruct (iterpattern_body _ self _ None) as [items st]. cbn [snd] in H.
    subst st. eauto.
  - intros ->. reflexivity.
Qed.

Lemma iterpattern_silent_never_raises_witness :
  silent_fail (wrap Examples.people true) = true
  /\ exists g,
       iterpattern (wrap Examples.people true) "*.friends.*.name.*" = Ok g
       /\ exists items, consume g = (items, Done).
Proof.
  split; [reflexivity|].
  destruct (iterpattern_silent_never_raises (wrap Examples.people true)
              "*.friends.*.name.*" eq_refl) as (g & Hg & Hdone & _).
  exists g. split; [exact Hg|]. apply Hdone. discriminate.
Defined.

Lemma map_fst_enumerate_from (l : list value) : forall j,
  map fst (enumerate_from j l)
  = map (fun i => KInt (Z.of_nat i)) (seq j (List.length l)).
Proof.
  induction l as [|x l IH]; intros j; [reflexivity|].
  cbn [enumerate_from map fst List.length seq]. rewrite IH. reflexivity.
Qed.

(** X12.  The wildcard alone enumerates the root: the run of
    [iterpattern(wildcard)] yields, in the order of [self.keys()], one
    pair per key, [str(key)] with the item of that key (for a list or
    tuple root the indexes with the elements, for a dict root its
    items, which are also what [iteritems] gives). *)
Theorem wildcard_at_root (self : Datastructure) (entries : list (key * value)) :
  symbol_separator self <> EmptyString ->
  segments self (KStr (symbol_wildcard self)) = [symbol_wildcard self] ->
  data self = VDict entries
  \/ (exists l, (data self = VList l \/ data self = VTuple l)
                /\ entries = enumerate l) ->
  keys self = Ok (map fst entries)
  /\ (data self = VDict entries -> iteritems self = entries)
  /\ exists g,
       iterpattern self (symbol_wildcard self) = Ok g
       /\ consume g = (map (fun kv => (str_of_key (fst kv), snd kv)) entries, Done).
Proof.
  intros Hsep Hsegs Hroot. split; [|split; [unfold iteritems; intros ->; reflexivity|]].
  - unfold keys. destruct Hroot as [-> | (l & [-> | ->] & ->)];
      [reflexivity| |]; cbn [py_len bind]; rewrite Nat2Z.id;
      unfold range_keys, enumerate; rewrite map_fst_enumerate_from; reflexivity.
  - eexists. split; [reflexivity|].
    cbn [consume]. rewrite (py_split_ok _ _ Hsep).
    change (PyStr.split (symbol_separator self) (symbol_wildcard self))
      with (segments self (KStr (symbol_wildcard self))).
    rewrite Hsegs. cbn [iterpattern_body List.length mem existsb index_of].
    rewrite String.eqb_refl.
    cbn [orb firstn skipn is_nil PyStr.join String.concat String.append].
    rewrite <- (for_each_yield_one entries
                  (fun kv => (str_of_key (fst kv), snd kv))).
    destruct Hroot as [-> | (l & [-> | ->] & ->)];
      apply for_each_ext; intros [k v]; reflexivity.
Qed.

Lemma wildcard_at_root_witness :
  symbol_separator (wrap Examples.john true) <> EmptyString
  /\ segments (wrap Examples.john true) (KStr (symbol_wildcard (wrap Examples.john true)))
     = [symbol_wildcard (wrap Examples.john true)]
  /\ keys (wrap Examples.john true) = Ok [KStr "name"; KStr "age"; KStr "friends"]
  /\ (data (wrap Examples.john true)
      = VDict [(KStr "name", VStr "John"); (KStr "age", VInt 13);
               (KStr "friends", VList [VStr "Betty"; Examples.lucy])] ->
      iteritems (wrap Examples.john true)
      = [(KStr "name", VStr "John"); (KStr "age", VInt 13);
         (KStr "friends", VList [VStr "Betty"; Examples.lucy])])
  /\ exists g,
       iterpattern (wrap Examples.john true) "*" = Ok g
       /\ consume g = ([("name"%string, VStr "John"); ("age"%string, VInt 13);
                        ("friends"%string, VList [VStr "Betty"; Examples.lucy])], Done).
Proof.
  assert (H1 : symbol_separator (wrap Examples.john true) <> EmptyString)
    by discriminate.
  split; [exact H1|]. split; [reflexivity|].
  exact (wildcard_at_root (wrap Examples.john true)
           [(KStr "name", VStr "John"); (KStr "age", VInt 13);
            (KStr "friends", VList [VStr "Betty"; Examples.lucy])]
           H1 eq_refl (or_introl eq_refl)).
Defined.

Lemma py_or_idem dr d : py_or (Some (py_or dr d)) d = py_or dr d.
Proof.
  destruct dr as [v|]; cbn [py_or]; [|destruct (truthy d); reflexivity].
  destruct (truthy v) eqn:Hv; cbn [py_or]; [rewrite Hv; reflexivity|].
  destruct (truthy d); reflexivity.
Qed.

Lemma getitem_extended_or self k a kp dr :
  _getitem_extended self k a kp (Some (py_or dr (data self)))
  = _getitem_extended self k a kp dr.
Proof.
  unfold _getitem_extended, _get_object_and_key. rewrite py_or_idem. reflexivity.
Qed.

Lemma iterpattern_body_plain self n ks dr :
  mem (symbol_wildcard self) ks = false ->
  iterpattern_body (S n) self ks dr =
  match _getitem_extended self KNone false (Some ks) dr with
  | Raise e => ([], Raised e)
  | Ok v => ([(PyStr.join (symbol_separator self) ks, v)], Done)
  end.
Proof.
  intros H. cbn [iterpattern_body]. rewrite H, getitem_extended_or. reflexivity.
Qed.

Lemma join_middle sep before x after :
  after <> [] ->
  PyStr.join sep (before ++ x :: after) =
  ((PyStr.join sep before ++ (if is_nil before then "" else sep))
     ++ x ++ sep ++ PyStr.join sep after)%string.
Proof.
  intros Ha. induction before as [|b before IH].
  - cbn [List.app is_nil PyStr.join String.concat String.append].
    destruct after; [congruence|reflexivity].
  - cbn [List.app is_nil]. rewrite PyStrFacts.join_cons by (destruct before; discriminate).
    rewrite IH. destruct before as [|b' before].
    + cbn [is_nil PyStr.join String.concat String.append].
      rewrite !string_app_assoc. reflexivity.
    + cbn [is_nil]. rewrite (PyStrFacts.join_cons sep b) by discriminate.
      rewrite !string_app_assoc. reflexivity.
Qed.

(** Reading segments from a data root is reading the path on a wrapper
    around that root, which is the whole structure when the root given is
    falsy. *)
Lemma getitem_extended_wrapper self R v :
  R <> KNone -> symbol_separator self <> EmptyString ->
  _getitem_extended self KNone false (Some (segments self R)) (Some v)
  = __getitem__ (with_data self (if truthy v then v else data self)) R.
Proof.
  intros HR Hsep. unfold _getitem_extended, __getitem__, getitem_try.
  rewrite (get_object_eq (with_data self _) R false HR Hsep).
  change (segments (with_data self (if truthy v then v else data self)) R)
    with (segments self R).
  rewrite resolve_loop_with_data. unfold _get_object_and_key.
  cbn [bind py_or data with_data silent_fail]. reflexivity.
Qed.

(** X13.  One wildcard, then plain segments, in silent mode.  For a pattern of
    segments [before], the wildcard, [after] (no wildcard in either, [after]
    not empty) over the container [target] found at [before] (the root
    when [before] is empty), the run yields exactly one pair per entry of
    [target], in order.  The key is the pattern with the entry's key in
    place of the wildcard.  The value is what a path of segments [after]
    reads on a wrapper around the entry's value when that value is
    truthy, and on a wrapper around the whole structure when it is falsy
    (an empty container, 0, the empty text, [False], [None]); it is
    [None] when that read fails. *)
Theorem single_wildcard (self : Datastructure) (pattern : string)
    (before after : list string) (target : value) (entries : list (key * value)) :
  silent_fail self = true ->
  symbol_separator self <> EmptyString ->
  segments self (KStr pattern) = before ++ symbol_wildcard self :: after ->
  mem (symbol_wildcard self) before = false ->
  mem (symbol_wildcard self) after = false ->
  after <> [] ->
  (before = [] /\ target = data self)
  \/ (exists P, P <> KNone /\ segments self P = before
                /\ __getitem__ self P = Ok target) ->
  target = VDict entries
  \/ (exists l, (target = VList l \/ target = VTuple l) /\ entries = enumerate l) ->
  exists g items,
    iterpattern self pattern = Ok g
    /\ consume g = (items, Done)
    /\ List.length items = List.length entries
    /\ forall R, R <> KNone -> segments self R = after ->
       forall i k v, nth_error entries i = Some (k, v) ->
         exists r,
           __getitem__ (with_data self (if truthy v then v else data self)) R = Ok r
           /\ nth_error items i =
              Some (PyStr.join (symbol_separator self)
                      (before ++ str_of_key k :: after), r).
Proof.
  intros Hs Hsep Hsegs Hmb Hma Ha Htarget Hkind.
  set (read := fun v : value =>
                 match _getitem_extended self KNone false (Some after) (Some v) with
                 | Ok r => r
                 | Raise _ => VNone
                 end).
  set (f := fun kv : key * value =>
              (PyStr.join (symbol_separator self)
                 (before ++ str_of_key (fst kv) :: after), read (snd kv))).
  eexists. exists (map f entries). split; [reflexivity|]. split; [|split].
  - cbn [consume]. rewrite (py_split_ok _ _ Hsep).
    change (PyStr.split (symbol_separator self) pattern)
      with (segments self (KStr pattern)).
    rewrite Hsegs. cbn [iterpattern_body py_or].
    rewrite mem_middle, (index_of_middle _ _ _ Hmb), firstn_left, skipn_right.
    assert (Ht : (if is_nil before then Ok (data self)
                  else _getitem_extended self KNone false (Some before)
                         (Some (data self))) = Ok target).
    { destruct Htarget as [[-> ->] | (P & HP & <- & Hget)]; [reflexivity|].
      pose proof (PyStrFacts.split_nonempty (symbol_separator self) (str_of_key P))
        as Hne.
      fold (segments self P) in Hne.
      destruct (segments self P) as [|s0 ks] eqn:Hks; [congruence|].
      cbn [is_nil]. rewrite <- Hks.
      rewrite (getitem_extended_path self P HP Hsep). exact Hget. }
    rewrite Ht.
    assert (Hna : is_nil after = false) by (destruct after; [congruence|reflexivity]).
    rewrite Hna. rewrite <- (for_each_yield_one entries f).
    assert (Hbody : forall k v,
              yield_each
                (fun '(k0, v0) =>
                   (((PyStr.join (symbol_separator self) before
                        ++ (if is_nil before then "" else symbol_separator self))
                       ++ str_of_key k ++ symbol_separator self ++ k0)%string, v0))
                (iterpattern_body
                   (List.length (before ++ symbol_wildcard self :: after))
                   self after (Some v))
              = ([f (k, v)], Done)).
    { intros k v.
      rewrite (iterpattern_body_fuel self _ (S (List.length after)) after (Some v))
        by (rewrite ?length_app; simpl; lia).
      rewrite (iterpattern_body_plain self _ after (Some v) Hma).
      unfold f, read. cbn [fst snd].
      destruct (getitem_extended_silent self KNone false (Some after) (Some v) Hs)
        as [r ->].
      unfold yield_each. cbn [map fst snd].
      rewrite (join_middle _ before (str_of_key k) after Ha). reflexivity. }
    destruct Hkind as [-> | (l & [-> | ->] & ->)];
      apply for_each_ext; intros [k v]; apply Hbody.
  - apply length_map.
  - intros R HR HsR i k v Hi.
    destruct (getitem_extended_silent self KNone false (Some after) (Some v) Hs)
      as [r Hr].
    exists r. split.
    + rewrite <- (getitem_extended_wrapper self R v HR Hsep), HsR. exact Hr.
    + rewrite nth_error_map, Hi. cbn [option_map]. unfold f, read. cbn [fst snd].
      rewrite Hr. reflexivity.
Qed.

Lemma single_wildcard_witness :
  silent_fail (wrap Examples.nested_empty true) = true
  /\ symbol_separator (wrap Examples.nested_empty true) <> EmptyString
  /\ segments (wrap Examples.nested_empty true) (KStr "*.0")
     = [] ++ symbol_wildcard (wrap Examples.nested_empty true) :: ["0"%string]
  /\ exists g items,
       iterpattern (wrap Examples.nested_empty true) "*.0" = Ok g
       /\ consume g = (items, Done)
       /\ List.length items = 2%nat
       /\ (exists r,
             __getitem__ (wrap (VList [VInt 5]) true) (KStr "0") = Ok r
             /\ nth_error items 0 = Some ("0.0"%string, r))
       /\ (exists r,
             __getitem__ (wrap Examples.nested_empty true) (KStr "0") = Ok r
             /\ nth_error items 1 = Some ("1.0"%string, r)).
Proof.
  assert (H2 : symbol_separator (wrap Examples.nested_empty true) <> EmptyString)
    by discriminate.
  assert (HR : KStr "0" <> KNone) by discriminate.
  split; [reflexivity|]. split; [exact H2|]. split; [reflexivity|].
  destruct (single_wildcard (wrap Examples.nested_empty true) "*.0"
              [] ["0"%string] Examples.nested_empty
              (enumerate [VList [VInt 5]; VList []])
              eq_refl H2 eq_refl eq_refl eq_refl ltac:(discriminate)
              (or_introl (conj eq_refl eq_refl))
              (or_intror (ex_intro _ _ (conj (or_introl eq_refl) eq_refl))))
    as (g & items & Hg & Hc & Hlen & Hitems).
  exists g, items. repeat (split; [assumption|]). split.
  - exact (Hitems (KStr "0") HR eq_refl 0%nat (KInt 0) (VList [VInt 5]) eq_refl).
  - exact (Hitems (KStr "0") HR eq_refl 1%nat (KInt 1) (VList []) eq_refl).
Defined.

(** ** Searching and filtering *)

Lemma find_loop_filter_loop f mc items st : forall c,
  find_loop f items st =
  match filter_loop f mc c items st with
  | (x :: _, _) => Ok (VStr (fst x), snd x)
  | ([], Done) => Ok (VNone, VNone)
  | ([], Raised e) => Raise e
  end.
Proof.
  induction items as [|[k v] items IH]; intros c.
  - destruct st; reflexivity.
  - cbn [find_loop filter_loop]. destruct (f v); [|apply IH].
    match goal with |- context [if ?b then _ else _] => destruct b end;
      [reflexivity|].
    destruct (filter_loop f mc (c + 1) items st). reflexivity.
Qed.

(** X14.  [findpattern] with a callable returns what the first [next] on
    [filterpattern] with that callable gives, whatever [max_count]: the
    first accepted pair, [(None, None)] when the filtered iteration is
    exhausted, the error when it raises before any pair is accepted. *)
Theorem findpattern_is_first_filtered (self : Datastructure) (pattern : string)
    (f : value -> bool) (max_count : option Z) :
  exists g,
    filterpattern self pattern (ArgCallable f) max_count = Ok g
    /\ findpattern self pattern (ArgCallable f) =
       match first_next g with
       | Ok (Some (k, v)) => Ok (VStr k, v)
       | Ok None => Ok (VNone, VNone)
       | Raise e => Raise e
       end.
Proof.
  eexists. split; [reflexivity|].
  unfold findpattern, first_next. cbn [iterpattern bind consume callable negb].
  match goal with
  | |- (let '(items, st) := ?t in _) = _ => destruct t as [items st]
  end.
  rewrite (find_loop_filter_loop f max_count items st 0).
  destruct (filter_loop f max_count 0 items st) as [[|[k v] ys] [|e]]; reflexivity.
Qed.

Lemma find_loop_first f pre k v post st :
  f v = true -> (forall kv, In kv pre -> f (snd kv) = false) ->
  find_loop f (pre ++ (k, v) :: post) st = Ok (VStr k, v).
Proof.
  intros Hv. induction pre as [|[k' v'] pre IH]; intros Hpre; cbn [List.app find_loop].
  - rewrite Hv. reflexivity.
  - pose proof (Hpre (k', v') (or_introl eq_refl)) as H0. cbn [snd] in H0.
    rewrite H0. apply IH. intros kv H. apply Hpre. right. exact H.
Qed.

Lemma find_loop_none f items st :
  (forall kv, In kv items -> f (snd kv) = false) ->
  find_loop f items st = match st with
                         | Done => Ok (VNone, VNone)
                         | Raised e => Raise e
                         end.
Proof.
  induction items as [|[k' v'] items IH]; intros H; [reflexivity|].
  cbn [find_loop]. pose proof (H (k', v') (or_introl eq_refl)) as H0.
  cbn [snd] in H0. rewrite H0. apply IH.
  intros kv Hin. apply H. right. exact Hin.
Qed.

(** X15.  [findpattern] returns the first match and stops there.  Over the run
    of [iterpattern(pattern)], with [accepts] the callable given or
    equality with the value given: when a yielded pair is accepted and
    none before it is, that pair is returned, even if the iteration would
    raise later on; when no yielded pair is accepted, the result is
    [(None, None)] if the iteration ends normally and its error
    otherwise. *)
Theorem findpattern_first_match (self : Datastructure) (pattern : string)
    (a : pyarg) (g : generator) (items : list (string * value)) (st : status) :
  iterpattern self pattern = Ok g -> consume g = (items, st) ->
  (forall pre k v post,
     items = pre ++ (k, v) :: post -> accepts a v = true ->
     (forall kv, In kv pre -> accepts a (snd kv) = false) ->
     findpattern self pattern a = Ok (VStr k, v))
  /\ ((forall kv, In kv items -> accepts a (snd kv) = false) ->
      findpattern self pattern a = match st with
                                   | Done => Ok (VNone, VNone)
                                   | Raised e => Raise e
                                   end).
Proof.
  intros Hg Hc.
  assert (Hfind : findpattern self pattern a = find_loop (accepts a) items st).
  { unfold findpattern. rewrite Hg. cbn [bind]. rewrite Hc.
    destruct a; reflexivity. }
  rewrite Hfind. split.
  - intros pre k v post -> Hv Hpre. apply find_loop_first; assumption.
  - apply find_loop_none.
Qed.

Lemma findpattern_first_match_witness :
  (exists g,
        iterpattern (wrap Examples.people false) "1.friends.*" = Ok g
        /\ consume g = ([("1.friends.0"%string, VStr "Betty");
                         ("1.friends.1"%string, Examples.lucy)], Done))
  /\ findpattern (wrap Examples.people false) "1.friends.*" (ArgValue Examples.lucy)
     = Ok (VStr "1.friends.1", Examples.lucy).
Proof.
  split; [eexists; split; reflexivity|].
  refine (proj1 (findpattern_first_match (wrap Examples.people false) "1.friends.*"
                   (ArgValue Examples.lucy) _ _ Done eq_refl eq_refl)
            [("1.friends.0"%string, VStr "Betty")] "1.friends.1"%string
            Examples.lucy [] eq_refl eq_refl _).
  intros kv [<- | []]. reflexivity.
Defined.

Lemma filter_loop_all f items st : forall c,
  filter_loop f None c items st = (filter (fun kv => f (snd kv)) items, st).
Proof.
  induction items as [|[k v] items IH]; intros c; [reflexivity|].
  cbn [filter_loop filter snd]. destruct (f v); [|apply IH].
  rewrite IH. reflexivity.
Qed.

Lemma filter_loop_some f m items st : forall c,
  filter_loop f (Some m) c items st =
  (firstn (Z.to_nat (Z.max 1 (m - c))) (filter (fun kv => f (snd kv)) items),
   if (Z.to_nat (Z.max 1 (m - c))
       <=? List.length (filter (fun kv => f (snd kv)) items))%nat
   then Done else st).
Proof.
  induction items as [|[k v] items IH]; intros c.
  - cbn [filter_loop filter List.length]. rewrite firstn_nil.
    destruct (Nat.leb_spec (Z.to_nat (Z.max 1 (m - c))) 0); [lia|reflexivity].
  - cbn [filter_loop filter snd]. destruct (f v); [|apply IH].
    destruct (Z.leb_spec m (c + 1)) as [Hstop|Hgo].
    + replace (Z.to_nat (Z.max 1 (m - c))) with 1%nat by lia. reflexivity.
    + rewrite IH.
      replace (Z.to_nat (Z.max 1 (m - c)))
        with (S (Z.to_nat (Z.max 1 (m - (c + 1))))) by lia.
      reflexivity.
Qed.

(** X16.  What [filterpattern] yields with a callable: the pairs of
    [iterpattern(pattern)] that the callable accepts, in their order; all
    of them without [max_count], and with [max_count] the first
    [max_count] of them, but never fewer than one: a [max_count] of 0 or
    below still lets the first accepted pair through.  Once the count is
    reached the run ends normally, whatever the rest of the iteration
    would do. *)
Theorem filterpattern_yields (self : Datastructure) (pattern : string)
    (f : value -> bool) (max_count : option Z) (g0 : generator)
    (items : list (string * value)) (st : status) :
  iterpattern self pattern = Ok g0 -> consume g0 = (items, st) ->
  exists g,
    filterpattern self pattern (ArgCallable f) max_count = Ok g
    /\ consume g =
       match max_count with
       | None => (filter (fun kv => f (snd kv)) items, st)
       | Some m =>
           (firstn (Z.to_nat (Z.max 1 m)) (filter (fun kv => f (snd kv)) items),
            if (Z.to_nat (Z.max 1 m)
                <=? List.length (filter (fun kv => f (snd kv)) items))%nat
            then Done else st)
       end.
Proof.
  intros Hg Hc. eexists. split; [reflexivity|].
  cbn [consume callable negb]. rewrite Hg, Hc.
  destruct max_count as [m|].
  - rewrite filter_loop_some. rewrite Z.sub_0_r. reflexivity.
  - apply filter_loop_all.
Qed.

Lemma filterpattern_yields_witness :
  (exists g0,
     iterpattern (wrap Examples.one_two_three true) "*" = Ok g0
     /\ consume g0 = ([("0"%string, VInt 1); ("1"%string, VInt 2);
                       ("2"%string, VInt 3)], Done))
  /\ exists g,
       filterpattern (wrap Examples.one_two_three true) "*"
         (ArgCallable (fun v => match v with VInt z => 2 <=? z | _ => false end))
         (Some 0) = Ok g
       /\ consume g = ([("1"%string, VInt 2)], Done).
Proof.
  split; [eexists; split; reflexivity|].
  exact (filterpattern_yields (wrap Examples.one_two_three true) "*"
           (fun v => match v with VInt z => 2 <=? z | _ => false end) (Some 0)
           _ _ Done eq_refl eq_refl).
Defined.

(** ** Going up a path *)

Lemma slice_to_up {A : Type} (l : list A) (levels : Z) :
  1 <= levels ->
  slice_to l (- levels) = firstn (List.length l - Z.to_nat levels) l.
Proof.
  intros H. unfold slice_to. destruct (- levels <? 0) eqn:E; [|lia].
  f_equal. lia.
Qed.

Lemma slice_to_zero {A : Type} (l : list A) : slice_to l (- 0) = [].
Proof. unfold slice_to. cbn. rewrite Z.min_l by lia. reflexivity. Qed.

Lemma key_level_up_eq self key levels :
  symbol_separator self <> EmptyString -> 1 <= levels ->
  key_level_up self key levels =
  Ok (PyStr.join (symbol_separator self)
        (firstn (List.length (PyStr.split (symbol_separator self) key)
                 - Z.to_nat levels)
           (PyStr.split (symbol_separator self) key))).
Proof.
  intros Hsep Hl. unfold key_level_up. rewrite (py_split_ok _ _ Hsep).
  cbn [bind]. rewrite slice_to_up by assumption. reflexivity.
Qed.

Lemma firstn_all_but_last {A : Type} (l : list A) x :
  firstn (List.length (l ++ [x]) - 1) (l ++ [x]) = l.
Proof.
  rewrite length_app. cbn [List.length].
  replace (List.length l + 1 - 1)%nat with (List.length l) by lia.
  induction l; simpl; [reflexivity|f_equal; assumption].
Qed.

(** X17.  Going up one level undoes an extension by one segment: under a
    separator of one character, for every text [p] and every segment [s]
    in which the separator does not occur, [key_level_up] of [p],
    separator, [s] is [p]. *)
Theorem key_level_up_undoes_extension (self : Datastructure) (c : ascii)
    (p s : string) :
  symbol_separator self = String c EmptyString ->
  PyStr.has_char c s = false ->
  key_level_up self (p ++ symbol_separator self ++ s) 1 = Ok p.
Proof.
  intros Hsep Hs. unfold key_level_up. rewrite Hsep.
  rewrite py_split_ok by discriminate. cbn [bind].
  rewrite (PyStrFacts.split_extend c p s Hs), slice_to_up by lia.
  change (Z.to_nat 1) with 1%nat. rewrite firstn_all_but_last.
  rewrite PyStrFacts.join_split by discriminate. reflexivity.
Qed.

Lemma key_level_up_undoes_extension_witness :
  symbol_separator (wrap Examples.people true) = String "."%char EmptyString
  /\ PyStr.has_char "."%char "name" = false
  /\ key_level_up (wrap Examples.people true) "1.friends.1.name" 1
     = Ok "1.friends.1"%string.
Proof.
  repeat (split; [reflexivity|]).
  exact (key_level_up_undoes_extension (wrap Examples.people true) "."%char
           "1.friends.1" "name" eq_refl eq_refl).
Defined.

(** X18.  The edges of [levels]: going up 0 levels does not return the key but
    the empty text (the slice [parts[:-0]] is empty), and so does going
    up as many levels as the key has segments, or more. *)
Theorem key_level_up_edges (self : Datastructure) (key : string) (levels : Z) :
  symbol_separator self <> EmptyString ->
  levels = 0
  \/ Z.of_nat (List.length (PyStr.split (symbol_separator self) key)) <= levels ->
  key_level_up self key levels = Ok EmptyString.
Proof.
  intros Hsep [-> | H].
  - unfold key_level_up. rewrite (py_split_ok _ _ Hsep). cbn [bind].
    rewrite slice_to_zero. reflexivity.
  - assert (Hl : 1 <= levels).
    { pose proof (PyStrFacts.split_nonempty (symbol_separator self) key) as Hne.
      destruct (PyStr.split (symbol_separator self) key); [congruence|].
      cbn [List.length] in H. lia. }
    rewrite (key_level_up_eq self key levels Hsep Hl).
    replace (List.length (PyStr.split (symbol_separator self) key) - Z.to_nat levels)%nat
      with 0%nat by lia.
    reflexivity.
Qed.

Lemma key_level_up_edges_witness :
  symbol_separator (wrap Examples.people true) <> EmptyString
  /\ key_level_up (wrap Examples.people true) "1.friends" 0 = Ok EmptyString
  /\ key_level_up (wrap Examples.people true) "1.friends" 2 = Ok EmptyString.
Proof.
  assert (H : symbol_separator (wrap Examples.people true) <> EmptyString)
    by discriminate.
  split; [exact H|]. split.
  - exact (key_level_up_edges (wrap Examples.people true) "1.friends" 0 H
             (or_introl eq_refl)).
  - refine (key_level_up_edges (wrap Examples.people true) "1.friends" 2 H
              (or_intror _)).
    vm_compute. discriminate.
Defined.

Lemma cons_head_no_char c x l :
  Ascii.eqb x c = false ->
  Forall (fun s => PyStr.has_char c s = false) l ->
  Forall (fun s => PyStr.has_char c s = false) (PyStr.cons_head x l).
Proof.
  intros Hx Hl. destruct Hl as [|h t Hh Ht]; cbn [PyStr.cons_head].
  - constructor; [|constructor]. cbn [PyStr.has_char].
    rewrite Ascii.eqb_sym, Hx. reflexivity.
  - constructor; [|assumption]. cbn [PyStr.has_char].
    rewrite Ascii.eqb_sym, Hx, Hh. reflexivity.
Qed.

(** The segments of a text hold no separator. *)
Lemma split_char_no_sep c s :
  Forall (fun t => PyStr.has_char c t = false) (PyStr.split (String c EmptyString) s).
Proof.
  induction s as [|x s IH].
  - constructor; [reflexivity|constructor].
  - rewrite PyStrFacts.split_char_cons. destruct (Ascii.eqb x c) eqn:Hx.
    + constructor; [reflexivity|assumption].
    + apply cons_head_no_char; assumption.
Qed.

(** Splitting what was joined gives the segments back. *)
Lemma split_join_char c l :
  l <> [] -> Forall (fun t => PyStr.has_char c t = false) l ->
  PyStr.split (String c EmptyString) (PyStr.join (String c EmptyString) l) = l.
Proof.
  intros Hne Hl. induction Hl as [|h t Hh Ht IH]; [congruence|].
  destruct t as [|h' t].
  - cbn [PyStr.join String.concat]. apply PyStrFacts.split_char_whole. assumption.
  - rewrite PyStrFacts.join_cons by discriminate.
    cbn [String.append]. rewrite PyStrFacts.split_char_app.
    rewrite (PyStrFacts.split_char_whole c h Hh), IH by discriminate. reflexivity.
Qed.

Lemma Forall_firstn_str (Q : string -> Prop) (l : list string) n :
  Forall Q l -> Forall Q (firstn n l).
Proof.
  intros H. revert n. induction H; intros [|n]; simpl; constructor; auto.
Qed.

(** X19.  Going up composes: under a separator of one character, going up [a]
    levels and then [b] levels, both at least 1, is going up [a + b]
    levels. *)
Theorem key_level_up_compose (self : Datastructure) (c : ascii) (key k1 : string)
    (a b : Z) :
  symbol_separator self = String c EmptyString ->
  1 <= a -> 1 <= b ->
  key_level_up self key a = Ok k1 ->
  key_level_up self k1 b = key_level_up self key (a + b).
Proof.
  intros Hsep Ha Hb H1.
  assert (HsepNE : symbol_separator self <> EmptyString) by (rewrite Hsep; discriminate).
  rewrite (key_level_up_eq self key a HsepNE Ha) in H1. inversion H1 as [Hk1].
  rewrite (key_level_up_eq self _ b HsepNE Hb).
  rewrite (key_level_up_eq self key (a + b) HsepNE ltac:(lia)).
  rewrite Hsep in *.
  set (parts := PyStr.split (String c EmptyString) key) in *.
  set (n := List.length parts) in *.
  destruct (Nat.le_gt_cases n (Z.to_nat a)) as [Hle|Hgt].
  - replace (n - Z.to_nat a)%nat with 0%nat by lia.
    replace (n - Z.to_nat (a + b))%nat with 0%nat by lia.
    cbn [firstn PyStr.join String.concat PyStr.split PyStr.split_go List.length].
    replace (1 - Z.to_nat b)%nat with 0%nat by lia. reflexivity.
  - rewrite split_join_char.
    + rewrite length_firstn, firstn_firstn. fold n. do 3 f_equal. lia.
    + intros E. apply (f_equal (@List.length string)) in E.
      rewrite length_firstn in E. cbn [List.length] in E. fold n in E. lia.
    + apply Forall_firstn_str, split_char_no_sep.
Qed.

Lemma key_level_up_compose_witness :
  symbol_separator (wrap Examples.people true) = String "."%char EmptyString
  /\ key_level_up (wrap Examples.people true) "1.friends.1.name" 1
     = Ok "1.friends.1"%string
  /\ key_level_up (wrap Examples.people true) "1.friends.1" 2
     = key_level_up (wrap Examples.people true) "1.friends.1.name" (1 + 2).
Proof.
  repeat (split; [reflexivity|]).
  exact (key_level_up_compose (wrap Examples.people true) "."%char
           "1.friends.1.name" "1.friends.1" 1 2 eq_refl
           ltac:(lia) ltac:(lia) eq_refl).
Defined.

(** X20.  One level up is the parent: under a separator of one character, for
    every path of two segments or more whose parent the resolver finds,
    [key_level_up] gives a path that reads that parent. *)
Theorem key_level_up_parent (self : Datastructure) (c : ascii) (P : string)
    (ctx : list frame) (p : value) (kf : key) :
  symbol_separator self = String c EmptyString ->
  (2 <= List.length (segments self (KStr P)))%nat ->
  _get_object_and_key self (KStr P) false None None = Ok (ctx, p, kf) ->
  exists P0,
    key_level_up self P 1 = Ok P0 /\ getitem_try self (KStr P0) = Ok p.
Proof.
  intros Hsep Hlen Hobj.
  assert (HsepNE : symbol_separator self <> EmptyString) by (rewrite Hsep; discriminate).
  apply get_object_inv in Hobj as (_ & _ & Hres).
  destruct (segments_snoc self (KStr P)) as (ks & Hks).
  set (s := final_segment self (KStr P)) in *.
  assert (Hne : ks <> []).
  { intros ->. rewrite Hks in Hlen. cbn in Hlen. lia. }
  exists (PyStr.join (symbol_separator self) ks). split.
  - rewrite (key_level_up_eq self P 1 HsepNE ltac:(lia)).
    change (PyStr.split (symbol_separator self) P) with (segments self (KStr P)).
    rewrite Hks. change (Z.to_nat 1) with 1%nat. rewrite firstn_all_but_last.
    reflexivity.
  - assert (Hsegs : segments self (KStr (PyStr.join (symbol_separator self) ks)) = ks).
    { unfold segments. cbn [str_of_key]. rewrite Hsep.
      apply split_join_char; [assumption|].
      pose proof (split_char_no_sep c P) as Hall.
      rewrite <- Hsep in Hall. change (PyStr.split (symbol_separator self) P)
        with (segments self (KStr P)) in Hall.
      rewrite Hks in Hall. apply Forall_app in Hall. apply Hall. }
    rewrite Hks, (resolve_snoc self false ks Hne) in Hres.
    unfold getitem_try.
    assert (HK : forall t, KStr t <> KNone) by discriminate.
    rewrite (get_object_eq self _ false (HK _) HsepNE), Hsegs.
    destruct (resolve_loop self false [] (data self) KNone ks)
      as [[[ctx1 p1] k1]|]; [|discriminate].
    cbn [bind] in Hres |- *.
    destruct (py_getitem p1 k1) as [d'|]; [|discriminate].
    cbn [bind] in Hres. destruct (is_container d'); [|discriminate].
    apply bind_ok in Hres as (k2 & _ & E). inversion E; subst. reflexivity.
Qed.

Lemma key_level_up_parent_witness :
  symbol_separator (wrap Examples.people true) = String "."%char EmptyString
  /\ (2 <= List.length (segments (wrap Examples.people true) (KStr "1.friends.0")))%nat
  /\ _get_object_and_key (wrap Examples.people true) (KStr "1.friends.0")
       false None None
     = Ok ([FDict [(KStr "name", VStr "John"); (KStr "age", VInt 13)]
              (KStr "friends") [];
            FList [Examples.peter] []],
           VList [VStr "Betty"; Examples.lucy], KInt 0)
  /\ exists P0,
       key_level_up (wrap Examples.people true) "1.friends.0" 1 = Ok P0
       /\ getitem_try (wrap Examples.people true) (KStr P0)
          = Ok (VList [VStr "Betty"; Examples.lucy]).
Proof.
  assert (H2 : (2 <= List.length
                      (segments (wrap Examples.people true) (KStr "1.friends.0")))%nat)
    by (vm_compute; lia).
  split; [reflexivity|]. split; [exact H2|]. split; [reflexivity|].
  exact (key_level_up_parent (wrap Examples.people true) "."%char "1.friends.0"
           _ _ _ eq_refl H2 eq_refl).
Defined.

(** ** Deletion and the siblings *)

(** Two paths that differ in their last segment only have the same
    parent, and after the parent is replaced the second still leads to
    it. *)
Lemma sibling_parent self a P Q ks sp sq ctx p kf cq pq kq :
  segments self P = ks ++ [sp] -> segments self Q = ks ++ [sq] ->
  _get_object_and_key self P a None None = Ok (ctx, p, kf) ->
  _get_object_and_key self Q false None None = Ok (cq, pq, kq) ->
  is_container p = true ->
  pq = p /\ coerce_key self a p sp true = Ok kf
  /\ coerce_key self false p sq true = Ok kq
  /\ forall p' kq',
       is_container p' = true -> coerce_key self false p' sq true = Ok kq' ->
       getitem_try (with_data self (plug ctx p')) Q = py_getitem p' kq'.
Proof.
  intros HsP HsQ HobjP HobjQ Hc.
  apply get_object_inv in HobjP as (_ & Hsep & HresP). rewrite HsP in HresP.
  apply get_object_inv in HobjQ as (HQ & _ & HresQ). rewrite HsQ in HresQ.
  destruct (resolve_replug _ _ _ _ _ _ _ _ _ _ HresP)
    as (HkP & fs & -> & Hplug & Hre).
  rewrite <- Hplug in HresQ at 1.
  rewrite (Hre false [] KNone p sq Hc) in HresQ.
  apply bind_ok in HresQ as (kq0 & HkQ & E). inversion E; subst cq pq kq0.
  repeat split; try assumption.
  intros p' kq' Hc' Hk'. unfold getitem_try.
  rewrite (get_object_eq (with_data self _) Q false HQ Hsep).
  change (segments (with_data self (plug (fs ++ []) p')) Q) with (segments self Q).
  rewrite HsQ, resolve_loop_with_data. cbn [data with_data].
  rewrite app_nil_r, (Hre false [] KNone p' sq Hc'), Hk'. reflexivity.
Qed.

Lemma dict_get_del_other m kf k :
  k <> kf -> dict_get (dict_del m kf) k = dict_get m k.
Proof.
  intros H. unfold dict_del. induction m as [|[k' v'] m IH]; [reflexivity|].
  cbn [filter fst dict_get].
  destruct (key_eqb_spec kf k') as [->|Hne]; cbn [negb dict_get].
  - rewrite (key_eqb_neq _ _ H). exact IH.
  - rewrite IH. reflexivity.
Qed.

(** X21.  Deletion under a dict leaves the other keys alone: when
    [self.__delitem__(P)] removes a key of a dict, every path [Q] with the
    segments of [P] up to the last one whose last segment resolves to
    another key of that dict reads afterwards what it read before. *)
Theorem delete_keeps_siblings (self self' : Datastructure) (P Q : key) (r : value)
    (ks : list string) (sp sq : string) (ctx cq : list frame)
    (m : list (key * value)) (pq : value) (kf kq : key) (vq : value) :
  segments self P = ks ++ [sp] -> segments self Q = ks ++ [sq] ->
  _get_object_and_key self P false None None = Ok (ctx, VDict m, kf) ->
  _get_object_and_key self Q false None None = Ok (cq, pq, kq) ->
  py_getitem pq kq = Ok vq ->
  kq <> kf ->
  delitem_try self P = Ok (r, self') ->
  __getitem__ self' Q = Ok vq.
Proof.
  intros HsP HsQ HobjP HobjQ Hread Hne Hdel.
  destruct (sibling_parent self false P Q ks sp sq ctx (VDict m) kf cq pq kq
              HsP HsQ HobjP HobjQ eq_refl) as (-> & HkP & HkQ & Hafter).
  unfold delitem_try in Hdel. rewrite HobjP in Hdel. cbn [bind py_delitem] in Hdel.
  destruct (dict_has m kf) eqn:Hhas; [|discriminate].
  cbn [bind] in Hdel. inversion Hdel; subst r self'.
  unfold __getitem__.
  rewrite (Hafter (VDict (dict_del m kf)) kq eq_refl).
  - cbn [py_getitem] in Hread |- *. rewrite dict_get_del_other by assumption.
    rewrite Hread. reflexivity.
  - cbn [coerce_key] in HkQ |- *.
    destruct (PyStr.isdigit sq); [|exact HkQ].
    destruct (py_int sq) as [zq|]; [|discriminate]. cbn [bind] in HkQ |- *.
    rewrite dict_has_del.
    destruct (key_eqb_spec (KInt zq) kf) as [E|E].
    + exfalso. subst kf. rewrite Hhas in HkQ. inversion HkQ. congruence.
    + cbn [negb]. rewrite andb_true_r. exact HkQ.
Qed.

Lemma delete_keeps_siblings_witness :
  segments (wrap Examples.people true) (KStr "1.age") = ["1"; "age"]%string
  /\ segments (wrap Examples.people true) (KStr "1.name") = ["1"; "name"]%string
  /\ KStr "name" <> KStr "age"
  /\ exists self',
       delitem_try (wrap Examples.people true) (KStr "1.age") = Ok (VNone, self')
       /\ __getitem__ self' (KStr "1.name") = Ok (VStr "John").
Proof.
  assert (Hne : KStr "name" <> KStr "age") by discriminate.
  split; [reflexivity|]. split; [reflexivity|]. split; [exact Hne|].
  eexists. split; [reflexivity|].
  exact (delete_keeps_siblings (wrap Examples.people true) _
           (KStr "1.age") (KStr "1.name") VNone ["1"%string] "age" "name"
           _ _ _ _ _ _ (VStr "John")
           eq_refl eq_refl eq_refl eq_refl eq_refl Hne eq_refl).
Defined.

Lemma nth_error_remove_nth (l : list value) : forall i j,
  nth_error (remove_nth i l) j = nth_error l (if (j <? i)%nat then j else S j).
Proof.
  induction l as [|x l IH]; intros i j.
  - destruct i; cbn [remove_nth]; rewrite !nth_error_nil; reflexivity.
  - destruct i as [|i]; [reflexivity|].
    destruct j as [|j]; [reflexivity|].
    cbn [remove_nth nth_error]. rewrite IH.
    change (S j <? S i)%nat with (j <? i)%nat.
    destruct (j <? i)%nat; reflexivity.
Qed.

Lemma getitem_after_remove (l : list value) z zq :
  0 <= z -> z < Z.of_nat (List.length l) -> 0 <= zq ->
  py_getitem (VList (remove_nth (Z.to_nat z) l)) (KInt zq)
  = py_getitem (VList l) (KInt (if zq <? z then zq else zq + 1)).
Proof.
  intros Hz Hlt Hq. cbn [py_getitem seq_getitem].
  pose proof (length_remove_nth l (Z.to_nat z) ltac:(lia)) as Hlen.
  set (l' := remove_nth (Z.to_nat z) l) in *.
  destruct (Z.ltb_spec zq z) as [Hlow|Hhigh].
  - rewrite !norm_index_nonneg by lia. unfold l'. rewrite nth_error_remove_nth.
    destruct (Nat.ltb_spec (Z.to_nat zq) (Z.to_nat z)); [reflexivity|lia].
  - destruct (Z.lt_ge_cases (zq + 1) (Z.of_nat (List.length l))) as [Hin|Hout].
    + rewrite !norm_index_nonneg by lia. unfold l'. rewrite nth_error_remove_nth.
      destruct (Nat.ltb_spec (Z.to_nat zq) (Z.to_nat z)); [lia|].
      replace (Z.to_nat (zq + 1)) with (S (Z.to_nat zq)) by lia. reflexivity.
    + unfold norm_index.
      destruct (zq <? 0) eqn:E1; [lia|]. destruct (zq + 1 <? 0) eqn:E2; [lia|].
      destruct ((0 <=? zq) && (zq <? Z.of_nat (List.length l'))) eqn:E3; [lia|].
      destruct ((0 <=? zq + 1) && (zq + 1 <? Z.of_nat (List.length l))) eqn:E4;
        [lia|reflexivity].
Qed.

(** X22.  Deletion from a list moves the later elements down: when
    [self.__delitem__(P)] removes the element of index [z] of a list,
    every path [Q] with the segments of [P] up to the last one, its last
    segment an index [zq], reads afterwards what the index [zq] read
    before when [zq < z], and what the index [zq + 1] read before
    otherwise (nothing, when that was the end of the list). *)
Theorem delete_shifts (self self' : Datastructure) (P Q : key) (r : value)
    (ks : list string) (sp sq : string) (ctx cq : list frame)
    (l : list value) (z : Z) (pq : value) (kq : key) :
  segments self P = ks ++ [sp] -> segments self Q = ks ++ [sq] ->
  _get_object_and_key self P false None None = Ok (ctx, VList l, KInt z) ->
  _get_object_and_key self Q false None None = Ok (cq, pq, kq) ->
  delitem_try self P = Ok (r, self') ->
  exists zq,
    kq = KInt zq
    /\ getitem_try self' Q
       = py_getitem (VList l) (KInt (if zq <? z then zq else zq + 1)).
Proof.
  intros HsP HsQ HobjP HobjQ Hdel.
  destruct (sibling_parent self false P Q ks sp sq ctx (VList l) (KInt z) cq pq kq
              HsP HsQ HobjP HobjQ eq_refl) as (-> & HkP & HkQ & Hafter).
  destruct (coerce_list_int _ _ _ _ _ HkQ) as [zq HQ].
  destruct (coerce_key_int _ _ _ _ _ _ HkP) as [_ Hz0].
  assert (Hq0 : 0 <= zq).
  { rewrite HQ in HkQ. apply (coerce_key_int _ _ _ _ _ _ HkQ). }
  unfold delitem_try in Hdel. rewrite HobjP in Hdel. cbn [bind py_delitem] in Hdel.
  destruct (norm_index (List.length l) z) as [i|] eqn:Hi; [|discriminate].
  destruct (norm_index_nonneg_inv _ _ _ Hz0 Hi) as [-> Hlt].
  cbn [bind] in Hdel. inversion Hdel; subst r self'.
  exists zq. split; [exact HQ|].
  rewrite (Hafter (VList (remove_nth (Z.to_nat z) l)) kq eq_refl)
    by (rewrite <- HkQ; reflexivity).
  subst kq. apply getitem_after_remove; lia.
Qed.

Lemma delete_shifts_witness :
  segments (wrap Examples.one_two_three true) (KStr "0") = ["0"%string]
  /\ segments (wrap Examples.one_two_three true) (KStr "1") = ["1"%string]
  /\ exists self',
       delitem_try (wrap Examples.one_two_three true) (KStr "0") = Ok (VNone, self')
       /\ exists zq,
            KInt 1 = KInt zq
            /\ getitem_try self' (KStr "1")
               = py_getitem (VList [VInt 1; VInt 2; VInt 3])
                   (KInt (if zq <? 0 then zq else zq + 1)).
Proof.
  split; [reflexivity|]. split; [reflexivity|].
  eexists. split; [reflexivity|].
  exact (delete_shifts (wrap Examples.one_two_three true) _
           (KStr "0") (KStr "1") VNone [] "0" "1" _ _ _ 0 _ _
           eq_refl eq_refl eq_refl eq_refl eq_refl).
Defined.

(** ** Length, truth and keys of the root *)

Lemma length_range_keys n : List.length (range_keys n) = n.
Proof. unfold range_keys. rewrite length_map, length_seq. reflexivity. Qed.

(** X23.  Wherever [len(self)] is defined, [self.keys()] has that many keys and
    [bool(self)] tells whether it is not 0. *)
Theorem len_keys_bool (self : Datastructure) (n : Z) :
  __len__ self = Ok n ->
  (exists ks, keys self = Ok ks /\ Z.of_nat (List.length ks) = n)
  /\ __bool__ self = negb (n =? 0).
Proof.
  unfold __len__, keys, __bool__. destruct (data self) as [| | |s|l|l|m];
    cbn [py_len truthy bind]; intros H; inversion H; subst n;
    (split; [eexists; split; [reflexivity|];
             rewrite ?length_map, ?length_range_keys, ?Nat2Z.id; reflexivity|]).
  - destruct s; reflexivity.
  - destruct l; reflexivity.
  - destruct l; reflexivity.
  - destruct m; reflexivity.
Qed.

Lemma len_keys_bool_witness :
  __len__ (wrap Examples.people true) = Ok 2
  /\ (exists ks, keys (wrap Examples.people true) = Ok ks
                 /\ Z.of_nat (List.length ks) = 2)
  /\ __bool__ (wrap Examples.people true) = true.
Proof.
  split; [reflexivity|].
  exact (len_keys_bool (wrap Examples.people true) 2 eq_refl).
Defined.

(** ** Paths below a path *)

(** X25.  A path that continues a path acts on what that path reads.  Let
    the segments [pre] lead to a container [sub] (the root, or what a
    path reads), let [Q] have the segments [pre] followed by those of a
    path [R].  Then each accessor does on [Q] what it does on [R] over a
    wrapper around [sub]: retrieval and membership return the same,
    assignment and deletion return the same and raise the same, and what
    they make of [sub] is what [pre] leads to afterwards. *)
Theorem path_composition (self : Datastructure) (pre : list string) (sub : value)
    (Q R : key) :
  symbol_separator self <> EmptyString ->
  reads self pre sub -> is_container sub = true ->
  Q <> KNone -> R <> KNone ->
  segments self Q = pre ++ segments self R ->
  __getitem__ self Q = __getitem__ (with_data self sub) R
  /\ __contains__ self Q = __contains__ (with_data self sub) R
  /\ (forall V,
        match __setitem__ (with_data self sub) R V with
        | Ok (r, sub') =>
            exists self',
              __setitem__ self Q V = Ok (r, self') /\ reads self' pre (data sub')
        | Raise e => __setitem__ self Q V = Raise e
        end)
  /\ match __delitem__ (with_data self sub) R with
     | Ok (r, sub') =>
         exists self', __delitem__ self Q = Ok (r, self') /\ reads self' pre (data sub')
     | Raise e => __delitem__ self Q = Raise e
     end.
Proof.
  intros Hsep Hreads Hc HQ HR Hsegs.
  destruct (reads_context self pre sub Hreads Hc) as (C & _ & Hres & Hput).
  assert (Hrest : segments self R <> []) by apply PyStrFacts.split_nonempty.
  assert (HresQ : forall a,
             resolve_loop self a [] (data self) KNone (segments self Q)
             = lift_ctx C (resolve_loop self a [] sub KNone (segments self R))).
  { intros a. rewrite Hsegs. apply Hres. exact Hrest. }
  destruct (focus_try self C sub Q R HQ HR Hsep HresQ) as (Hget & Hhas & Hset & Hdel).
  split; [|split; [|split]].
  - unfold __getitem__. rewrite Hget. reflexivity.
  - unfold __contains__. rewrite Hhas. reflexivity.
  - intros V. unfold __setitem__. rewrite (Hset V).
    change (silent_fail (with_data self sub)) with (silent_fail self).
    destruct (setitem_try (with_data self sub) R V) as [[r sub']|e] eqn:Htry;
      cbn [try_except].
    + eexists. split; [reflexivity|].
      apply Hput. eapply setitem_try_container; eassumption.
    + destruct (silent_fail self); cbn [negb]; [|reflexivity].
      exists self. split; [reflexivity|exact Hreads].
  - unfold __delitem__. rewrite Hdel.
    destruct (delitem_try (with_data self sub) R) as [[r sub']|e] eqn:Htry;
      cbn [try_except].
    + eexists. split; [reflexivity|].
      apply Hput. eapply delitem_try_container; eassumption.
    + exists self. split; [reflexivity|exact Hreads].
Qed.

Lemma path_composition_witness :
  symbol_separator (wrap Examples.people true) <> EmptyString
  /\ reads (wrap Examples.people true) ["1"; "friends"]%string
       (VList [VStr "Betty"; Examples.lucy])
  /\ segments (wrap Examples.people true) (KStr "1.friends.1.name")
     = ["1"; "friends"]%string ++ segments (wrap Examples.people true) (KStr "1.name")
  /\ __getitem__ (wrap Examples.people true) (KStr "1.friends.1.name")
     = __getitem__ (wrap (VList [VStr "Betty"; Examples.lucy]) true) (KStr "1.name").
Proof.
  assert (H1 : symbol_separator (wrap Examples.people true) <> EmptyString)
    by discriminate.
  assert (H2 : reads (wrap Examples.people true) ["1"; "friends"]%string
                 (VList [VStr "Betty"; Examples.lucy])).
  { right. exists (KStr "1.friends"). split; [discriminate|]. split; reflexivity. }
  assert (HQ : KStr "1.friends.1.name" <> KNone) by discriminate.
  assert (HR : KStr "1.name" <> KNone) by discriminate.
  split; [exact H1|]. split; [exact H2|]. split; [reflexivity|].
  exact (proj1 (path_composition (wrap Examples.people true) _ _
                  (KStr "1.friends.1.name") (KStr "1.name")
                  H1 H2 eq_refl HQ HR eq_refl)).
Defined.

(** ** Digit strings that are no numbers *)

(** X26.  A segment that [str.isdigit] accepts and [int] refuses (a
    superscript digit) makes the path fail wherever it meets a list or a
    dict, whether or not the dict has the segment's text as a key: the
    resolver raises the [ValueError] of [int], so retrieval and
    assignment fail with it, membership is [False] and deletion returns
    [False]. *)
Theorem refused_digit_segment (self : Datastructure) (pre rest : list string)
    (d : value) (s : string) (Q : key) :
  symbol_separator self <> EmptyString ->
  reads self pre d ->
  (exists l, d = VList l) \/ (exists m, d = VDict m) ->
  int_refuses s ->
  Q <> KNone -> segments self Q = pre ++ s :: rest ->
  fails_with self Q ValueError.
Proof.
  intros Hsep Hreads Hkind [Hd Hi] HQ Hsegs.
  assert (Hc : is_container d = true)
    by (destruct Hkind as [[l ->]|[m ->]]; reflexivity).
  destruct (reads_context self pre d Hreads Hc) as (C & _ & Hres & _).
  apply fails_with_resolver; [assumption..|]. intros a.
  rewrite Hsegs, (Hres a (s :: rest)) by discriminate.
  cbn [resolve_loop].
  assert (Hk : coerce_key self a d s (is_nil rest) = Raise ValueError).
  { destruct Hkind as [[l ->]|[m ->]]; cbn [coerce_key]; unfold py_int;
      rewrite Hd, Hi; reflexivity. }
  rewrite Hk. reflexivity.
Qed.

Lemma refused_digit_segment_witness :
  symbol_separator (wrap (VDict [(KStr superscript_two, VInt 1)]) false) <> EmptyString
  /\ reads (wrap (VDict [(KStr superscript_two, VInt 1)]) false) []
       (VDict [(KStr superscript_two, VInt 1)])
  /\ int_refuses superscript_two
  /\ segments (wrap (VDict [(KStr superscript_two, VInt 1)]) false)
       (KStr superscript_two) = [] ++ [superscript_two]
  /\ dict_has [(KStr superscript_two, VInt 1)] (KStr superscript_two) = true
  /\ fails_with (wrap (VDict [(KStr superscript_two, VInt 1)]) false)
       (KStr superscript_two) ValueError.
Proof.
  assert (H1 : symbol_separator (wrap (VDict [(KStr superscript_two, VInt 1)]) false)
               <> EmptyString) by discriminate.
  assert (H2 : reads (wrap (VDict [(KStr superscript_two, VInt 1)]) false) []
                 (VDict [(KStr superscript_two, VInt 1)]))
    by (left; split; reflexivity).
  assert (H3 : int_refuses superscript_two) by (split; reflexivity).
  assert (HQ : KStr superscript_two <> KNone) by discriminate.
  split; [exact H1|]. split; [exact H2|]. split; [exact H3|].
  split; [reflexivity|]. split; [reflexivity|].
  exact (refused_digit_segment _ [] [] _ superscript_two (KStr superscript_two)
           H1 H2 (or_intror (ex_intro _ _ eq_refl)) H3 HQ eq_refl).
Defined.
